(** * A verified model of the trading feedback loop

    Shallow embedding of the Python backend (technical_analysis.py,
    advanced_ai_system.py, ai_learning_system.py, enhanced_ml_system.py and
    enhanced_server.py) and the properties of its closed feedback loop.

    Conventions of the embedding:
    - Python floats are modelled as exact rationals [Q]; [min]/[max] are
      [Qmin]/[Qmax], which pick the same argument as Python on ties.
    - a Python dict read with [.get(key, default)] is a record of [option]
      fields read with [default]; dicts used as maps keyed by strings are
      [gmap string _].
    - the clock, the random generator, the price oracle and the scikit-learn
      and [ta] libraries are inputs of the functions that use them.
    - [try/except] blocks are modelled by [option] results of the guarded
      computation and a match on them. *)

From Stdlib Require Import ZArith QArith Qabs Qminmax Lqa String List Bool Lia
  DecimalString Qround.
From stdpp Require Import gmap strings list fin_maps.

Open Scope Q_scope.

(** ** Comparisons and Python helpers *)

Definition Qltb (x y : Q) : bool :=
  match x ?= y with Lt => true | _ => false end.

Definition Qgtb (x y : Q) : bool := Qltb y x.

Definition Qleb (x y : Q) : bool := negb (Qltb y x).

(** [needle in haystack] on Python strings. *)
Fixpoint str_contains (needle haystack : string) : bool :=
  String.prefix needle haystack ||
  match haystack with
  | EmptyString => false
  | String _ rest => str_contains needle rest
  end.

(** [l[-n:]] for a positive [n]: the last [n] elements. *)
Definition last_n {A} (n : nat) (l : list A) : list A :=
  drop (length l - n)%nat l.

(** [deque(maxlen=n).append(x)]: the oldest element is dropped when full. *)
Definition deque_append {A} (maxlen : nat) (l : list A) (x : A) : list A :=
  last_n maxlen (l ++ [x]).

(** ** technical_analysis.py *)

Module TechnicalAnalyzer.

Record Bar := {
  open_time : Z;
  bar_open : Q;
  bar_high : Q;
  bar_low : Q;
  bar_close : Q;
  bar_volume : Q
}.

Record Macd := {
  macd_value : option Q;      (* 'macd' *)
  macd_signal : option Q;     (* 'signal' *)
  macd_histogram : option Q   (* 'histogram' *)
}.

Record Bollinger := {
  bb_upper : option Q;
  bb_middle : option Q;
  bb_lower : option Q;
  bb_position : option Q      (* 'position' *)
}.

Record Emas := {
  ema_20 : option Q;
  ema_50 : option Q;
  crossover : option bool;
  golden_cross : option bool;
  death_cross : option bool
}.

Record Stochastic := {
  stoch_k : option Q;
  stoch_d : option Q
}.

Record Volume := {
  volume_strength : option Q;
  volume_trend : option Q
}.

Record Patterns := {
  hammer : option bool;
  doji : option bool;
  engulfing : option bool
}.

Record SupportResistance := {
  resistance_distance : option Q;
  support_distance : option Q
}.

Record Signals := {
  strength : option Z;
  confidence : option Q;
  bullish_signals : option (list string);
  bearish_signals : option (list string);
  total_signals : option Z;
  net_bullish : option Z
}.

(** The [analysis] dict.  Every key may be absent, as the readers of the dict
    all go through [.get]. *)
Record Analysis := {
  current_price : option Q;
  rsi : option Q;
  macd : option Macd;
  bollinger : option Bollinger;
  emas : option Emas;
  stochastic : option Stochastic;
  volume : option Volume;
  patterns : option Patterns;
  support_resistance : option SupportResistance;
  signals : option Signals
}.

(** The empty dicts [{}] used as defaults of the nested reads. *)
Definition no_macd : Macd := Build_Macd None None None.
Definition no_bollinger : Bollinger := Build_Bollinger None None None None.
Definition no_emas : Emas := Build_Emas None None None None None.
Definition no_stochastic : Stochastic := Build_Stochastic None None.
Definition no_volume : Volume := Build_Volume None None.
Definition no_patterns : Patterns := Build_Patterns None None None.
Definition no_sr : SupportResistance := Build_SupportResistance None None.
Definition no_signals : Signals := Build_Signals None None None None None None.
Definition no_analysis : Analysis :=
  Build_Analysis None None None None None None None None None None.

(** The running state of [generate_signals]: the two label lists and the
    summed strength. *)
Record SignalAcc := {
  acc_bullish : list string;
  acc_bearish : list string;
  acc_strength : Z
}.

Definition bull (label : string) (delta : Z) (a : SignalAcc) : SignalAcc :=
  {| acc_bullish := acc_bullish a ++ [label];
     acc_bearish := acc_bearish a;
     acc_strength := (acc_strength a + delta)%Z |}.

Definition bear (label : string) (delta : Z) (a : SignalAcc) : SignalAcc :=
  {| acc_bullish := acc_bullish a;
     acc_bearish := acc_bearish a ++ [label];
     acc_strength := (acc_strength a - delta)%Z |}.

Definition rsi_rule (an : Analysis) (a : SignalAcc) : SignalAcc :=
  let rsi := default 50 (rsi an) in
  if Qltb rsi 30 then bull "RSI oversold (<30)" 15 a
  else if Qgtb rsi 70 then bear "RSI overbought (>70)" 15 a
  else a.

Definition macd_rule (an : Analysis) (a : SignalAcc) : SignalAcc :=
  let macd := default no_macd (macd an) in
  let h := default 0 (macd_histogram macd) in
  let m := default 0 (macd_value macd) in
  let s := default 0 (macd_signal macd) in
  if Qgtb h 0 && Qgtb m s then bull "MACD bullish crossover" 20 a
  else if Qltb h 0 && Qltb m s then bear "MACD bearish crossover" 20 a
  else a.

Definition ema_rule (an : Analysis) (a : SignalAcc) : SignalAcc :=
  let emas := default no_emas (emas an) in
  if default false (golden_cross emas) then bull "EMA golden cross" 25 a
  else if default false (death_cross emas) then bear "EMA death cross" 25 a
  else if default false (crossover emas) then bull "EMA 20 above EMA 50" 10 a
  else bear "EMA 20 below EMA 50" 10 a.

Definition bollinger_rule (an : Analysis) (a : SignalAcc) : SignalAcc :=
  let bollinger := default no_bollinger (bollinger an) in
  let bb_position := default 0.5 (bb_position bollinger) in
  if Qltb bb_position 0.2 then bull "Price near lower Bollinger Band" 15 a
  else if Qgtb bb_position 0.8 then bear "Price near upper Bollinger Band" 15 a
  else a.

Definition volume_rule (an : Analysis) (a : SignalAcc) : SignalAcc :=
  let volume := default no_volume (volume an) in
  if Qgtb (default 0 (volume_strength volume)) 50 then
    if (acc_strength a >? 0)%Z
    then bull "High volume confirms bullish move" 10 a
    else bear "High volume confirms bearish move" 10 a
  else a.

Definition hammer_rule (an : Analysis) (a : SignalAcc) : SignalAcc :=
  let patterns := default no_patterns (patterns an) in
  if default false (hammer patterns)
  then bull "Hammer candlestick pattern" 12 a
  else a.

Definition engulfing_rule (an : Analysis) (a : SignalAcc) : SignalAcc :=
  let patterns := default no_patterns (patterns an) in
  if default false (engulfing patterns) then
    if (acc_strength a >? 0)%Z
    then bull "Bullish engulfing pattern" 15 a
    else bear "Bearish engulfing pattern" 15 a
  else a.

(** The rules in the order of the source. *)
Definition run_rules (an : Analysis) : SignalAcc :=
  engulfing_rule an
    (hammer_rule an
      (volume_rule an
        (bollinger_rule an
          (ema_rule an
            (macd_rule an
              (rsi_rule an (Build_SignalAcc [] [] 0%Z))))))).

(** [confidence = min(abs(signal_strength) / 100, 0.95)] followed by
    [confidence = max(confidence, 0.5)]. *)
Definition signal_confidence (signal_strength : Z) : Q :=
  Qmax (Qmin (inject_Z (Z.abs signal_strength) / 100) 0.95) 0.5.

Definition generate_signals (an : Analysis) : Signals :=
  let a := run_rules an in
  {| strength := Some (acc_strength a);
     confidence := Some (signal_confidence (acc_strength a));
     bullish_signals := Some (acc_bullish a);
     bearish_signals := Some (acc_bearish a);
     total_signals :=
       Some (Z.of_nat (length (acc_bullish a)) + Z.of_nat (length (acc_bearish a)))%Z;
     net_bullish :=
       Some (Z.of_nat (length (acc_bullish a)) - Z.of_nat (length (acc_bearish a)))%Z |}.

(** The indicator computations are delegated to the [ta] library inside
    [try/except] blocks with fixed defaults, so each is a total function of
    the window. *)
Class IndicatorLib := {
  calculate_rsi : list Bar -> Q;
  calculate_macd : list Bar -> Macd;
  calculate_bollinger_bands : list Bar -> Bollinger;
  calculate_emas : list Bar -> Emas;
  calculate_stochastic : list Bar -> Stochastic;
  analyze_volume : list Bar -> Volume;
  detect_candlestick_patterns : list Bar -> Patterns;
  calculate_support_resistance : list Bar -> SupportResistance
}.

(** [analysis['signals'] = signals] *)
Definition with_signals (analysis : Analysis) (s : Signals) : Analysis :=
  {| current_price := current_price analysis;
     rsi := rsi analysis;
     macd := macd analysis;
     bollinger := bollinger analysis;
     emas := emas analysis;
     stochastic := stochastic analysis;
     volume := volume analysis;
     patterns := patterns analysis;
     support_resistance := support_resistance analysis;
     signals := Some s |}.

(** [comprehensive_analysis(df)]: [None] for a missing window or one of fewer
    than 50 rows, otherwise the indicators and the signals generated from
    them. *)
Definition comprehensive_analysis `{IndicatorLib} (df : option (list Bar))
  : option Analysis :=
  match df with
  | None => None
  | Some bars =>
    if (length bars <? 50)%nat then None
    else
      let analysis :=
        {| current_price := bar_close <$> last bars;
           rsi := Some (calculate_rsi bars);
           macd := Some (calculate_macd bars);
           bollinger := Some (calculate_bollinger_bands bars);
           emas := Some (calculate_emas bars);
           stochastic := Some (calculate_stochastic bars);
           volume := Some (analyze_volume bars);
           patterns := Some (detect_candlestick_patterns bars);
           support_resistance := Some (calculate_support_resistance bars);
           signals := None |} in
      Some (with_signals analysis (generate_signals analysis))
  end.

End TechnicalAnalyzer.

(** ** technical_analysis.py: the indicator computations done in Python

    The computations that do not go through the [ta] library.  [df.tail(n)]
    is [last_n n df]. *)

Module Indicators.
Import TechnicalAnalyzer.

Definition no_pattern : Patterns :=
  Build_Patterns (Some false) (Some false) (Some false).

(** [detect_candlestick_patterns(df)]: the last three rows are taken and the
    last two inspected; fewer than three rows give no pattern. *)
Definition detect_candlestick_patterns (df : list Bar) : Patterns :=
  match last_n 3 df with
  | [_; prev; last] =>
    let body := Qabs (bar_close last - bar_open last) in
    let upper_shadow := bar_high last - Qmax (bar_open last) (bar_close last) in
    let lower_shadow := Qmin (bar_open last) (bar_close last) - bar_low last in
    let hammer := Qgtb lower_shadow (2 * body) && Qltb upper_shadow (0.5 * body) in
    let doji := Qltb body ((bar_high last - bar_low last) * 0.1) in
    let prev_body := Qabs (bar_close prev - bar_open prev) in
    let engulfing :=
      Qgtb body (prev_body * 1.5)
      && ((Qgtb (bar_close last) (bar_open last) && Qltb (bar_close prev) (bar_open prev))
          || (Qltb (bar_close last) (bar_open last) && Qgtb (bar_close prev) (bar_open prev))) in
    Build_Patterns (Some hammer) (Some doji) (Some engulfing)
  | _ => no_pattern
  end.

(** The mean of a rolling window. *)
Definition mean (l : list Q) : Q :=
  fold_left Qplus l 0 / inject_Z (Z.of_nat (length l)).

(** [df['volume'].rolling(window=20).mean().iloc[-1]]: [None] is the [NaN]
    that pandas gives for fewer than 20 rows. *)
Definition volume_ma (df : list Bar) : option Q :=
  if (20 <=? length df)%nat then Some (mean (last_n 20 (bar_volume <$> df))) else None.

(** [analyze_volume(df)], reduced to the two keys that are read back.  An
    empty frame raises on [iloc[-1]] and takes the [except] branch. *)
Definition analyze_volume (df : list Bar) : Volume :=
  match last df with
  | None => Build_Volume (Some 0) (Some 0)
  | Some last_bar =>
    let current_volume := bar_volume last_bar in
    let volume_strength :=
      match volume_ma df with
      | Some ma => if Qgtb ma 0 then (current_volume / ma - 1) * 100 else 0
      | None => 0
      end in
    let first_recent := default 0 (head (last_n 5 (bar_volume <$> df))) in
    let volume_trend :=
      if Qgtb first_recent 0 then (current_volume / first_recent - 1) * 100 else 0 in
    Build_Volume (Some volume_strength) (Some volume_trend)
  end.

(** The loop [for i in range(2, len(xs)-2)] keeping the values that beat
    their two neighbours on each side. *)
Fixpoint local_extrema (beats : Q -> Q -> bool) (xs : list Q) : list Q :=
  match xs with
  | a :: rest =>
    match rest with
    | b :: c :: d :: e :: _ =>
      (if beats c b && beats c a && beats c d && beats c e then [c] else [])
      ++ local_extrema beats rest
    | _ => []
    end
  | [] => []
  end.

(** [min(values, default=d)] and [max(values, default=d)] *)
Definition min_default (values : list Q) (d : Q) : Q :=
  match values with
  | [] => d
  | x :: rest => fold_left Qmin rest x
  end.

Definition max_default (values : list Q) (d : Q) : Q :=
  match values with
  | [] => d
  | x :: rest => fold_left Qmax rest x
  end.

Record Levels := {
  lv_resistance : Q;
  lv_support : Q;
  lv_distances : SupportResistance
}.

(** [calculate_support_resistance(df)].  An empty frame takes the [except]
    branch with its price of 65000.  [None] stands for the non-finite floats
    that the divisions give when the price or the support is zero. *)
Definition calculate_support_resistance (df : list Bar) : option Levels :=
  match last df with
  | None =>
    Some {| lv_resistance := 65000 * 1.02;
            lv_support := 65000 * 0.98;
            lv_distances := Build_SupportResistance (Some 2) (Some 2) |}
  | Some last_bar =>
    let recent_data := last_n 50 df in
    let current_price := bar_close last_bar in
    let resistances := local_extrema Qgtb (bar_high <$> recent_data) in
    let supports := local_extrema Qltb (bar_low <$> recent_data) in
    let resistance :=
      min_default (filter (fun r => Qgtb r current_price) resistances) (current_price * 1.05) in
    let support :=
      max_default (filter (fun s => Qltb s current_price) supports) (current_price * 0.95) in
    if Qeq_bool current_price 0 || Qeq_bool support 0 then None
    else
      Some {| lv_resistance := resistance;
              lv_support := support;
              lv_distances :=
                Build_SupportResistance (Some ((resistance / current_price - 1) * 100))
                                        (Some ((current_price / support - 1) * 100)) |}
  end.

(** The part of [calculate_emas] that follows the [ta] calls, with the four
    moving averages it reads as arguments. *)
Definition calculate_emas_from (ema_20 ema_50 ema_20_prev ema_50_prev : Q) : Emas :=
  let crossover := Qgtb ema_20 ema_50 && Qleb ema_20_prev ema_50_prev in
  let crossunder := Qltb ema_20 ema_50 && Qleb ema_50_prev ema_20_prev in
  {| ema_20 := Some ema_20;
     ema_50 := Some ema_50;
     crossover := Some (Qgtb ema_20 ema_50);
     golden_cross := Some crossover;
     death_cross := Some crossunder |}.

(** The part of [calculate_bollinger_bands] that follows the [ta] calls, with
    the price and the three bands as arguments. *)
Definition calculate_bollinger_bands_from (current_price upper middle lower : Q)
  : Bollinger :=
  let position :=
    if negb (Qeq_bool upper lower) then (current_price - lower) / (upper - lower)
    else 0.5 in
  {| bb_upper := Some upper;
     bb_middle := Some middle;
     bb_lower := Some lower;
     bb_position := Some position |}.

End Indicators.

(** ** Documents shared by the components *)

Module Docs.
Import TechnicalAnalyzer.

(** The [model_details] payload of a prediction. *)
Inductive ModelDetails :=
| MethodDetails (method : string)
| EnsembleDetails (ensemble_method : string)
                  (individual_models : list (string * (Z * Q)))
                  (consensus_score : Q)
                  (feature_count : nat).

(** The prediction dict returned by the ML system.  The ensemble result
    carries a ['timestamp'] besides these keys, which nothing reads. *)
Record Prediction := {
  prediction : string;              (* 'UP' or 'DOWN' *)
  pred_confidence : Q;              (* 'confidence' *)
  prob_up : Q;                      (* probability['up'] *)
  prob_down : Q;                    (* probability['down'] *)
  reasoning : list string;
  model_details : ModelDetails
}.

(** A simulation document of the [enhanced_simulations] and [simulations]
    collections. *)
Record Simulation := {
  sim_id : string;
  timestamp : Z;                    (* seconds *)
  entry_price : Q;
  exit_price : option Q;
  trend : string;
  sim_confidence : option Q;        (* 'confidence' *)
  result_pct : option Q;
  success : option bool;
  closed : bool;
  entry_method : option string;
  technical_analysis : option Analysis;
  ml_prediction : option Prediction;
  learning_feedback : option bool
}.

End Docs.

(** ** advanced_ai_system.py *)

Module ErrorLearning.
Import TechnicalAnalyzer Docs.

Record ErrorStats := {
  total_errors_analyzed : Z;
  patterns_identified : Z;
  corrections_applied : Z;
  improvement_cycles : Z
}.

(** The [error_analysis] dict, reduced to the fields that are read back. *)
Record ErrorAnalysis := {
  ea_simulation_id : string;
  identified_errors : list string
}.

(** The fields of [ErrorLearningSystem] that decide its outputs.  The
    [error_patterns] and [improvement_history] logs are only appended to and
    never read by the functions below; they are left out. *)
Record ErrorLearningSystem := {
  correction_weights : gmap string Q;      (* defaultdict(float) *)
  recent_errors : list ErrorAnalysis;      (* deque(maxlen=200) *)
  error_stats : ErrorStats
}.

(** [ErrorLearningSystem.__init__] *)
Definition init : ErrorLearningSystem :=
  {| correction_weights := ∅;
     recent_errors := [];
     error_stats := Build_ErrorStats 0 0 0 0 |}.

Definition correction_factors : gmap string Q :=
  list_to_map
    [ ("rsi_overbought", 0.15);
      ("rsi_oversold", 0.15);
      ("macd_false_signal", 0.20);
      ("volume_anomaly", 0.10);
      ("ema_crossover_fail", 0.25);
      ("bollinger_breakout_fail", 0.18);
      ("pattern_recognition_fail", 0.12);
      ("support_resistance_break", 0.22) ].

(** The battery of pattern checks, shared by [analyze_failed_prediction] and
    [get_correction_factor] (the source repeats the same conditions in both). *)
Definition rsi_pattern (ta : Analysis) (direction : string) : list string :=
  let rsi := default 50 (rsi ta) in
  if Qgtb rsi 70 && bool_decide (direction = "UP") then ["rsi_overbought"]
  else if Qltb rsi 30 && bool_decide (direction = "DOWN") then ["rsi_oversold"]
  else [].

Definition macd_pattern (ta : Analysis) : list string :=
  let macd := default no_macd (macd ta) in
  if Qltb (Qabs (default 0 (macd_histogram macd))) 0.01
  then ["macd_false_signal"] else [].

Definition ema_pattern (ta : Analysis) (direction : string) : list string :=
  let emas := default no_emas (emas ta) in
  if default false (golden_cross emas) && bool_decide (direction = "UP")
  then ["ema_crossover_fail"] else [].

Definition bollinger_pattern (ta : Analysis) (direction : string) : list string :=
  let bollinger := default no_bollinger (bollinger ta) in
  let bb_position := default 0.5 (bb_position bollinger) in
  if (Qgtb bb_position 0.9 && bool_decide (direction = "UP"))
     || (Qltb bb_position 0.1 && bool_decide (direction = "DOWN"))
  then ["bollinger_breakout_fail"] else [].

Definition volume_pattern (ta : Analysis) : list string :=
  let volume := default no_volume (volume ta) in
  if Qgtb (Qabs (default 0 (volume_strength volume))) 100
  then ["volume_anomaly"] else [].

Definition sr_pattern (ta : Analysis) (direction : string) : list string :=
  let sr := default no_sr (support_resistance ta) in
  if Qltb (default 10 (resistance_distance sr)) 1 && bool_decide (direction = "UP")
  then ["support_resistance_break"] else [].

Definition matched_patterns (ta : Analysis) (direction : string) : list string :=
  rsi_pattern ta direction ++ macd_pattern ta ++ ema_pattern ta direction
  ++ bollinger_pattern ta direction ++ volume_pattern ta
  ++ sr_pattern ta direction.

(** One iteration of the loop of [apply_corrections]: the weights and the
    counter of applied corrections. *)
Definition apply_correction (st : gmap string Q * Z) (error_type : string)
  : gmap string Q * Z :=
  match correction_factors !! error_type with
  | Some factor =>
    let w := default 0 (st.1 !! error_type) + factor in
    (<[error_type := Qmin w 0.8]> st.1, (st.2 + 1)%Z)
  | None => st
  end.

Definition apply_corrections (s : ErrorLearningSystem) (ea : ErrorAnalysis)
  : ErrorLearningSystem :=
  let '(weights, applied) :=
    fold_left apply_correction (identified_errors ea) (correction_weights s, 0%Z) in
  {| correction_weights := weights;
     recent_errors := recent_errors s;
     error_stats :=
       if (applied >? 0)%Z then
         {| total_errors_analyzed := total_errors_analyzed (error_stats s);
            patterns_identified := patterns_identified (error_stats s);
            corrections_applied := (corrections_applied (error_stats s) + applied)%Z;
            improvement_cycles := improvement_cycles (error_stats s) |}
       else error_stats s |}.

(** [analyze_failed_prediction(simulation_data)]: the new state and the
    returned analysis.  A simulation marked successful is returned untouched.
    A simulation stored without analysis carries Python's [None] there (the
    default of the document model): the first indicator read raises, the
    [except] branch returns an error dict ([None] here) and nothing is
    learned. *)
Definition analyze_failed_prediction (s : ErrorLearningSystem) (sim : Simulation)
  : ErrorLearningSystem * option ErrorAnalysis :=
  let predicted_direction := trend sim in
  let actual_success := default false (success sim) in
  if actual_success then (s, Some (Build_ErrorAnalysis (sim_id sim) []))
  else
    match technical_analysis sim with
    | None => (s, None)
    | Some ta =>
      let ea := Build_ErrorAnalysis (sim_id sim) (matched_patterns ta predicted_direction) in
      let s1 :=
        {| correction_weights := correction_weights s;
           recent_errors := deque_append 200 (recent_errors s) ea;
           error_stats :=
             {| total_errors_analyzed := (total_errors_analyzed (error_stats s) + 1)%Z;
                patterns_identified := patterns_identified (error_stats s);
                corrections_applied := corrections_applied (error_stats s);
                improvement_cycles := improvement_cycles (error_stats s) |} |} in
      (apply_corrections s1 ea, Some ea)
    end.

(** [get_correction_factor(technical_analysis, prediction)] *)
Definition get_correction_factor (s : ErrorLearningSystem) (ta : Analysis)
    (prediction : string) : Q :=
  let total_correction :=
    fold_left (fun total k => total - default 0 (correction_weights s !! k))
              (matched_patterns ta prediction) 0 in
  Qmax total_correction (-0.3).

(** Counting the identified errors in a [defaultdict(int)]: an association
    list in order of first insertion, which is the order [sorted] sees. *)
Fixpoint bump (k : string) (counts : list (string * Z)) : list (string * Z) :=
  match counts with
  | [] => [(k, 1%Z)]
  | (k', c) :: rest =>
    if decide (k = k') then (k', (c + 1)%Z) :: rest else (k', c) :: bump k rest
  end.

Definition count_errors (errors : list ErrorAnalysis) : list (string * Z) :=
  fold_left (fun counts ea => fold_left (fun counts k => bump k counts)
                                        (identified_errors ea) counts)
            errors [].

(** [sorted(items, key=lambda x: x[1], reverse=True)]: stable, by decreasing
    count. *)
Fixpoint insert_desc (x : string * Z) (l : list (string * Z)) : list (string * Z) :=
  match l with
  | [] => [x]
  | y :: rest => if (y.2 >? x.2)%Z then y :: insert_desc x rest else x :: y :: rest
  end.

Definition sorted_desc (l : list (string * Z)) : list (string * Z) :=
  fold_right insert_desc [] l.

Record OptimizationAction := {
  oa_error_type : string;
  oa_frequency : Z;
  oa_old_weight : Q;
  oa_new_weight : Q
}.

(** One iteration of the loop over [most_common_errors]. *)
Definition optimize_step (st : gmap string Q * list OptimizationAction)
    (item : string * Z) : gmap string Q * list OptimizationAction :=
  let '(error_type, count) := item in
  if (count >? 5)%Z then
    let current_weight := default 0 (st.1 !! error_type) in
    let new_weight := Qmin (current_weight + 0.1) 0.5 in
    (<[error_type := new_weight]> st.1,
     st.2 ++ [Build_OptimizationAction error_type count current_weight new_weight])
  else st.

Definition most_common_errors (s : ErrorLearningSystem) : list (string * Z) :=
  take 5 (sorted_desc (count_errors (last_n 50 (recent_errors s)))).

(** [optimize_for_90_percent()] *)
Definition optimize_for_90_percent (s : ErrorLearningSystem)
  : ErrorLearningSystem * list OptimizationAction :=
  let '(weights, actions) :=
    fold_left optimize_step (most_common_errors s) (correction_weights s, []) in
  ({| correction_weights := weights;
      recent_errors := recent_errors s;
      error_stats :=
        {| total_errors_analyzed := total_errors_analyzed (error_stats s);
           patterns_identified := patterns_identified (error_stats s);
           corrections_applied := corrections_applied (error_stats s);
           improvement_cycles := (improvement_cycles (error_stats s) + 1)%Z |} |},
   actions).

(** The calls that drive the learner. *)
Inductive Call :=
| ObserveFailure (sim : Simulation)
| Optimize.

Definition step (s : ErrorLearningSystem) (c : Call) : ErrorLearningSystem :=
  match c with
  | ObserveFailure sim => (analyze_failed_prediction s sim).1
  | Optimize => (optimize_for_90_percent s).1
  end.

Definition run (calls : list Call) : ErrorLearningSystem :=
  fold_left step calls init.

(** The bound that every stored correction weight is meant to respect. *)
Definition weights_ok (weights : gmap string Q) : Prop :=
  map_Forall (fun _ w => 0 <= w <= 0.8) weights.

(** [continuous_learning_loop()]: one optimize cycle after the other, here for
    a given number of cycles. *)
Definition continuous_learning_loop (cycles : nat) (s : ErrorLearningSystem)
  : ErrorLearningSystem :=
  Nat.iter cycles (fun s => (optimize_for_90_percent s).1) s.

End ErrorLearning.

(** ** ai_learning_system.py *)

Module MLTrading.
Import TechnicalAnalyzer.

Record MarketConditions := {
  mc_volatility : string;
  mc_trend : string;
  mc_momentum : string;
  mc_volume_profile : string
}.

(** [analyze_market_conditions(technical_analysis)] *)
Definition analyze_market_conditions (ta : Analysis) : MarketConditions :=
  let bb_position := default 0.5 (bb_position (default no_bollinger (bollinger ta))) in
  let emas := default no_emas (emas ta) in
  let rsi := default 50 (rsi ta) in
  let volume_strength := default 0 (volume_strength (default no_volume (volume ta))) in
  {| mc_volatility :=
       if Qgtb bb_position 0.8 || Qltb bb_position 0.2 then "high" else "normal";
     mc_trend := if default false (crossover emas) then "bullish" else "bearish";
     mc_momentum :=
       if Qgtb rsi 60 then "bullish" else if Qltb rsi 40 then "bearish" else "neutral";
     mc_volume_profile :=
       if Qgtb (Qabs volume_strength) 1 then "high"
       else if Qltb (Qabs volume_strength) 0.5 then "low" else "normal" |}.

(** [calculate_adjusted_confidence(ensemble_prediction, technical_analysis)],
    with the two probabilities of the ensemble prediction as arguments. *)
Definition calculate_adjusted_confidence (up_probability down_probability : Q)
    (ta : Analysis) : Q :=
  let base_confidence := Qmax up_probability down_probability in
  let technical_confidence := default 0.5 (confidence (default no_signals (signals ta))) in
  let market_conditions := analyze_market_conditions ta in
  let market_adjustment :=
    (if bool_decide (mc_volatility market_conditions = "high") then 0 - 0.1 else 0)
    + (if bool_decide (mc_trend market_conditions = mc_momentum market_conditions)
       then 0.05 else 0) in
  let combined_confidence :=
    (base_confidence * 0.6 + technical_confidence * 0.4) + market_adjustment in
  Qmax 0.5 (Qmin 0.95 combined_confidence).

Import Docs.

(** The dict returned by [combine_predictions]. *)
Record EnsemblePrediction := {
  final_prediction : Z;
  up_probability : Q;
  down_probability : Q;
  weights : list (string * Q)
}.

(** The first loop of [combine_predictions]: the squared accuracy of every
    model, 0.5 standing for an unknown accuracy. *)
Definition accuracy_weights (model_accuracy : gmap string Q)
    (probabilities : list (string * (Q * Q))) : list (string * Q) :=
  (fun entry => let accuracy := default 0.5 (model_accuracy !! entry.1) in
                (entry.1, accuracy * accuracy)) <$> probabilities.

Definition total_of (ws : list (string * Q)) : Q :=
  fold_left (fun total w => total + w.2) ws 0.

(** The normalisation of the weights; [None] is the [ZeroDivisionError] of
    [1.0 / len(predictions)] for an empty dict. *)
Definition normalize_weights (ws : list (string * Q)) : option (list (string * Q)) :=
  let total_weight := total_of ws in
  if Qgtb total_weight 0 then Some ((fun w => (w.1, w.2 / total_weight)) <$> ws)
  else
    match ws with
    | [] => None
    | _ => Some ((fun w => (w.1, 1 / inject_Z (Z.of_nat (length ws)))) <$> ws)
    end.

(** [combine_predictions(predictions, probabilities)].  [probabilities] lists
    the models in dict order with their (up, down) pair; the classes in
    [predictions] are not read. *)
Definition combine_predictions (model_accuracy : gmap string Q)
    (probabilities : list (string * (Q * Q))) : option EnsemblePrediction :=
  ws ← normalize_weights (accuracy_weights model_accuracy probabilities);
  let up_prob :=
    fold_left (fun up wp => up + wp.2.2.1 * wp.1.2) (zip ws probabilities) 0 in
  let down_prob :=
    fold_left (fun down wp => down + wp.2.2.2 * wp.1.2) (zip ws probabilities) 0 in
  Some {| final_prediction := if Qgtb up_prob down_prob then 1%Z else 0%Z;
          up_probability := up_prob;
          down_probability := down_prob;
          weights := ws |}.

(** [fallback_prediction(technical_analysis)].  [prob_down] is the exact
    difference; the float difference of the code can differ from it in the
    last digit. *)
Definition fallback_prediction (ta : Analysis) : Prediction :=
  let signals := default no_signals (signals ta) in
  let strength := default 0%Z (strength signals) in
  let up_prob := (inject_Z strength + 100) / 200 in
  {| prediction := if (strength >? 0)%Z then "UP" else "DOWN";
     pred_confidence := default 0.5 (confidence signals);
     prob_up := up_prob;
     prob_down := 1 - up_prob;
     reasoning := default [] (bullish_signals signals) ++ default [] (bearish_signals signals);
     model_details := MethodDetails "technical_analysis_fallback" |}.

End MLTrading.

(** ** enhanced_ml_system.py *)

Module EnhancedML.
Import TechnicalAnalyzer Docs.

(** [datetime.utcnow()] as read by the feature extraction. *)
Record Clock := {
  hour : Z;
  weekday : Z
}.

(** A fitted scikit-learn estimator: [None] when the call raises. *)
Record Classifier := {
  clf_predict : list Q -> option Z;             (* predict(x)[0] *)
  clf_predict_proba : list Q -> option (list Q) (* predict_proba(x)[0] *)
}.

(** A fitted [StandardScaler]: [transform], [None] when it raises. *)
Definition Scaler := list Q -> option (list Q).

Record HistoryEntry := {
  he_prediction : Prediction;
  he_technical_analysis : option Analysis
}.

Record QueueEntry := {
  qe_features : list Q;
  qe_label : Z
}.

Record PredictionStats := {
  total_predictions : Z;
  correct_predictions : Z;
  labeled_predictions : Z;
  recent_accuracy : Q;
  model_updates : Z
}.

(** The fields of [EnhancedMLSystem] read by the functions below; the
    [model_accuracy] metrics are only reported, never read back. *)
Record EnhancedMLSystem := {
  models : list (string * Classifier);       (* dict, in insertion order *)
  scaler_primary : option Scaler;            (* scalers.get('primary') *)
  is_trained : bool;
  feature_names : list string;
  prediction_history : list HistoryEntry;    (* deque(maxlen=1000) *)
  learning_queue : list QueueEntry;          (* deque(maxlen=500) *)
  prediction_stats : PredictionStats
}.

(** [EnhancedMLSystem.__init__] *)
Definition init : EnhancedMLSystem :=
  {| models := [];
     scaler_primary := None;
     is_trained := false;
     feature_names := [];
     prediction_history := [];
     learning_queue := [];
     prediction_stats := Build_PredictionStats 0 0 0 0 0 |}.

(** The numeric library and the training procedure are external. *)
Class Numpy := { tanh : Q -> Q }.

(** What [train_models] leaves behind.  When it fails, the scaler may already
    have been stored and the estimators, which are fitted in place one after
    the other, may already have been refitted: the random forest alone, or
    both individual models. *)
Inductive TrainOutcome :=
| TrainFailed (scaler : option Scaler) (random_forest gradient_boost : option Classifier)
| TrainOk (scaler : Scaler) (random_forest gradient_boost ensemble : Classifier).

Class Sklearn := { fit_models : list (list Q) -> list Z -> TrainOutcome }.

Definition bool_feature (b : bool) : Q := if b then 1 else 0.

Definition len_feature (l : list string) : Q := inject_Z (Z.of_nat (length l)).

(** The features appended by [extract_features], before its length fix. *)
Definition raw_features `{Numpy} (ta : Analysis) (now : Clock) : list Q :=
  let macd := default no_macd (macd ta) in
  let bollinger := default no_bollinger (bollinger ta) in
  let emas := default no_emas (emas ta) in
  let stoch := default no_stochastic (stochastic ta) in
  let volume := default no_volume (volume ta) in
  let patterns := default no_patterns (patterns ta) in
  let sr := default no_sr (support_resistance ta) in
  let signals := default no_signals (signals ta) in
  [ default 50 (rsi ta) / 100 ]
  ++ [ default 0 (macd_value macd) / 1000;
       default 0 (macd_signal macd) / 1000;
       default 0 (macd_histogram macd) / 1000 ]
  ++ [ default 0.5 (bb_position bollinger) ]
  ++ [ bool_feature (default false (crossover emas));
       bool_feature (default false (golden_cross emas));
       bool_feature (default false (death_cross emas)) ]
  ++ [ default 50 (stoch_k stoch) / 100;
       default 50 (stoch_d stoch) / 100 ]
  ++ [ tanh (default 0 (volume_strength volume) / 100);
       tanh (default 0 (volume_trend volume) / 100) ]
  ++ [ bool_feature (default false (hammer patterns));
       bool_feature (default false (doji patterns));
       bool_feature (default false (engulfing patterns)) ]
  ++ [ tanh (default 2 (resistance_distance sr) / 10);
       tanh (default 2 (support_distance sr) / 10) ]
  ++ [ tanh (inject_Z (default 0%Z (strength signals)) / 100);
       len_feature (default [] (bullish_signals signals));
       len_feature (default [] (bearish_signals signals)) ]
  ++ [ inject_Z (hour now) / 24;
       inject_Z (weekday now) / 7 ].

(** [while len(features) < 20: features.append(0.0)] then [features[:20]]. *)
Definition fix_length (features : list Q) : list Q :=
  take 20 (features ++ replicate (20 - length features) 0).

(** [extract_features(technical_analysis)].  [None] stands for a payload on
    which the dict reads raise (Python's [None]); the [except] branch then
    returns [np.zeros((1, 20))]. *)
Definition extract_features `{Numpy} (ta : option Analysis) (now : Clock) : list Q :=
  match ta with
  | Some ta => fix_length (raw_features ta now)
  | None => replicate 20 0
  end.

(** [f'{n}'] for an integer. *)
Definition str_of_Z (n : Z) : string := NilZero.string_of_int (Z.to_int n).

(** [basic_prediction(technical_analysis)]; [coin] is the draw of
    [random.choice(['UP', 'DOWN'])] used by the [except] branch. *)
Definition basic_prediction (ta : option Analysis) (coin : bool) : Prediction :=
  match ta with
  | Some ta =>
    let signals := default no_signals (signals ta) in
    let strength := default 0%Z (strength signals) in
    let prediction := if (strength >? 0)%Z then "UP" else "DOWN" in
    let confidence := Qmax (Qmin (inject_Z (Z.abs strength) / 100) 0.8) 0.5 in
    let prob_up :=
      if (strength >? 0)%Z then 0.5 + confidence * 0.5
      else 1 - (0.5 + confidence * 0.5) in
    let prob_down :=
      if (strength >? 0)%Z then 1 - (0.5 + confidence * 0.5)
      else 0.5 + confidence * 0.5 in
    {| prediction := prediction;
       pred_confidence := confidence;
       prob_up := prob_up;
       prob_down := prob_down;
       reasoning := ["Análisis técnico básico"; "Fuerza de señal: " +:+ str_of_Z strength];
       model_details := MethodDetails "Technical Analysis Fallback" |}
  | None =>
    {| prediction := if coin then "UP" else "DOWN";
       pred_confidence := 0.5;
       prob_up := 0.5;
       prob_down := 0.5;
       reasoning := ["Predicción aleatoria por error"];
       model_details := MethodDetails "Random Fallback" |}
  end.

Fixpoint assoc {A} (k : string) (l : list (string * A)) : option A :=
  match l with
  | [] => None
  | (k', v) :: rest => if decide (k = k') then Some v else assoc k rest
  end.

(** [generate_ml_reasoning(technical_analysis, individual_predictions)] *)
Definition generate_ml_reasoning (ta : Analysis)
    (individual_predictions : list (string * (Z * Q))) : list string :=
  let rf_pred := default 0%Z (fst <$> assoc "random_forest" individual_predictions) in
  let gb_pred := default 0%Z (fst <$> assoc "gradient_boost" individual_predictions) in
  let rsi := default 50 (rsi ta) in
  let macd := default no_macd (macd ta) in
  let emas := default no_emas (emas ta) in
  let volume := default no_volume (volume ta) in
  take 5
    ((if (rf_pred =? gb_pred)%Z
      then ["Consenso fuerte entre modelos: " +:+ str_of_Z rf_pred]
      else ["Modelos divididos - usando ensemble"])
     ++ (if Qltb rsi 30 then ["RSI indica sobreventa - posible rebote"]
         else if Qgtb rsi 70 then ["RSI indica sobrecompra - posible corrección"]
         else [])
     ++ (if Qgtb (default 0 (macd_histogram macd)) 0
         then ["MACD histogram positivo - momentum alcista"]
         else ["MACD histogram negativo - momentum bajista"])
     ++ (if default false (golden_cross emas)
         then ["Golden cross detectado - señal alcista fuerte"]
         else if default false (death_cross emas)
         then ["Death cross detectado - señal bajista fuerte"]
         else [])
     ++ (if Qgtb (default 0 (volume_strength volume)) 20
         then ["Alto volumen - confirma dirección del movimiento"]
         else [])).

(** [max] of a probability row; [None] for an empty row (numpy raises). *)
Definition list_max (l : list Q) : option Q :=
  match l with
  | [] => None
  | x :: rest => Some (fold_left Qmax rest x)
  end.

(** The loop over the individual models: for every model but the ensemble,
    its class and the largest of its probabilities.  [None] when a model
    raises. *)
Fixpoint individual_predictions (ms : list (string * Classifier)) (x : list Q)
  : option (list (string * (Z * Q))) :=
  match ms with
  | [] => Some []
  | (name, model) :: rest =>
    if decide (name = "ensemble") then individual_predictions rest x
    else
      pred ← clf_predict model x;
      proba ← clf_predict_proba model x;
      pmax ← list_max proba;
      others ← individual_predictions rest x;
      Some ((name, (pred, pmax)) :: others)
  end.

(** [np.mean] of the predicted classes; [None] is numpy's [nan] for an empty
    list, which fails every comparison. *)
Definition consensus_of (preds : list (string * (Z * Q))) : option Q :=
  match preds with
  | [] => None
  | _ =>
    Some (inject_Z (fold_left (fun s p => (s + p.2.1)%Z) preds 0%Z)
          / inject_Z (Z.of_nat (length preds)))
  end.

Definition strong_consensus (consensus : option Q) : bool :=
  match consensus with
  | Some c => Qgtb (Qabs (c - 0.5)) 0.2
  | None => false
  end.

(** The body of the [try] block of [advanced_prediction] once the models are
    known to be trained: [None] when anything in it raises. *)
Definition ensemble_prediction `{Numpy} (s : EnhancedMLSystem) (ta : option Analysis)
    (now : Clock) : option Prediction :=
  let features := extract_features ta now in
  features_scaled ←
    match scaler_primary s with
    | Some transform => transform features
    | None => Some features
    end;
  ensemble ← assoc "ensemble" (models s);
  ensemble_pred ← clf_predict ensemble features_scaled;
  ensemble_proba ← clf_predict_proba ensemble features_scaled;
  individual ← individual_predictions (models s) features_scaled;
  let consensus := consensus_of individual in
  confidence ← list_max ensemble_proba;
  let confidence :=
    if strong_consensus consensus then Qmin (confidence * 1.1) 0.95 else confidence in
  prob_up ←
    match ensemble_proba with
    | _ :: p1 :: _ => Some p1
    | [p0] => Some (1 - p0)
    | [] => None
    end;
  reasoning ← (fun an => generate_ml_reasoning an individual) <$> ta;
  Some {| prediction := if (ensemble_pred =? 1)%Z then "UP" else "DOWN";
          pred_confidence := confidence;
          prob_up := prob_up;
          prob_down := 1 - prob_up;
          reasoning := reasoning;
          model_details :=
            (* [nan] is recorded as 0 *)
            EnsembleDetails "Voting Classifier" individual (default 0 consensus)
                            (length (feature_names s)) |}.

(** [advanced_prediction(technical_analysis)]: the new state and the returned
    prediction.  Untrained models and every exception of the ensemble path
    lead to [basic_prediction]. *)
Definition advanced_prediction `{Numpy} (s : EnhancedMLSystem) (ta : option Analysis)
    (now : Clock) (coin : bool) : EnhancedMLSystem * Prediction :=
  if negb (is_trained s) || bool_decide (models s = []) then
    (s, basic_prediction ta coin)
  else
    match ensemble_prediction s ta now with
    | Some result =>
      ({| models := models s;
          scaler_primary := scaler_primary s;
          is_trained := is_trained s;
          feature_names := feature_names s;
          prediction_history :=
            deque_append 1000 (prediction_history s) (Build_HistoryEntry result ta);
          learning_queue := learning_queue s;
          prediction_stats :=
            {| total_predictions := (total_predictions (prediction_stats s) + 1)%Z;
               correct_predictions := correct_predictions (prediction_stats s);
               labeled_predictions := labeled_predictions (prediction_stats s);
               recent_accuracy := recent_accuracy (prediction_stats s);
               model_updates := model_updates (prediction_stats s) |} |},
       result)
    | None => (s, basic_prediction ta coin)
    end.

(** [collect_training_data()]: the closed simulations with a technical
    analysis, at most 500 of them; [None] below 10 samples. *)
Definition collect_training_data `{Numpy} (enhanced_simulations : list Simulation)
    (now : Clock) : option (list (list Q) * list Z) :=
  let simulations :=
    take 500 (filter (fun sim => closed sim = true ∧ is_Some (technical_analysis sim))
                     enhanced_simulations) in
  if (length simulations <? 10)%nat then None
  else
    let X := (fun sim => extract_features (technical_analysis sim) now) <$> simulations in
    let y := (fun sim => if default false (success sim) then 1%Z else 0%Z) <$> simulations in
    Some (X, y).

(** The estimators fitted by [train_models] are the objects of
    [model_configs], which [self.models] holds after a first success: one
    that is refitted in place shows under its key there. *)
Fixpoint refit (name : string) (model : option Classifier)
    (ms : list (string * Classifier)) : list (string * Classifier) :=
  match ms with
  | [] => []
  | (k, v) :: rest =>
    (k, if decide (k = name) then default v model else v) :: refit name model rest
  end.

(** [train_models(X, y)]: the new state and the returned flag. *)
Definition train_models `{Sklearn} (s : EnhancedMLSystem) (X : list (list Q))
    (y : list Z) : EnhancedMLSystem * bool :=
  match fit_models X y with
  | TrainFailed scaler rf gb =>
    ({| models := refit "gradient_boost" gb (refit "random_forest" rf (models s));
        scaler_primary := match scaler with Some sc => Some sc | None => scaler_primary s end;
        is_trained := is_trained s;
        feature_names := feature_names s;
        prediction_history := prediction_history s;
        learning_queue := learning_queue s;
        prediction_stats := prediction_stats s |}, false)
  | TrainOk scaler rf gb ens =>
    ({| models := [("random_forest", rf); ("gradient_boost", gb); ("ensemble", ens)];
        scaler_primary := Some scaler;
        is_trained := true;
        feature_names :=
          ["RSI"; "MACD"; "MACD Signal"; "MACD Histogram"; "BB Position";
           "EMA Crossover"; "EMA Golden Cross"; "EMA Death Cross";
           "Stoch K"; "Stoch D"; "Volume Strength"; "Volume Trend";
           "Hammer Pattern"; "Doji Pattern"; "Engulfing Pattern";
           "Resistance Distance"; "Support Distance"; "Signal Strength";
           "Bullish Signals"; "Bearish Signals"];
        prediction_history := prediction_history s;
        learning_queue := learning_queue s;
        prediction_stats :=
          {| total_predictions := total_predictions (prediction_stats s);
             correct_predictions := correct_predictions (prediction_stats s);
             labeled_predictions := labeled_predictions (prediction_stats s);
             recent_accuracy := recent_accuracy (prediction_stats s);
             model_updates := (model_updates (prediction_stats s) + 1)%Z |} |}, true)
  end.

Definition clear_learning_queue (s : EnhancedMLSystem) : EnhancedMLSystem :=
  {| models := models s;
     scaler_primary := scaler_primary s;
     is_trained := is_trained s;
     feature_names := feature_names s;
     prediction_history := prediction_history s;
     learning_queue := [];
     prediction_stats := prediction_stats s |}.

(** [incremental_retrain()] *)
Definition incremental_retrain `{Numpy} `{Sklearn} (s : EnhancedMLSystem)
    (enhanced_simulations : list Simulation) (now : Clock) : EnhancedMLSystem :=
  match collect_training_data enhanced_simulations now with
  | Some (X, y) =>
    if (50 <? length X)%nat then
      let '(s', ok) := train_models s X y in
      if ok then clear_learning_queue s' else s'
    else s
  | None => s
  end.

(** The bookkeeping of [learn_from_result] for the entry it has picked. *)
Definition record_label `{Numpy} (s : EnhancedMLSystem) (entry : HistoryEntry)
    (actual_result : bool) (now : Clock) : EnhancedMLSystem :=
  let predicted_direction := prediction (he_prediction entry) in
  let was_correct :=
    (bool_decide (predicted_direction = "UP") && actual_result)
    || (bool_decide (predicted_direction = "DOWN") && negb actual_result) in
  let labeled := (labeled_predictions (prediction_stats s) + 1)%Z in
  let correct :=
    if was_correct then (correct_predictions (prediction_stats s) + 1)%Z
    else correct_predictions (prediction_stats s) in
  {| models := models s;
     scaler_primary := scaler_primary s;
     is_trained := is_trained s;
     feature_names := feature_names s;
     prediction_history := prediction_history s;
     learning_queue :=
       deque_append 500 (learning_queue s)
         {| qe_features := extract_features (he_technical_analysis entry) now;
            qe_label := if actual_result then 1%Z else 0%Z |};
     prediction_stats :=
       {| total_predictions := total_predictions (prediction_stats s);
          correct_predictions := correct;
          labeled_predictions := labeled;
          recent_accuracy :=
            if (labeled >? 0)%Z then inject_Z correct / inject_Z labeled
            else recent_accuracy (prediction_stats s);
          model_updates := model_updates (prediction_stats s) |} |}.

(** [learn_from_result(simulation_id, actual_result)]: the loop over
    [reversed(self.prediction_history)] stops at its first entry. *)
Definition learn_from_result `{Numpy} `{Sklearn} (s : EnhancedMLSystem)
    (simulation_id : string) (actual_result : bool)
    (enhanced_simulations : list Simulation) (now : Clock) : EnhancedMLSystem :=
  let matching_prediction := head (reverse (prediction_history s)) in
  match matching_prediction with
  | Some entry =>
    let s1 := record_label s entry actual_result now in
    if (50 <=? length (learning_queue s1))%nat
    then incremental_retrain s1 enhanced_simulations now
    else s1
  | None => s
  end.

(** [progress_to_90_percent] of [get_comprehensive_stats()] *)
Definition progress_to_90 (s : EnhancedMLSystem) : Q :=
  let current_accuracy := recent_accuracy (prediction_stats s) in
  if Qgtb current_accuracy 0 then Qmin (current_accuracy / 0.9 * 100) 100 else 0.

(** [auto_retrain()]: the new state, the ['success'] flag and the number of
    samples reported. *)
Definition auto_retrain `{Numpy} `{Sklearn} (s : EnhancedMLSystem)
    (enhanced_simulations : list Simulation) (now : Clock)
  : EnhancedMLSystem * (bool * nat) :=
  match collect_training_data enhanced_simulations now with
  | Some (X, y) =>
    if (20 <? length X)%nat then
      let '(s', ok) := train_models s X y in (s', (ok, length X))
    else (s, (false, length X))
  | None => (s, (false, 0%nat))
  end.

(** [initialize_enhanced_ml_system(db_client)] *)
Definition initialize_enhanced_ml_system `{Numpy} `{Sklearn}
    (enhanced_simulations : list Simulation) (now : Clock) : EnhancedMLSystem :=
  match collect_training_data enhanced_simulations now with
  | Some (X, y) => if (10 <=? length X)%nat then (train_models init X y).1 else init
  | None => init
  end.

(** The calls that drive the predictor after its construction. *)
Inductive Op :=
| Predict (ta : option Analysis) (now : Clock) (coin : bool)
| Learn (simulation_id : string) (actual_result : bool)
        (enhanced_simulations : list Simulation) (now : Clock)
| AutoRetrain (enhanced_simulations : list Simulation) (now : Clock).

Definition step `{Numpy} `{Sklearn} (s : EnhancedMLSystem) (op : Op) : EnhancedMLSystem :=
  match op with
  | Predict ta now coin => (advanced_prediction s ta now coin).1
  | Learn simulation_id actual_result sims now =>
    learn_from_result s simulation_id actual_result sims now
  | AutoRetrain sims now => (auto_retrain s sims now).1
  end.

(** The states reached from [initialize_enhanced_ml_system]. *)
Definition run `{Numpy} `{Sklearn} (initial_simulations : list Simulation)
    (start : Clock) (ops : list Op) : EnhancedMLSystem :=
  fold_left step ops (initialize_enhanced_ml_system initial_simulations start).

(** What the reached states have in common. *)
Record consistent (s : EnhancedMLSystem) : Prop := {
  history_bounded : (length (prediction_history s) <= 1000)%nat;
  queue_bounded : (length (learning_queue s) <= 500)%nat;
  correct_bounded :
    (0 <= correct_predictions (prediction_stats s) <= labeled_predictions (prediction_stats s))%Z;
  accuracy_bounded : 0 <= recent_accuracy (prediction_stats s) <= 1;
  accuracy_ratio :
    (0 < labeled_predictions (prediction_stats s))%Z ->
    recent_accuracy (prediction_stats s)
    == inject_Z (correct_predictions (prediction_stats s))
       / inject_Z (labeled_predictions (prediction_stats s));
  untrained_blank :
    is_trained s = false ->
    models s = [] /\ prediction_history s = [] /\ learning_queue s = []
    /\ labeled_predictions (prediction_stats s) = 0%Z
    /\ total_predictions (prediction_stats s) = 0%Z;
  trained_complete :
    is_trained s = true ->
    is_Some (assoc "ensemble" (models s)) /\ is_Some (scaler_primary s)
    /\ length (feature_names s) = 20%nat
}.

End EnhancedML.

(** ** enhanced_server.py *)

Module Server.
Import TechnicalAnalyzer Docs.

(** The two Mongo collections holding simulation documents. *)
Record Db := {
  enhanced_simulations : list Simulation;
  simulations : list Simulation
}.

(** The module-level state: the database and the two learning systems, which
    are [None] until the startup hook has initialised them. *)
Record State := {
  db : Db;
  enhanced_ml_system : option EnhancedML.EnhancedMLSystem;
  error_learning_system : option ErrorLearning.ErrorLearningSystem
}.

(** The [update_data] dict of a [$set]: an absent key leaves the field as it
    is. *)
Record UpdateData := {
  ud_exit_price : option Q;
  ud_result_pct : option Q;
  ud_success : option bool;
  ud_closed : option bool;
  ud_learning_feedback : option bool
}.

Definition set_fields (u : UpdateData) (sim : Simulation) : Simulation :=
  {| sim_id := sim_id sim;
     timestamp := timestamp sim;
     entry_price := entry_price sim;
     exit_price := match ud_exit_price u with Some v => Some v | None => exit_price sim end;
     trend := trend sim;
     sim_confidence := sim_confidence sim;
     result_pct := match ud_result_pct u with Some v => Some v | None => result_pct sim end;
     success := match ud_success u with Some v => Some v | None => success sim end;
     closed := default (closed sim) (ud_closed u);
     entry_method := entry_method sim;
     technical_analysis := technical_analysis sim;
     ml_prediction := ml_prediction sim;
     learning_feedback :=
       match ud_learning_feedback u with Some v => Some v | None => learning_feedback sim end |}.

(** [collection.update_one({"id": id}, {"$set": update_data})]: the first
    document with that id is updated; the result is the new collection and
    [matched_count]. *)
Fixpoint update_one (id : string) (u : UpdateData) (coll : list Simulation)
  : list Simulation * nat :=
  match coll with
  | [] => ([], 0%nat)
  | sim :: rest =>
    if decide (sim_id sim = id) then (set_fields u sim :: rest, 1%nat)
    else let '(rest', n) := update_one id u rest in (sim :: rest', n)
  end.

Inductive Response :=
| Updated                    (* 200, "REAL simulation updated with automatic learning" *)
| HttpError (status : Z).

(** [PUT /api/simulations/{simulation_id}].  The 404 raised inside the [try]
    is an [Exception] and leaves the handler as a 500. *)
Definition update_simulation `{EnhancedML.Numpy} `{EnhancedML.Sklearn} (st : State)
    (simulation_id : string) (update_data : UpdateData) (now : EnhancedML.Clock)
  : State * Response :=
  let '(enhanced', matched) := update_one simulation_id update_data (enhanced_simulations (db st)) in
  let '(old', matched) :=
    if (matched =? 0)%nat
    then update_one simulation_id update_data (simulations (db st))
    else (simulations (db st), matched) in
  let db' := {| enhanced_simulations := enhanced'; simulations := old' |} in
  if (matched =? 0)%nat then
    ({| db := db';
        enhanced_ml_system := enhanced_ml_system st;
        error_learning_system := error_learning_system st |}, HttpError 500)
  else
    let ml' :=
      match ud_learning_feedback update_data, enhanced_ml_system st with
      | Some _, Some ml =>
        Some (EnhancedML.learn_from_result ml simulation_id
                (default false (ud_success update_data)) enhanced' now)
      | _, _ => enhanced_ml_system st
      end in
    ({| db := db';
        enhanced_ml_system := ml';
        error_learning_system := error_learning_system st |}, Updated).

(** [max(eligible_sims, key=lambda x: x['timestamp'])]: the first of the
    latest simulations. *)
Definition latest (eligible_sims : list Simulation) : option Simulation :=
  match eligible_sims with
  | [] => None
  | sim :: rest =>
    Some (fold_left (fun best x => if (timestamp x >? timestamp best)%Z then x else best)
                    rest sim)
  end.

(** [round(x, 2)] of the exact value, half to even.  The code rounds the float
    it has computed, which can lie on the other side of a decimal tie: the two
    then differ by 0.01. *)
Definition round2 (x : Q) : Q :=
  let scaled := x * 100 in
  let n := Qfloor scaled in
  let frac := scaled - inject_Z n in
  let up :=
    match frac ?= 0.5 with
    | Lt => false
    | Gt => true
    | Eq => Z.odd n
    end in
  inject_Z (if up then n + 1 else n)%Z / 100.

(** [price_change = (current_price - entry_price) / entry_price * 100] *)
Definition price_change_pct (entry_price current_price : Q) : Q :=
  (current_price - entry_price) / entry_price * 100.

(** The outcome computed from the price movement alone. *)
Definition price_success (trend : string) (price_change : Q) : bool :=
  if decide (trend = "UP") then Qgtb price_change 0.1 else Qltb price_change (-0.1).

Definition price_result_pct (trend : string) (price_change : Q) : Q :=
  if decide (trend = "UP") then price_change
  else if price_success trend price_change then Qabs price_change
  else - Qabs price_change.

(** The high-confidence bonus: [random_draw] is the value of
    [random.random()]. *)
Definition bonus_applies (entry_method : string) (confidence random_draw : Q) : bool :=
  str_contains "REAL" entry_method && Qgtb confidence 0.8 && Qltb random_draw 0.15.

(** The label and result computed by [close_real_simulation] for the selected
    simulation. *)
Definition close_outcome (sim : Simulation) (current_price random_draw : Q) : bool * Q :=
  let confidence := default 0.5 (sim_confidence sim) in
  let entry_method := default "UNKNOWN" (entry_method sim) in
  let price_change := price_change_pct (entry_price sim) current_price in
  let is_success := price_success (trend sim) price_change in
  let result_pct := price_result_pct (trend sim) price_change in
  let is_success :=
    if bonus_applies entry_method confidence random_draw then true else is_success in
  (is_success, result_pct).

(** The simulation selected by [close_real_simulation] and the table it
    belongs to. *)
Definition select_for_close (d : Db) (now : Z) : option (Simulation * bool) :=
  let open_enhanced := filter (fun sim => closed sim = false) (enhanced_simulations d) in
  let '(open_sims, use_old_table) :=
    match open_enhanced with
    | [] => (filter (fun sim => closed sim = false) (simulations d), true)
    | _ => (open_enhanced, false)
    end in
  let eligible_sims := filter (fun sim => (now - timestamp sim > 120)%Z) open_sims in
  (fun sim => (sim, use_old_table)) <$> latest eligible_sims.

(** [close_real_simulation()]: the new state and the id of the closed
    simulation.  [now] is the clock in seconds, [current_price] the answer of
    the price oracle, [random_draw] the value of [random.random()]. *)
Definition close_real_simulation `{EnhancedML.Numpy} `{EnhancedML.Sklearn} (st : State)
    (now : Z) (clock : EnhancedML.Clock) (current_price : option Q) (random_draw : Q)
  : State * option string :=
  match select_for_close (db st) now with
  | None => (st, None)
  | Some (sim_to_close, use_old_table) =>
    match current_price with
    | None => (st, None)
    | Some current_price =>
      if Qeq_bool (entry_price sim_to_close) 0 then (st, None)  (* ZeroDivisionError *)
      else
        let '(is_success, result_pct) := close_outcome sim_to_close current_price random_draw in
        let update_data :=
          {| ud_exit_price := Some current_price;
             ud_result_pct := Some (round2 result_pct);
             ud_success := Some is_success;
             ud_closed := Some true;
             ud_learning_feedback := Some is_success |} in
        let db' :=
          if use_old_table then
            {| enhanced_simulations := enhanced_simulations (db st);
               simulations := (update_one (sim_id sim_to_close) update_data (simulations (db st))).1 |}
          else
            {| enhanced_simulations :=
                 (update_one (sim_id sim_to_close) update_data (enhanced_simulations (db st))).1;
               simulations := simulations (db st) |} in
        let ml' :=
          match enhanced_ml_system st, ml_prediction sim_to_close with
          | Some ml, Some _ =>
            Some (EnhancedML.learn_from_result ml (sim_id sim_to_close) is_success
                    (enhanced_simulations db') clock)
          | other, _ => other
          end in
        let els' :=
          match error_learning_system st with
          | Some els =>
            if is_success then Some els
            else Some (ErrorLearning.analyze_failed_prediction els sim_to_close).1
          | None => None
          end in
        ({| db := db'; enhanced_ml_system := ml'; error_learning_system := els' |},
         Some (sim_id sim_to_close))
    end
  end.

(** The confidence stored by [generate_real_simulation] once the correction
    factor of the error learner has been applied. *)
Definition corrected_confidence (els : option ErrorLearning.ErrorLearningSystem)
    (ta : Analysis) (trend : string) (confidence : Q) : Q :=
  match els with
  | Some els =>
    let correction_factor := ErrorLearning.get_correction_factor els ta trend in
    Qmax 0.1 (confidence + correction_factor)
  | None => confidence
  end.

(** [generate_real_simulation()]: [market_df] is the answer of
    [analyzer.get_market_data()], [new_id] the fresh uuid. *)
Definition generate_real_simulation `{IndicatorLib} `{EnhancedML.Numpy} (st : State)
    (market_df : option (list Bar)) (now : Z) (clock : EnhancedML.Clock)
    (current_price : option Q) (coin : bool) (new_id : string)
  : State * option Simulation :=
  match comprehensive_analysis market_df with
  | None => (st, None)
  | Some ta =>
    let ml_result :=
      (fun ml => EnhancedML.advanced_prediction ml (Some ta) clock coin)
        <$> enhanced_ml_system st in
    let ml_prediction := snd <$> ml_result in
    let st1 :=
      {| db := db st;
         enhanced_ml_system := fst <$> ml_result;
         error_learning_system := error_learning_system st |} in
    let signals := default no_signals (signals ta) in
    let '(trend, confidence, entry_method) :=
      match ml_prediction with
      | Some p => (prediction p, pred_confidence p, "ML_REAL_BINANCE_DATA"%string)
      | None =>
        (if (default 0 (strength signals) >? 0)%Z then "UP"%string else "DOWN"%string,
         default 0.5 (confidence signals),
         "TECHNICAL_REAL_BINANCE_DATA"%string)
      end in
    match current_price with
    | None => (st1, None)
    | Some current_price =>
      let simulation :=
        {| sim_id := new_id;
           timestamp := now;
           entry_price := current_price;
           exit_price := None;
           trend := trend;
           sim_confidence :=
             Some (corrected_confidence (error_learning_system st) ta trend confidence);
           result_pct := None;
           success := None;
           closed := false;
           entry_method := Some entry_method;
           technical_analysis := Some ta;
           ml_prediction := ml_prediction;
           learning_feedback := None |} in
      ({| db := {| enhanced_simulations := enhanced_simulations (db st) ++ [simulation];
                   simulations := simulations (db st) |};
          enhanced_ml_system := enhanced_ml_system st1;
          error_learning_system := error_learning_system st |},
       Some simulation)
    end
  end.


(** The numbers returned by [GET /api/stats]. *)
Record AdvancedTradingStats := {
  total_simulations : nat;
  closed_simulations : nat;
  wins : nat;
  losses : nat;
  win_rate : Q;
  avg_profit : Q;
  best_trade : Q;
  worst_trade : Q;
  ml_accuracy : Q;
  learning_samples : Z;
  progress_to_90_percent : Q
}.

Definition sum_list (l : list Q) : Q := fold_left Qplus l 0.

(** [max(profits)] and [min(profits)] of a non-empty list, 0 otherwise. *)
Definition max_or_zero (l : list Q) : Q :=
  match l with [] => 0 | x :: rest => fold_left Qmax rest x end.

Definition min_or_zero (l : list Q) : Q :=
  match l with [] => 0 | x :: rest => fold_left Qmin rest x end.

(** [get_advanced_trading_stats()].  [avg_profit] is the exact mean; the float
    mean of the code can differ from it in the last digit. *)
Definition get_advanced_trading_stats (st : State) : AdvancedTradingStats :=
  let all := enhanced_simulations (db st) ++ simulations (db st) in
  let closed_sims := filter (fun s => closed s = true) all in
  let wins := filter (fun s => default false (success s) = true) closed_sims in
  let losses := filter (fun s => default false (success s) = false) closed_sims in
  let profits := omap result_pct closed_sims in
  {| total_simulations := length all;
     closed_simulations := length closed_sims;
     wins := length wins;
     losses := length losses;
     win_rate :=
       match closed_sims with
       | [] => 0
       | _ => inject_Z (Z.of_nat (length wins)) / inject_Z (Z.of_nat (length closed_sims)) * 100
       end;
     avg_profit :=
       match profits with
       | [] => 0
       | _ => sum_list profits / inject_Z (Z.of_nat (length profits))
       end;
     best_trade := max_or_zero profits;
     worst_trade := min_or_zero profits;
     ml_accuracy :=
       match enhanced_ml_system st with
       | Some ml => EnhancedML.recent_accuracy (EnhancedML.prediction_stats ml) * 100
       | None => 0
       end;
     learning_samples :=
       match enhanced_ml_system st with
       | Some ml => EnhancedML.labeled_predictions (EnhancedML.prediction_stats ml)
       | None => 0%Z
       end;
     progress_to_90_percent :=
       match enhanced_ml_system st with
       | Some ml => EnhancedML.progress_to_90 ml
       | None => 0
       end |}.

End Server.

(** ** Sample inputs *)

Module Samples.
Import TechnicalAnalyzer Docs.

(** Every bullish rule of [generate_signals] fires on this snapshot. *)
Definition all_bullish : Analysis :=
  {| current_price := Some 65000;
     rsi := Some 25;
     macd := Some (Build_Macd (Some 2) (Some 1) (Some 1));
     bollinger := Some (Build_Bollinger (Some 66000) (Some 65500) (Some 64900) (Some 0.1));
     emas := Some (Build_Emas (Some 65200) (Some 65100) (Some true) (Some true) (Some false));
     stochastic := Some (Build_Stochastic (Some 20) (Some 25));
     volume := Some (Build_Volume (Some 60) (Some 5));
     patterns := Some (Build_Patterns (Some true) (Some false) (Some true));
     support_resistance := Some (Build_SupportResistance (Some 2) (Some 2));
     signals := None |}.

(** An overbought snapshot: only the RSI is known. *)
Definition overbought : Analysis :=
  {| current_price := None; rsi := Some 75; macd := None; bollinger := None;
     emas := None; stochastic := None; volume := None; patterns := None;
     support_resistance := None; signals := None |}.

(** A golden cross with a clear MACD histogram. *)
Definition golden : Analysis :=
  {| current_price := None; rsi := Some 50;
     macd := Some (Build_Macd (Some 2) (Some 1) (Some 1));
     bollinger := None;
     emas := Some (Build_Emas None None (Some true) (Some true) (Some false));
     stochastic := None; volume := None; patterns := None;
     support_resistance := None; signals := None |}.

Definition open_sim (id : string) (opened : Z) (direction : string) (ta : Analysis)
  : Simulation :=
  {| sim_id := id; timestamp := opened; entry_price := 100; exit_price := None;
     trend := direction; sim_confidence := Some 0.9; result_pct := None;
     success := None; closed := false;
     entry_method := Some "ML_REAL_BINANCE_DATA"%string;
     technical_analysis := Some ta; ml_prediction := None;
     learning_feedback := None |}.

Definition closed_sim (id : string) : Simulation :=
  {| sim_id := id; timestamp := 0; entry_price := 100; exit_price := Some 101;
     trend := "UP"; sim_confidence := Some 0.6; result_pct := Some 1;
     success := Some true; closed := true;
     entry_method := Some "ML_REAL_BINANCE_DATA"%string;
     technical_analysis := Some overbought; ml_prediction := None;
     learning_feedback := Some true |}.

(** A failed UP prediction on the overbought snapshot, and one on the golden
    cross. *)
Definition failed_overbought : Simulation := open_sim "s1" 0 "UP" overbought.
Definition failed_golden : Simulation := open_sim "s2" 0 "UP" golden.

(** Six failures on the golden cross: enough for [optimize] to select the
    category. *)
Definition six_failures : list ErrorLearning.Call :=
  replicate 6 (ErrorLearning.ObserveFailure failed_golden).

(** Stand-ins for the external libraries. *)
Definition rational_tanh : EnhancedML.Numpy :=
  {| EnhancedML.tanh := fun x => x / (1 + Qabs x) |}.

Definition failing_sklearn : EnhancedML.Sklearn :=
  {| EnhancedML.fit_models := fun _ _ => EnhancedML.TrainFailed None None None |}.

(** Indicators that report an RSI of 75 and the documented defaults
    elsewhere. *)
Definition overbought_indicators : IndicatorLib :=
  {| calculate_rsi := fun _ => 75;
     calculate_macd := fun _ => Build_Macd (Some 0) (Some 0) (Some 0);
     calculate_bollinger_bands := fun _ => Build_Bollinger (Some 0) (Some 0) (Some 0) (Some 0.5);
     calculate_emas :=
       fun _ => Build_Emas (Some 0) (Some 0) (Some false) (Some false) (Some false);
     calculate_stochastic := fun _ => Build_Stochastic (Some 50) (Some 50);
     analyze_volume := fun _ => Build_Volume (Some 0) (Some 0);
     detect_candlestick_patterns :=
       fun _ => Build_Patterns (Some false) (Some false) (Some false);
     calculate_support_resistance := fun _ => Build_SupportResistance (Some 2) (Some 2) |}.

Definition flat_bar : Bar := Build_Bar 0 100 100 100 100 1.

Definition noon : EnhancedML.Clock := EnhancedML.Build_Clock 12 2.

(** Two ensemble predictions, a DOWN on the overbought snapshot followed by an
    UP on the golden cross, and a predictor that remembers both. *)
Definition down_entry : EnhancedML.HistoryEntry :=
  {| EnhancedML.he_prediction :=
       {| prediction := "DOWN"; pred_confidence := 0.7; prob_up := 0.3; prob_down := 0.7;
          reasoning := ["Modelos divididos - usando ensemble"%string];
          model_details := EnsembleDetails "Voting Classifier" [] 0 20 |};
     EnhancedML.he_technical_analysis := Some overbought |}.

Definition up_entry : EnhancedML.HistoryEntry :=
  {| EnhancedML.he_prediction :=
       {| prediction := "UP"; pred_confidence := 0.8; prob_up := 0.8; prob_down := 0.2;
          reasoning := ["Modelos divididos - usando ensemble"%string];
          model_details := EnsembleDetails "Voting Classifier" [] 0 20 |};
     EnhancedML.he_technical_analysis := Some golden |}.

Definition two_predictions : EnhancedML.EnhancedMLSystem :=
  {| EnhancedML.models := [];
     EnhancedML.scaler_primary := None;
     EnhancedML.is_trained := false;
     EnhancedML.feature_names := [];
     EnhancedML.prediction_history := [down_entry; up_entry];
     EnhancedML.learning_queue := [];
     EnhancedML.prediction_stats := EnhancedML.Build_PredictionStats 2 0 0 0 0 |}.

(** A ledger with one closed simulation and one open for 200 seconds at
    time 200, without learning systems. *)
Definition ledger : Server.State :=
  {| Server.db :=
       {| Server.enhanced_simulations :=
            [closed_sim "a"; open_sim "b" 0 "UP" overbought];
          Server.simulations := [] |};
     Server.enhanced_ml_system := None;
     Server.error_learning_system := None |}.

(** A manual update that rewrites the outcome of a simulation. *)
Definition rewrite_outcome : Server.UpdateData :=
  {| Server.ud_exit_price := Some 90;
     Server.ud_result_pct := Some (-10);
     Server.ud_success := Some false;
     Server.ud_closed := None;
     Server.ud_learning_feedback := None |}.

(** A server whose error learner has seen one failed UP prediction on the
    overbought snapshot and whose ML system is not trained. *)
Definition after_one_failure : Server.State :=
  {| Server.db := {| Server.enhanced_simulations := []; Server.simulations := [] |};
     Server.enhanced_ml_system := Some EnhancedML.init;
     Server.error_learning_system :=
       Some (ErrorLearning.run [ErrorLearning.ObserveFailure failed_overbought]) |}.

(** A fitted model that always answers class 1 with probabilities 0.2 and
    0.8, a scaler that changes nothing, and a training that returns them. *)
Definition bullish_classifier : EnhancedML.Classifier :=
  {| EnhancedML.clf_predict := fun _ => Some 1%Z;
     EnhancedML.clf_predict_proba := fun _ => Some [0.2; 0.8] |}.

Definition identity_scaler : EnhancedML.Scaler := fun x => Some x.

Definition bullish_sklearn : EnhancedML.Sklearn :=
  {| EnhancedML.fit_models :=
       fun _ _ => EnhancedML.TrainOk identity_scaler bullish_classifier
                    bullish_classifier bullish_classifier |}.

(** Ten closed simulations, enough for a first training, and sixty. *)
Definition ten_closed : list Simulation := replicate 10 (closed_sim "a").
Definition sixty_closed : list Simulation := replicate 60 (closed_sim "a").

(** Twenty-five bars with a volume of 1 closed by one with a volume of 3. *)
Definition volume_spike : list Bar :=
  replicate 25 flat_bar ++ [Build_Bar 0 100 100 100 100 3].

(** A last candle that closes where it opened. *)
Definition three_flat : list Bar := replicate 3 flat_bar.

(** The snapshot that carries the volume analysis of [volume_spike], and one
    that carries the flags of a golden cross (EMA 20 at 2 over EMA 50 at 1,
    both at 1 one bar earlier). *)
Definition spike_analysis : Analysis :=
  {| current_price := None; rsi := None; macd := None; bollinger := None;
     emas := None; stochastic := None;
     volume := Some (Indicators.analyze_volume volume_spike);
     patterns := None; support_resistance := None; signals := None |}.

Definition crossed : Analysis :=
  {| current_price := None; rsi := None; macd := None; bollinger := None;
     emas := Some (Indicators.calculate_emas_from 2 1 1 1);
     stochastic := None; volume := None; patterns := None;
     support_resistance := None; signals := None |}.

(** A database whose enhanced table holds one simulation opened 100 seconds
    before time 200, while an older one waits in the old table. *)
Definition waiting_db : Server.Db :=
  {| Server.enhanced_simulations := [open_sim "b" 100 "UP" overbought];
     Server.simulations := [open_sim "c" 0 "UP" overbought] |}.

(** Two models that both favour UP, and their recorded accuracies. *)
Definition two_model_probabilities : list (string * (Q * Q)) :=
  [("random_forest"%string, (0.7, 0.3)); ("gradient_boost"%string, (0.6, 0.4))].

Definition two_model_accuracy : gmap string Q :=
  {[ "random_forest"%string := 0.8; "gradient_boost"%string := 0.6 ]}.

End Samples.

(** ** The confidence formula of the specification

    Follows the words of the specification, to be compared with
    [signal_confidence]:
    [min(max(0.5, 0.5 + 0.1*rule_count + 0.3*|strength|/100), 0.95)]. *)
Definition spec_confidence (rule_count strength : Z) : Q :=
  Qmin (Qmax 0.5 (0.5 + 0.1 * inject_Z rule_count
                  + 0.3 * inject_Z (Z.abs strength) / 100)) 0.95.

(** * Properties *)

(** ** Comparisons *)

Lemma Qltb_lt (x y : Q) : Qltb x y = true <-> x < y.
Proof.
  unfold Qltb. rewrite Qlt_alt. destruct (x ?= y); split; congruence.
Qed.

Lemma Qltb_ge (x y : Q) : Qltb x y = false <-> y <= x.
Proof.
  rewrite <- not_true_iff_false, Qltb_lt. split.
  - apply Qnot_lt_le.
  - apply Qle_not_lt.
Qed.

Lemma Qgtb_gt (x y : Q) : Qgtb x y = true <-> y < x.
Proof. apply Qltb_lt. Qed.

Lemma Qmin_bounds (x lo hi : Q) : lo <= x -> lo <= hi -> lo <= Qmin x hi <= hi.
Proof.
  intros Hx Hlh. split.
  - apply Q.min_glb; assumption.
  - apply Q.le_min_r.
Qed.

Lemma Qmax_bounds (x lo hi : Q) : x <= hi -> lo <= hi -> lo <= Qmax x lo <= hi.
Proof.
  intros Hx Hlh. split.
  - apply Q.le_max_r.
  - apply Q.max_lub; assumption.
Qed.

(** ** Signal scorer *)

Section SignalScorer.
Import TechnicalAnalyzer.

Local Ltac rule_cases :=
  intros;
  unfold rsi_rule, macd_rule, ema_rule, bollinger_rule, volume_rule,
         hammer_rule, engulfing_rule, bull, bear;
  repeat (match goal with |- context [ if ?b then _ else _ ] => destruct b end);
  simpl; lia.

Lemma rsi_rule_range an a :
  (acc_strength a - 15 <= acc_strength (rsi_rule an a) <= acc_strength a + 15)%Z.
Proof. rule_cases. Qed.

Lemma macd_rule_range an a :
  (acc_strength a - 20 <= acc_strength (macd_rule an a) <= acc_strength a + 20)%Z.
Proof. rule_cases. Qed.

Lemma ema_rule_range an a :
  (acc_strength a - 25 <= acc_strength (ema_rule an a) <= acc_strength a + 25)%Z.
Proof. rule_cases. Qed.

Lemma bollinger_rule_range an a :
  (acc_strength a - 15 <= acc_strength (bollinger_rule an a) <= acc_strength a + 15)%Z.
Proof. rule_cases. Qed.

Lemma volume_rule_range an a :
  (acc_strength a - 10 <= acc_strength (volume_rule an a) <= acc_strength a + 10)%Z.
Proof. rule_cases. Qed.

Lemma hammer_rule_range an a :
  (acc_strength a <= acc_strength (hammer_rule an a) <= acc_strength a + 12)%Z.
Proof. rule_cases. Qed.

Lemma engulfing_rule_range an a :
  (acc_strength a - 15 <= acc_strength (engulfing_rule an a) <= acc_strength a + 15)%Z.
Proof. rule_cases. Qed.

(** The summed strength of the rules stays between -100 and 112. *)
Lemma run_rules_range an : (-100 <= acc_strength (run_rules an) <= 112)%Z.
Proof.
  unfold run_rules.
  set (a0 := Build_SignalAcc [] [] 0%Z).
  pose proof (rsi_rule_range an a0) as H1.
  pose proof (macd_rule_range an (rsi_rule an a0)) as H2.
  pose proof (ema_rule_range an (macd_rule an (rsi_rule an a0))) as H3.
  pose proof (bollinger_rule_range an (ema_rule an (macd_rule an (rsi_rule an a0)))) as H4.
  pose proof (volume_rule_range an
    (bollinger_rule an (ema_rule an (macd_rule an (rsi_rule an a0))))) as H5.
  pose proof (hammer_rule_range an (volume_rule an
    (bollinger_rule an (ema_rule an (macd_rule an (rsi_rule an a0)))))) as H6.
  pose proof (engulfing_rule_range an (hammer_rule an (volume_rule an
    (bollinger_rule an (ema_rule an (macd_rule an (rsi_rule an a0))))))) as H7.
  change (acc_strength a0) with 0%Z in H1. lia.
Qed.

Lemma signal_confidence_range s : 0.5 <= signal_confidence s <= 0.95.
Proof.
  unfold signal_confidence. apply Qmax_bounds.
  - apply Q.le_min_r.
  - lra.
Qed.

End SignalScorer.

Section SignalScorerClaims.
Import TechnicalAnalyzer.

(** C3 (amended): for every indicator snapshot the confidence returned by
    [generate_signals] is [max(min(|strength| / 100, 0.95), 0.5)], where
    [strength] is the returned strength; it depends on the strength alone, not
    on the number of triggered rules, and lies in [0.5, 0.95]. *)
Theorem C3_confidence_from_strength (an : Analysis) :
  exists (s : Z) (c : Q),
    strength (generate_signals an) = Some s /\
    confidence (generate_signals an) = Some c /\
    c == Qmax (Qmin (inject_Z (Z.abs s) / 100) 0.95) 0.5 /\
    0.5 <= c <= 0.95.
Proof.
  exists (acc_strength (run_rules an)), (signal_confidence (acc_strength (run_rules an))).
  repeat split; try reflexivity; apply signal_confidence_range.
Qed.

(** C3 (as stated) fails on the empty snapshot: one rule fires (EMA 20 below
    EMA 50), the strength is -10, the code returns 0.5 where the formula of
    the claim gives 0.63. *)
Lemma C3_counterexample :
  total_signals (generate_signals no_analysis) = Some 1%Z /\
  strength (generate_signals no_analysis) = Some (-10)%Z /\
  confidence (generate_signals no_analysis) = Some 0.5 /\
  spec_confidence 1 (-10) == 0.63 /\
  ~ 0.5 == spec_confidence 1 (-10).
Proof.
  repeat split; try reflexivity. intros H. vm_compute in H. discriminate.
Qed.

(** C5: on a snapshot where every bullish rule fires the returned strength is
    112, outside [-100, 100]: the sum is not clamped. *)
Theorem C5_strength_exceeds_100 :
  strength (generate_signals Samples.all_bullish) = Some 112%Z /\
  bullish_signals (generate_signals Samples.all_bullish)
  = Some [ "RSI oversold (<30)"; "MACD bullish crossover"; "EMA golden cross";
           "Price near lower Bollinger Band"; "High volume confirms bullish move";
           "Hammer candlestick pattern"; "Bullish engulfing pattern" ]%string.
Proof. split; reflexivity. Qed.

(** The strength that the code can return: between -100 and 112. *)
Lemma generate_signals_strength_range (an : Analysis) :
  exists s : Z, strength (generate_signals an) = Some s /\ (-100 <= s <= 112)%Z.
Proof.
  exists (acc_strength (run_rules an)). split; [reflexivity | apply run_rules_range].
Qed.

End SignalScorerClaims.

(** ** Correction learner *)

Section CorrectionLearner.
Import TechnicalAnalyzer Docs ErrorLearning.

Lemma correction_factors_nonneg k f : correction_factors !! k = Some f -> 0 <= f.
Proof.
  assert (Hall : map_Forall (fun _ f => 0 <= f) correction_factors).
  { unfold correction_factors. cbn [list_to_map foldr fst snd uncurry].
    repeat (apply map_Forall_insert_2; [lra |]). apply map_Forall_empty. }
  apply Hall.
Qed.

Lemma weight_nonneg (weights : gmap string Q) k :
  weights_ok weights -> 0 <= default 0 (weights !! k) <= 0.8.
Proof.
  intros Hok. destruct (weights !! k) as [w|] eqn:Hk; simpl.
  - exact (Hok k w Hk).
  - lra.
Qed.

Lemma apply_correction_ok st error_type :
  weights_ok st.1 -> weights_ok (apply_correction st error_type).1.
Proof.
  intros Hok. unfold apply_correction.
  destruct (correction_factors !! error_type) as [f|] eqn:Hf; [|assumption].
  simpl. apply map_Forall_insert_2; [|assumption].
  pose proof (correction_factors_nonneg _ _ Hf).
  pose proof (weight_nonneg _ error_type Hok).
  apply Qmin_bounds; lra.
Qed.

Lemma fold_apply_correction_ok errors st :
  weights_ok st.1 -> weights_ok (fold_left apply_correction errors st).1.
Proof.
  revert st. induction errors as [|e errors IH]; intros st Hok; simpl.
  - assumption.
  - apply IH, apply_correction_ok, Hok.
Qed.

Lemma apply_corrections_ok s ea :
  weights_ok (correction_weights s) -> weights_ok (correction_weights (apply_corrections s ea)).
Proof.
  intros Hok. unfold apply_corrections.
  pose proof (fold_apply_correction_ok (identified_errors ea) (correction_weights s, 0%Z) Hok) as H.
  destruct (fold_left _ _ _) as [weights applied]. exact H.
Qed.

Lemma analyze_failed_prediction_ok s sim :
  weights_ok (correction_weights s) ->
  weights_ok (correction_weights (analyze_failed_prediction s sim).1).
Proof.
  intros Hok. unfold analyze_failed_prediction.
  destruct (default false (success sim)); simpl; [assumption|].
  destruct (technical_analysis sim) as [ta|]; simpl; [|assumption].
  apply apply_corrections_ok. exact Hok.
Qed.

Lemma optimize_step_ok st item :
  weights_ok st.1 -> weights_ok (optimize_step st item).1.
Proof.
  intros Hok. unfold optimize_step. destruct item as [error_type count].
  destruct (count >? 5)%Z; [|assumption].
  simpl. apply map_Forall_insert_2; [|assumption].
  pose proof (weight_nonneg _ error_type Hok).
  destruct (Qmin_bounds (default 0 (st.1 !! error_type) + 0.1) 0 0.5); lra.
Qed.

Lemma fold_optimize_step_ok items st :
  weights_ok st.1 -> weights_ok (fold_left optimize_step items st).1.
Proof.
  revert st. induction items as [|i items IH]; intros st Hok; simpl.
  - assumption.
  - apply IH, optimize_step_ok, Hok.
Qed.

Lemma optimize_ok s :
  weights_ok (correction_weights s) ->
  weights_ok (correction_weights (optimize_for_90_percent s).1).
Proof.
  intros Hok. unfold optimize_for_90_percent.
  pose proof (fold_optimize_step_ok (most_common_errors s) (correction_weights s, []) Hok) as H.
  destruct (fold_left _ _ _) as [weights actions]. exact H.
Qed.

Lemma step_ok s c :
  weights_ok (correction_weights s) -> weights_ok (correction_weights (step s c)).
Proof.
  destruct c; simpl; [apply analyze_failed_prediction_ok | apply optimize_ok].
Qed.

Lemma run_ok calls : weights_ok (correction_weights (run calls)).
Proof.
  unfold run.
  assert (Hgen : forall s, weights_ok (correction_weights s) ->
                           weights_ok (correction_weights (fold_left step calls s))).
  { induction calls as [|c calls IH]; intros s Hok; simpl; [assumption|].
    apply IH, step_ok, Hok. }
  apply Hgen. apply map_Forall_empty.
Qed.

Lemma total_correction_nonpos (weights : gmap string Q) ks t :
  weights_ok weights -> t <= 0 ->
  fold_left (fun total k => total - default 0 (weights !! k)) ks t <= 0.
Proof.
  intros Hok. revert t. induction ks as [|k ks IH]; intros t Ht; simpl; [assumption|].
  apply IH. pose proof (weight_nonneg _ k Hok). lra.
Qed.

Lemma get_correction_factor_range s ta direction :
  weights_ok (correction_weights s) ->
  -0.3 <= get_correction_factor s ta direction <= 0.
Proof.
  intros Hok. unfold get_correction_factor.
  apply Qmax_bounds; [|lra].
  apply total_correction_nonpos; [assumption | lra].
Qed.

(** C6: after every sequence of observe-failure and optimize calls, every
    stored correction weight lies in [0, 0.8] and the correction factor of any
    snapshot and direction lies in [-0.3, 0]. *)
Theorem C6_weights_and_adjustment_bounded (calls : list Call) :
  map_Forall (fun _ w => 0 <= w <= 0.8) (correction_weights (run calls)) /\
  forall (ta : Analysis) (direction : string),
    -0.3 <= get_correction_factor (run calls) ta direction <= 0.
Proof.
  split.
  - apply run_ok.
  - intros ta direction. apply get_correction_factor_range, run_ok.
Qed.

End CorrectionLearner.

(** ** The optimize cycle *)

Section Optimize.
Import TechnicalAnalyzer Docs ErrorLearning.

Lemma bump_keys k counts x :
  x ∈ (bump k counts).*1 <-> x = k \/ x ∈ counts.*1.
Proof.
  induction counts as [|[k' c] rest IH]; simpl.
  - rewrite list_elem_of_singleton, elem_of_nil. tauto.
  - destruct (decide (k = k')) as [->|Hne]; simpl.
    + rewrite !elem_of_cons. tauto.
    + rewrite !elem_of_cons, IH. tauto.
Qed.

Lemma bump_NoDup k counts : NoDup counts.*1 -> NoDup (bump k counts).*1.
Proof.
  induction counts as [|[k' c] rest IH]; simpl; intros Hnd.
  - apply NoDup_singleton.
  - apply NoDup_cons in Hnd as [Hnotin Hnd].
    destruct (decide (k = k')) as [->|Hne]; simpl.
    + apply NoDup_cons; auto.
    + apply NoDup_cons; split; [|auto].
      rewrite bump_keys. intros [->|Hin]; [congruence | auto].
Qed.

Lemma count_errors_NoDup errors : NoDup (count_errors errors).*1.
Proof.
  unfold count_errors.
  assert (Hgen : forall counts, NoDup counts.*1 ->
    NoDup (fold_left (fun counts ea =>
             fold_left (fun counts k => bump k counts) (identified_errors ea) counts)
           errors counts).*1).
  { induction errors as [|ea errors IH]; intros counts Hnd; simpl; [assumption|].
    apply IH. generalize dependent counts.
    induction (identified_errors ea) as [|k ks IHk]; intros counts Hnd; simpl; [assumption|].
    apply IHk, bump_NoDup, Hnd. }
  apply Hgen. apply NoDup_nil_2.
Qed.

Lemma insert_desc_perm x l : insert_desc x l ≡ₚ x :: l.
Proof.
  induction l as [|y rest IH]; simpl; [reflexivity|].
  destruct (y.2 >? x.2)%Z; [|reflexivity].
  rewrite IH. apply Permutation_swap.
Qed.

Lemma sorted_desc_perm l : sorted_desc l ≡ₚ l.
Proof.
  induction l as [|x rest IH]; simpl; [reflexivity|].
  rewrite insert_desc_perm, IH. reflexivity.
Qed.

Lemma most_common_errors_NoDup s : NoDup (most_common_errors s).*1.
Proof.
  unfold most_common_errors. rewrite fmap_take.
  eapply sublist_NoDup; [|apply sublist_take].
  rewrite sorted_desc_perm. apply count_errors_NoDup.
Qed.

Lemma optimize_step_other st item k :
  k <> item.1 -> (optimize_step st item).1 !! k = st.1 !! k.
Proof.
  intros Hne. unfold optimize_step. destruct item as [error_type count].
  destruct (count >? 5)%Z; [|reflexivity].
  simpl in *. apply lookup_insert_ne. congruence.
Qed.

Lemma fold_optimize_step_other items st k :
  k ∉ items.*1 -> (fold_left optimize_step items st).1 !! k = st.1 !! k.
Proof.
  revert st. induction items as [|item items IH]; intros st Hnotin; simpl; [reflexivity|].
  rewrite fmap_cons, not_elem_of_cons in Hnotin. destruct Hnotin as [Hne Hnotin].
  rewrite IH by assumption. apply optimize_step_other, Hne.
Qed.

Lemma fold_optimize_step_selected items st k c :
  NoDup items.*1 -> (k, c) ∈ items -> (5 < c)%Z ->
  (fold_left optimize_step items st).1 !! k
  = Some (Qmin (default 0 (st.1 !! k) + 0.1) 0.5).
Proof.
  revert st. induction items as [|item items IH]; intros st Hnd Hin Hc.
  - inversion Hin.
  - rewrite fmap_cons in Hnd. apply NoDup_cons in Hnd as [Hnotin Hnd].
    apply elem_of_cons in Hin as [<-|Hin]; simpl.
    + rewrite fold_optimize_step_other by exact Hnotin.
      unfold optimize_step. replace (c >? 5)%Z with true by (symmetry; lia).
      simpl. apply lookup_insert_eq.
    + rewrite (IH _ Hnd Hin Hc). rewrite optimize_step_other; [reflexivity|].
      intros ->. apply Hnotin. apply list_elem_of_fmap. exists (item.1, c). auto.
Qed.

(** What [optimize_for_90_percent] stores for a selected category. *)
Lemma optimize_selected_weight s k c :
  (k, c) ∈ most_common_errors s -> (5 < c)%Z ->
  correction_weights (optimize_for_90_percent s).1 !! k
  = Some (Qmin (default 0 (correction_weights s !! k) + 0.1) 0.5).
Proof.
  intros Hin Hc. unfold optimize_for_90_percent.
  pose proof (fold_optimize_step_selected (most_common_errors s) (correction_weights s, [])
                k c (most_common_errors_NoDup s) Hin Hc) as H.
  destruct (fold_left _ _ _) as [weights actions]. exact H.
Qed.

(** The optimize path never leaves a selected weight above 0.5; a weight of at
    most 0.4 grows by exactly 0.1 and one of at most 0.5 does not shrink. *)
Lemma optimize_selected_bounds s k c :
  (k, c) ∈ most_common_errors s -> (5 < c)%Z ->
  let before := default 0 (correction_weights s !! k) in
  let after := default 0 (correction_weights (optimize_for_90_percent s).1 !! k) in
  after <= 0.5 /\ (before <= 0.4 -> after == before + 0.1) /\ (before <= 0.5 -> before <= after).
Proof.
  intros Hin Hc before after. subst after.
  rewrite (optimize_selected_weight s k c Hin Hc). simpl. fold before.
  repeat split.
  - apply Q.le_min_r.
  - intros Hb. apply Q.min_l. lra.
  - intros Hb. apply Q.min_glb; lra.
Qed.

(** C7: after six failed UP predictions on a golden cross the category
    [ema_crossover_fail] carries the weight 0.8 and is selected by the
    optimize cycle with frequency 6; the cycle stores 0.5, a smaller weight,
    and reports it as an increase. *)
Theorem C7_optimize_lowers_weight :
  let s := run Samples.six_failures in
  let before := default 0 (correction_weights s !! "ema_crossover_fail"%string) in
  let after :=
    default 0 (correction_weights (optimize_for_90_percent s).1 !! "ema_crossover_fail"%string) in
  ("ema_crossover_fail"%string, 6%Z) ∈ most_common_errors s /\
  before == 0.8 /\ after == 0.5 /\ after < before /\
  (optimize_for_90_percent s).2
  = [Build_OptimizationAction "ema_crossover_fail" 6 0.8 0.5].
Proof.
  repeat split; try (vm_compute; reflexivity).
  vm_compute. apply list_elem_of_here.
Qed.

End Optimize.

(** ** Simulation lifecycle *)

Section Lifecycle.
Import TechnicalAnalyzer Docs Server.
Context `{EnhancedML.Numpy} `{EnhancedML.Sklearn}.

(** C1 (amended): the success label stored by a close is [true] exactly when
    the high-confidence bonus fires (entry method containing "REAL",
    confidence above 0.8 and a random draw below 0.15) or the price moved by
    more than 0.1 percent in the predicted direction (up for trend UP, down
    otherwise); it is a function of entry price, exit price, trend, entry
    method, confidence and the random draw. *)
Theorem C1_success_label (sim : Simulation) (current_price random_draw : Q) :
  let price_change := price_change_pct (entry_price sim) current_price in
  (close_outcome sim current_price random_draw).1 = true <->
    (str_contains "REAL" (default "UNKNOWN"%string (entry_method sim)) = true
     /\ 0.8 < default 0.5 (sim_confidence sim) /\ random_draw < 0.15)
    \/ (trend sim = "UP"%string /\ 0.1 < price_change)
    \/ (trend sim <> "UP"%string /\ price_change < -0.1).
Proof.
  unfold close_outcome, bonus_applies, price_success. simpl.
  destruct (str_contains _ _) eqn:Hreal; simpl.
  - destruct (Qgtb _ 0.8) eqn:Hconf; simpl.
    + destruct (Qltb random_draw 0.15) eqn:Hdraw.
      * apply Qgtb_gt in Hconf. apply Qltb_lt in Hdraw. tauto.
      * apply Qltb_ge in Hdraw.
        destruct (decide (trend sim = "UP"%string)) as [Hup|Hup].
        -- rewrite Qgtb_gt. split; [tauto|].
           intros [(_ & _ & Hd)|[[_ Hp]|[Hn _]]]; [lra | assumption | contradiction].
        -- rewrite Qltb_lt. split; [tauto|].
           intros [(_ & _ & Hd)|[[Hu _]|[_ Hp]]]; [lra | contradiction | assumption].
    + apply Qltb_ge in Hconf.
      destruct (decide (trend sim = "UP"%string)) as [Hup|Hup].
      * rewrite Qgtb_gt. split; [tauto|].
        intros [(_ & Hc & _)|[[_ Hp]|[Hn _]]]; [lra | assumption | contradiction].
      * rewrite Qltb_lt. split; [tauto|].
        intros [(_ & Hc & _)|[[Hu _]|[_ Hp]]]; [lra | contradiction | assumption].
  - destruct (decide (trend sim = "UP"%string)) as [Hup|Hup].
    + rewrite Qgtb_gt. split; [tauto|].
      intros [(Hf & _)|[[_ Hp]|[Hn _]]]; [discriminate | assumption | contradiction].
    + rewrite Qltb_lt. split; [tauto|].
      intros [(Hf & _)|[[Hu _]|[_ Hp]]]; [discriminate | contradiction | assumption].
Qed.

End Lifecycle.

(** C1 (as stated) fails: a simulation opened at 100 with trend UP and
    confidence 0.9 is closed at 100.  The price has not moved, yet with a
    random draw of 0.1 the label is a success, and with a draw of 0.5 the same
    entry price, exit price and trend give a failure. *)
Lemma C1_counterexample :
  let sim := Samples.open_sim "b" 0 "UP" Samples.overbought in
  Server.price_change_pct (Docs.entry_price sim) 100 == 0 /\
  (Server.close_outcome sim 100 0.1).1 = true /\
  (Server.close_outcome sim 100 0.5).1 = false /\
  Docs.success <$>
    Server.enhanced_simulations
      (Server.db (@Server.close_real_simulation Samples.rational_tanh Samples.failing_sklearn
                    Samples.ledger 200 Samples.noon (Some 100) 0.1).1) !! 1%nat
  = Some (Some true).
Proof.
  repeat split; vm_compute; reflexivity.
Qed.

Section ExactlyOnce.
Import TechnicalAnalyzer Docs Server.
Context `{EnhancedML.Numpy} `{EnhancedML.Sklearn}.

Lemma update_one_lookup_ne id u coll i sim :
  coll !! i = Some sim -> sim_id sim <> id -> (update_one id u coll).1 !! i = Some sim.
Proof.
  revert i. induction coll as [|d rest IH]; intros i Hi Hne; simpl.
  - discriminate.
  - destruct (decide (sim_id d = id)) as [Hd|Hd]; simpl.
    + destruct i as [|i]; simpl in *; [congruence | assumption].
    + pose proof (IH (Nat.pred i)) as IH'.
      destruct (update_one id u rest) as [rest' n]; simpl in *.
      destruct i as [|i]; simpl in *; [assumption | auto].
Qed.

Lemma unique_id coll a b :
  NoDup (sim_id <$> coll) -> a ∈ coll -> b ∈ coll -> sim_id a = sim_id b -> a = b.
Proof.
  induction coll as [|d rest IH]; intros Hnd Ha Hb Hid.
  - inversion Ha.
  - rewrite fmap_cons in Hnd. apply NoDup_cons in Hnd as [Hnotin Hnd].
    apply elem_of_cons in Ha as [->|Ha]; apply elem_of_cons in Hb as [->|Hb].
    + reflexivity.
    + exfalso. apply Hnotin. rewrite Hid. apply list_elem_of_fmap. eauto.
    + exfalso. apply Hnotin. rewrite <- Hid. apply list_elem_of_fmap. eauto.
    + auto.
Qed.

(** Updating the document of an open simulation leaves the closed ones as
    they are. *)
Lemma update_one_keeps_closed u coll target i sim :
  NoDup (sim_id <$> coll) -> target ∈ coll -> closed target = false ->
  coll !! i = Some sim -> closed sim = true ->
  (update_one (sim_id target) u coll).1 !! i = Some sim.
Proof.
  intros Hnd Htarget Hopen Hi Hclosed.
  apply update_one_lookup_ne; [assumption|].
  intros Hid. assert (sim = target) as ->.
  { eapply unique_id; eauto. apply list_elem_of_lookup. eauto. }
  congruence.
Qed.

Lemma latest_elem l x : latest l = Some x -> x ∈ l.
Proof.
  destruct l as [|d rest]; simpl; [discriminate|].
  intros [= <-]. revert d.
  induction rest as [|y rest IH]; intros d; simpl.
  - apply list_elem_of_here.
  - destruct (timestamp y >? timestamp d)%Z.
    + apply list_elem_of_further. apply IH.
    + specialize (IH d). apply elem_of_cons in IH as [Heq|Hin].
      * rewrite Heq. apply list_elem_of_here.
      * do 2 apply list_elem_of_further. exact Hin.
Qed.

(** The simulation picked for closing is an open document of the table that
    is then updated. *)
Lemma select_for_close_open d now sim use_old_table :
  select_for_close d now = Some (sim, use_old_table) ->
  closed sim = false /\
  sim ∈ (if use_old_table then simulations d else enhanced_simulations d).
Proof.
  unfold select_for_close.
  destruct (filter _ (enhanced_simulations d)) as [|o rest] eqn:Hopen.
  - destruct (latest _) as [x|] eqn:Hl; simpl; [|discriminate].
    intros [= <- <-]. apply latest_elem in Hl.
    apply list_elem_of_filter in Hl as [_ Hl].
    apply list_elem_of_filter in Hl as [Hc Hl]. auto.
  - destruct (latest _) as [x|] eqn:Hl; simpl; [|discriminate].
    intros [= <- <-]. apply latest_elem in Hl.
    apply list_elem_of_filter in Hl as [_ Hl].
    rewrite <- Hopen in Hl.
    apply list_elem_of_filter in Hl as [Hc Hl]. auto.
Qed.

(** C2 (amended): [close_real_simulation] only ever selects a simulation whose
    [closed] flag is false, so with unique ids a simulation that is already
    closed keeps all its fields through any call of it, and the id it returns
    is that of a simulation that was open. *)
Theorem C2_close_skips_closed (st : State) (now : Z) (clock : EnhancedML.Clock)
    (current_price : option Q) (random_draw : Q) :
  NoDup (sim_id <$> enhanced_simulations (db st)) ->
  NoDup (sim_id <$> simulations (db st)) ->
  let r := close_real_simulation st now clock current_price random_draw in
  (forall i sim, enhanced_simulations (db st) !! i = Some sim -> closed sim = true ->
                 enhanced_simulations (db r.1) !! i = Some sim) /\
  (forall i sim, simulations (db st) !! i = Some sim -> closed sim = true ->
                 simulations (db r.1) !! i = Some sim) /\
  (forall id, r.2 = Some id ->
     exists sim, (sim ∈ enhanced_simulations (db st) \/ sim ∈ simulations (db st))
                 /\ sim_id sim = id /\ closed sim = false).
Proof.
  intros Hnd1 Hnd2 r. subst r. unfold close_real_simulation.
  destruct (select_for_close (db st) now) as [[sim_to_close use_old_table]|] eqn:Hsel;
    [|simpl; repeat split; auto; discriminate].
  apply select_for_close_open in Hsel as [Hopen Hin].
  destruct current_price as [price|]; [|simpl; repeat split; auto; discriminate].
  destruct (Qeq_bool _ 0); [simpl; repeat split; auto; discriminate|].
  destruct (close_outcome sim_to_close price random_draw) as [is_success result_pct].
  destruct use_old_table; simpl.
  - repeat split; auto.
    + intros i sim Hi Hc. apply update_one_keeps_closed; auto.
    + intros id [= <-]. exists sim_to_close. auto.
  - repeat split; auto.
    + intros i sim Hi Hc. apply update_one_keeps_closed; auto.
    + intros id [= <-]. exists sim_to_close. auto.
Qed.

End ExactlyOnce.

(** The sample ledger satisfies the hypotheses of C2: its closed simulation
    survives a close unchanged. *)
Lemma C2_close_skips_closed_witness :
  NoDup (Docs.sim_id <$> Server.enhanced_simulations (Server.db Samples.ledger)) /\
  NoDup (Docs.sim_id <$> Server.simulations (Server.db Samples.ledger)) /\
  Server.enhanced_simulations
    (Server.db (@Server.close_real_simulation Samples.rational_tanh Samples.failing_sklearn
                  Samples.ledger 200 Samples.noon (Some 100) 0.5).1) !! 0%nat
  = Some (Samples.closed_sim "a").
Proof.
  assert (Hnd1 : NoDup (Docs.sim_id <$> Server.enhanced_simulations (Server.db Samples.ledger)))
    by (apply (bool_decide_unpack _); vm_compute; exact I).
  assert (Hnd2 : NoDup (Docs.sim_id <$> Server.simulations (Server.db Samples.ledger)))
    by (apply (bool_decide_unpack _); vm_compute; exact I).
  split; [exact Hnd1 | split; [exact Hnd2 |]].
  apply (@C2_close_skips_closed Samples.rational_tanh Samples.failing_sklearn
           Samples.ledger 200 Samples.noon (Some 100) 0.5 Hnd1 Hnd2);
    reflexivity.
Defined.

(** C2 (as stated) fails on the manual update path: an update of the closed
    simulation "a" is accepted and rewrites its exit price, result and success
    label. *)
Lemma C2_counterexample :
  let r := @Server.update_simulation Samples.rational_tanh Samples.failing_sklearn
             Samples.ledger "a" Samples.rewrite_outcome Samples.noon in
  Docs.closed (Samples.closed_sim "a") = true /\
  Docs.success (Samples.closed_sim "a") = Some true /\
  r.2 = Server.Updated /\
  Docs.success <$> Server.enhanced_simulations (Server.db r.1) !! 0%nat = Some (Some false) /\
  Docs.exit_price <$> Server.enhanced_simulations (Server.db r.1) !! 0%nat = Some (Some 90) /\
  Docs.result_pct <$> Server.enhanced_simulations (Server.db r.1) !! 0%nat = Some (Some (-10)).
Proof.
  repeat split; vm_compute; reflexivity.
Qed.

(** ** Stored confidence *)

Section StoredConfidence.
Import TechnicalAnalyzer Docs Server.

(** The sibling predictor of ai_learning_system.py does clamp its adjusted
    confidence to [0.5, 0.95]. *)
Lemma calculate_adjusted_confidence_range up down ta :
  0.5 <= MLTrading.calculate_adjusted_confidence up down ta <= 0.95.
Proof.
  unfold MLTrading.calculate_adjusted_confidence. split.
  - apply Q.le_max_l.
  - apply Q.max_lub; [lra | apply Q.le_min_l].
Qed.




End StoredConfidence.



(** ** Ensemble predictor *)

Section Predictor.
Import TechnicalAnalyzer Docs EnhancedML.
Context `{Numpy} `{Sklearn}.

Lemma basic_prediction_shape ta coin :
  let p := basic_prediction ta coin in
  (prediction p = "UP"%string \/ prediction p = "DOWN"%string) /\
  0.5 <= pred_confidence p <= 0.8 /\
  prob_up p + prob_down p == 1 /\
  (length (reasoning p) <= 5)%nat /\
  (model_details p = MethodDetails "Technical Analysis Fallback"
   \/ model_details p = MethodDetails "Random Fallback").
Proof.
  destruct ta as [ta|]; simpl.
  - set (strength := default 0%Z (strength (default no_signals (signals ta)))).
    assert (Hc : 0.5 <= Qmax (Qmin (inject_Z (Z.abs strength) / 100) 0.8) 0.5 <= 0.8).
    { apply Qmax_bounds; [apply Q.le_min_r | lra]. }
    destruct (strength >? 0)%Z; repeat split; auto; try apply Hc; try lia; lra.
  - destruct coin; repeat split; auto; try lia; lra.
Qed.

(** A failed training leaves the predictor untrained. *)
Lemma train_models_failed_untrained s X y :
  is_trained s = false -> (train_models s X y).2 = false ->
  is_trained (train_models s X y).1 = false.
Proof.
  unfold train_models. destruct (fit_models X y); simpl; [auto | discriminate].
Qed.

(** Predicting never changes whether the predictor is trained. *)
Lemma advanced_prediction_is_trained s ta now coin :
  is_trained (advanced_prediction s ta now coin).1 = is_trained s.
Proof.
  unfold advanced_prediction.
  destruct (negb (is_trained s) || bool_decide (models s = [])); [reflexivity|].
  destruct (ensemble_prediction s ta now); reflexivity.
Qed.

(** C8: while the predictor is untrained, [advanced_prediction] returns the
    heuristic prediction of [basic_prediction] without touching its state; the
    result has the shape of every prediction (direction UP or DOWN, a
    probability pair summing to 1, a confidence in [0.5, 0.8], at most five
    reasons) and its model detail names a fallback method. *)
Theorem C8_untrained_predict_falls_back (s : EnhancedMLSystem) (ta : option Analysis)
    (now : Clock) (coin : bool) :
  is_trained s = false ->
  let p := (advanced_prediction s ta now coin).2 in
  (advanced_prediction s ta now coin).1 = s /\
  p = basic_prediction ta coin /\
  (prediction p = "UP"%string \/ prediction p = "DOWN"%string) /\
  0.5 <= pred_confidence p <= 0.8 /\
  prob_up p + prob_down p == 1 /\
  (length (reasoning p) <= 5)%nat /\
  (model_details p = MethodDetails "Technical Analysis Fallback"
   \/ model_details p = MethodDetails "Random Fallback").
Proof.
  intros Huntrained. unfold advanced_prediction. rewrite Huntrained. simpl.
  split; [reflexivity | split; [reflexivity |]].
  apply basic_prediction_shape.
Qed.

End Predictor.

(** The freshly constructed predictor answers an overbought snapshot with the
    technical-analysis fallback. *)
Lemma C8_untrained_predict_falls_back_witness :
  EnhancedML.is_trained EnhancedML.init = false /\
  Docs.model_details
    (@EnhancedML.advanced_prediction Samples.rational_tanh EnhancedML.init
       (Some Samples.overbought) Samples.noon true).2
  = Docs.MethodDetails "Technical Analysis Fallback".
Proof.
  split; [reflexivity |].
  destruct (@C8_untrained_predict_falls_back Samples.rational_tanh EnhancedML.init
              (Some Samples.overbought) Samples.noon true eq_refl)
    as (_ & Hp & _).
  rewrite Hp. reflexivity.
Defined.

(** ** Feature extraction *)

Section Features.
Import TechnicalAnalyzer Docs EnhancedML.
Context `{IndicatorLib} `{Numpy}.

Lemma fix_length_length features : length (fix_length features) = 20%nat.
Proof.
  unfold fix_length. rewrite length_take, length_app, length_replicate. lia.
Qed.

Lemma fix_length_zero_fill features i :
  (length features <= i < 20)%nat -> fix_length features !! i = Some 0.
Proof.
  intros [Hlo Hhi]. unfold fix_length.
  rewrite lookup_take_lt by exact Hhi.
  rewrite lookup_app_r by exact Hlo.
  apply lookup_replicate_2. lia.
Qed.

Lemma fix_length_keeps features i :
  (i < 20)%nat -> (i < length features)%nat -> fix_length features !! i = features !! i.
Proof.
  intros Hhi Hlo. unfold fix_length.
  rewrite lookup_take_lt by exact Hhi.
  apply lookup_app_l. exact Hlo.
Qed.

Lemma extract_features_length ta now : length (extract_features ta now) = 20%nat.
Proof.
  destruct ta; unfold extract_features; [apply fix_length_length | apply length_replicate].
Qed.


End Features.



(** ** Learning from results *)

Section Learning.
Import TechnicalAnalyzer Docs EnhancedML.
Context `{Numpy} `{Sklearn}.

Lemma deque_append_last {A} (maxlen : nat) (l : list A) (x : A) :
  (0 < maxlen)%nat -> last (deque_append maxlen l x) = Some x.
Proof.
  intros Hpos. unfold deque_append, last_n.
  rewrite length_app. simpl.
  rewrite drop_app_le by lia. apply last_snoc.
Qed.

(** Retraining touches neither the label counters nor, unless it succeeds and
    empties it, the learning queue. *)
Lemma incremental_retrain_keeps s sims now :
  let s' := incremental_retrain s sims now in
  labeled_predictions (prediction_stats s') = labeled_predictions (prediction_stats s) /\
  correct_predictions (prediction_stats s') = correct_predictions (prediction_stats s) /\
  prediction_history s' = prediction_history s /\
  (learning_queue s' = [] \/ learning_queue s' = learning_queue s).
Proof.
  unfold incremental_retrain.
  destruct (collect_training_data sims now) as [[X y]|]; [|simpl; auto].
  destruct (50 <? length X)%nat; [|simpl; auto].
  unfold train_models. destruct (fit_models X y); simpl; auto.
Qed.

(** C10: with a non-empty prediction history, [learn_from_result] pairs the
    outcome label with the last entry of the history: the label counters move
    according to the direction of that entry, the features queued with the
    label are those of its analysis, and the result is the same for every
    [simulation_id]. *)
Theorem C10_label_goes_to_latest (s : EnhancedMLSystem) (history : list HistoryEntry)
    (latest : HistoryEntry) (simulation_id other_id : string) (actual_result : bool)
    (sims : list Simulation) (now : Clock) :
  prediction_history s = history ++ [latest] ->
  let s' := learn_from_result s simulation_id actual_result sims now in
  let was_correct :=
    (bool_decide (prediction (he_prediction latest) = "UP"%string) && actual_result)
    || (bool_decide (prediction (he_prediction latest) = "DOWN"%string) && negb actual_result) in
  learn_from_result s other_id actual_result sims now = s' /\
  labeled_predictions (prediction_stats s')
  = (labeled_predictions (prediction_stats s) + 1)%Z /\
  correct_predictions (prediction_stats s')
  = (correct_predictions (prediction_stats s) + if was_correct then 1 else 0)%Z /\
  (learning_queue s' = [] \/
   last (learning_queue s')
   = Some {| qe_features := extract_features (he_technical_analysis latest) now;
             qe_label := if actual_result then 1%Z else 0%Z |}).
Proof.
  intros Hhist s' was_correct. subst s'.
  split; [reflexivity |].
  unfold learn_from_result. rewrite head_reverse, Hhist, last_snoc.
  set (s1 := record_label s latest actual_result now).
  assert (Hq : last (learning_queue s1)
               = Some {| qe_features := extract_features (he_technical_analysis latest) now;
                         qe_label := if actual_result then 1%Z else 0%Z |}).
  { apply deque_append_last. lia. }
  assert (Hl : labeled_predictions (prediction_stats s1)
               = (labeled_predictions (prediction_stats s) + 1)%Z) by reflexivity.
  assert (Hc : correct_predictions (prediction_stats s1)
               = (correct_predictions (prediction_stats s) + if was_correct then 1 else 0)%Z).
  { subst was_correct. simpl.
    destruct (_ || _); lia. }
  destruct (50 <=? length (learning_queue s1))%nat.
  - destruct (incremental_retrain_keeps s1 sims now) as (Hl' & Hc' & _ & Hq').
    rewrite Hl', Hc', Hl, Hc. repeat split.
    destruct Hq' as [Hq'|Hq']; [left; exact Hq' | right; rewrite Hq'; exact Hq].
  - repeat split; auto.
Qed.

End Learning.

(** With a DOWN prediction followed by an UP prediction in the history, a
    successful outcome reported for any simulation is counted as a correct UP
    prediction. *)
Lemma C10_label_goes_to_latest_witness :
  EnhancedML.prediction_history Samples.two_predictions
  = [Samples.down_entry] ++ [Samples.up_entry] /\
  EnhancedML.correct_predictions
    (EnhancedML.prediction_stats
       (@EnhancedML.learn_from_result Samples.rational_tanh Samples.failing_sklearn
          Samples.two_predictions "simulation of the DOWN prediction" true [] Samples.noon))
  = 1%Z.
Proof.
  split; [reflexivity |].
  destruct (@C10_label_goes_to_latest Samples.rational_tanh Samples.failing_sklearn
              Samples.two_predictions [Samples.down_entry] Samples.up_entry
              "simulation of the DOWN prediction" "another simulation" true []
              Samples.noon eq_refl)
    as (_ & _ & Hc & _).
  rewrite Hc. reflexivity.
Defined.

(** ** Scenarios *)

(** An RSI of 75 adds the overbought label to the bearish list and takes 15
    points off the strength (the EMA rule takes the other 10). *)
Example scenario_overbought :
  TechnicalAnalyzer.bearish_signals (TechnicalAnalyzer.generate_signals Samples.overbought)
  = Some ["RSI overbought (>70)"; "EMA 20 below EMA 50"]%string /\
  TechnicalAnalyzer.strength (TechnicalAnalyzer.generate_signals Samples.overbought)
  = Some (-25)%Z.
Proof. split; reflexivity. Qed.

(** A simulation opened at 100 with trend UP and closed at 100.5 is a success
    with a result of 0.5 percent, whatever the random draw when its
    confidence is at most 0.8. *)
Example scenario_gain :
  let sim := Samples.closed_sim "a" in
  (Server.close_outcome sim 100.5 0.9).1 = true /\
  (Server.close_outcome sim 100.5 0.9).2 == 0.5 /\
  Server.round2 (Server.close_outcome sim 100.5 0.9).2 == 0.5.
Proof. repeat split; vm_compute; reflexivity. Qed.

(** After six failures the organic weight sits at its ceiling of 0.8. *)
Example scenario_ceiling :
  ErrorLearning.correction_weights (ErrorLearning.run Samples.six_failures)
    !! "ema_crossover_fail"%string = Some 0.8.
Proof. vm_compute. reflexivity. Qed.

(** * Further properties of the code *)

(** ** Signal lists and strength *)

Section SignalLists.
Import TechnicalAnalyzer.

(** What one rule may do to the running state: add at most one label, and
    move the strength by 10 to 25 points towards the side of that label. *)
Local Abbreviation bulls a := (Z.of_nat (length (acc_bullish a))).
Local Abbreviation bears a := (Z.of_nat (length (acc_bearish a))).

Local Ltac rule_effect :=
  let a' := fresh "a'" in
  intros ? ? a'; subst a';
  unfold rsi_rule, macd_rule, ema_rule, bollinger_rule, volume_rule,
         hammer_rule, engulfing_rule, bull, bear;
  repeat (match goal with |- context [ if ?b then _ else _ ] => destruct b end);
  simpl; rewrite ?length_app; simpl; lia.

Lemma rsi_rule_backed an a lo hi :
  (10 * bulls a - 25 * bears a <= acc_strength a <= 25 * bulls a - 10 * bears a)%Z ->
  (lo <= bulls a + bears a <= hi)%Z ->
  let a' := rsi_rule an a in
  (10 * bulls a' - 25 * bears a' <= acc_strength a' <= 25 * bulls a' - 10 * bears a')%Z
  /\ (lo <= bulls a' + bears a' <= hi + 1)%Z.
Proof. rule_effect. Qed.

Lemma macd_rule_backed an a lo hi :
  (10 * bulls a - 25 * bears a <= acc_strength a <= 25 * bulls a - 10 * bears a)%Z ->
  (lo <= bulls a + bears a <= hi)%Z ->
  let a' := macd_rule an a in
  (10 * bulls a' - 25 * bears a' <= acc_strength a' <= 25 * bulls a' - 10 * bears a')%Z
  /\ (lo <= bulls a' + bears a' <= hi + 1)%Z.
Proof. rule_effect. Qed.

Lemma ema_rule_backed an a lo hi :
  (10 * bulls a - 25 * bears a <= acc_strength a <= 25 * bulls a - 10 * bears a)%Z ->
  (lo <= bulls a + bears a <= hi)%Z ->
  let a' := ema_rule an a in
  (10 * bulls a' - 25 * bears a' <= acc_strength a' <= 25 * bulls a' - 10 * bears a')%Z
  /\ (lo + 1 <= bulls a' + bears a' <= hi + 1)%Z.
Proof. rule_effect. Qed.

Lemma bollinger_rule_backed an a lo hi :
  (10 * bulls a - 25 * bears a <= acc_strength a <= 25 * bulls a - 10 * bears a)%Z ->
  (lo <= bulls a + bears a <= hi)%Z ->
  let a' := bollinger_rule an a in
  (10 * bulls a' - 25 * bears a' <= acc_strength a' <= 25 * bulls a' - 10 * bears a')%Z
  /\ (lo <= bulls a' + bears a' <= hi + 1)%Z.
Proof. rule_effect. Qed.

Lemma volume_rule_backed an a lo hi :
  (10 * bulls a - 25 * bears a <= acc_strength a <= 25 * bulls a - 10 * bears a)%Z ->
  (lo <= bulls a + bears a <= hi)%Z ->
  let a' := volume_rule an a in
  (10 * bulls a' - 25 * bears a' <= acc_strength a' <= 25 * bulls a' - 10 * bears a')%Z
  /\ (lo <= bulls a' + bears a' <= hi + 1)%Z.
Proof. rule_effect. Qed.

Lemma hammer_rule_backed an a lo hi :
  (10 * bulls a - 25 * bears a <= acc_strength a <= 25 * bulls a - 10 * bears a)%Z ->
  (lo <= bulls a + bears a <= hi)%Z ->
  let a' := hammer_rule an a in
  (10 * bulls a' - 25 * bears a' <= acc_strength a' <= 25 * bulls a' - 10 * bears a')%Z
  /\ (lo <= bulls a' + bears a' <= hi + 1)%Z.
Proof. rule_effect. Qed.

Lemma engulfing_rule_backed an a lo hi :
  (10 * bulls a - 25 * bears a <= acc_strength a <= 25 * bulls a - 10 * bears a)%Z ->
  (lo <= bulls a + bears a <= hi)%Z ->
  let a' := engulfing_rule an a in
  (10 * bulls a' - 25 * bears a' <= acc_strength a' <= 25 * bulls a' - 10 * bears a')%Z
  /\ (lo <= bulls a' + bears a' <= hi + 1)%Z.
Proof. rule_effect. Qed.

Lemma run_rules_backed an :
  let a := run_rules an in
  (10 * bulls a - 25 * bears a <= acc_strength a <= 25 * bulls a - 10 * bears a)%Z
  /\ (1 <= bulls a + bears a <= 7)%Z.
Proof.
  unfold run_rules.
  set (a0 := Build_SignalAcc [] [] 0%Z).
  assert (H0 : (10 * bulls a0 - 25 * bears a0 <= acc_strength a0
                <= 25 * bulls a0 - 10 * bears a0)%Z) by (simpl; lia).
  assert (C0 : (0 <= bulls a0 + bears a0 <= 0)%Z) by (simpl; lia).
  destruct (rsi_rule_backed an _ _ _ H0 C0) as [H1 C1].
  destruct (macd_rule_backed an _ _ _ H1 C1) as [H2 C2].
  destruct (ema_rule_backed an _ _ _ H2 C2) as [H3 C3].
  destruct (bollinger_rule_backed an _ _ _ H3 C3) as [H4 C4].
  destruct (volume_rule_backed an _ _ _ H4 C4) as [H5 C5].
  destruct (hammer_rule_backed an _ _ _ H5 C5) as [H6 C6].
  destruct (engulfing_rule_backed an _ _ _ H6 C6) as [H7 C7].
  split; [exact H7 | lia].
Qed.

(** X1: every snapshot triggers between one and seven rules (the EMA rule
    always fires), [total_signals] and [net_bullish] are the sum and the
    difference of the two list lengths, and the strength is backed by the
    lists: each bullish label is worth 10 to 25 points and each bearish label
    costs 10 to 25, so a positive strength comes with a bullish label and a
    negative one with a bearish label. *)
Theorem signals_backed_by_labels (an : Analysis) :
  exists (s : Z) (b r : list string),
    strength (generate_signals an) = Some s /\
    bullish_signals (generate_signals an) = Some b /\
    bearish_signals (generate_signals an) = Some r /\
    total_signals (generate_signals an) = Some (Z.of_nat (length b + length r)) /\
    net_bullish (generate_signals an) = Some (Z.of_nat (length b) - Z.of_nat (length r))%Z /\
    (1 <= length b + length r <= 7)%nat /\
    (10 * Z.of_nat (length b) - 25 * Z.of_nat (length r) <= s
     <= 25 * Z.of_nat (length b) - 10 * Z.of_nat (length r))%Z /\
    ((s <= 0)%Z \/ b <> []) /\ ((0 <= s)%Z \/ r <> []).
Proof.
  destruct (run_rules_backed an) as [Hs Hc].
  exists (acc_strength (run_rules an)), (acc_bullish (run_rules an)),
         (acc_bearish (run_rules an)).
  simpl. repeat split; try reflexivity; try lia.
  - f_equal. lia.
  - destruct (acc_bullish (run_rules an)); [left; simpl in Hs; lia | right; discriminate].
  - destruct (acc_bearish (run_rules an)); [left; simpl in Hs; lia | right; discriminate].
Qed.

End SignalLists.

(** ** Indicators computed in Python *)

Section IndicatorFacts.
Import TechnicalAnalyzer Indicators.

Lemma last_n_last {A} (n : nat) (l pre : list A) (x : A) :
  last_n n l = pre ++ [x] -> last l = Some x.
Proof.
  unfold last_n. intros Hd.
  rewrite <- (take_drop (length l - n) l), Hd, app_assoc. apply last_snoc.
Qed.

Lemma last_n_short {A} (n : nat) (l : list A) :
  (length l <= n)%nat -> last_n n l = l.
Proof.
  intros Hlen. unfold last_n. replace (length l - n)%nat with 0%nat by lia. reflexivity.
Qed.

Lemma last_n_length {A} (n : nat) (l : list A) :
  length (last_n n l) = Nat.min n (length l).
Proof. unfold last_n. rewrite length_drop. lia. Qed.

(** X2: a window of fewer than three bars shows no candlestick pattern, and a
    last candle that closes where it opened is neither an engulfing nor, when
    its high is not below that price, a hammer. *)
Theorem flat_candle_no_pattern (df : list Bar) :
  ((length df < 3)%nat -> detect_candlestick_patterns df = no_pattern) /\
  (forall last_bar,
     last df = Some last_bar ->
     bar_open last_bar == bar_close last_bar ->
     engulfing (detect_candlestick_patterns df) = Some false /\
     (bar_close last_bar <= bar_high last_bar ->
      hammer (detect_candlestick_patterns df) = Some false)).
Proof.
  split.
  - intros Hlen. unfold detect_candlestick_patterns.
    rewrite last_n_short by lia.
    destruct df as [|a [|b [|c rest]]]; simpl in Hlen; try reflexivity; lia.
  - intros last_bar Hlast Hflat. unfold detect_candlestick_patterns.
    destruct (last_n 3 df) as [|a [|b [|c [|d rest]]]] eqn:Hd;
      try (split; [reflexivity | intros; reflexivity]).
    assert (c = last_bar) as ->.
    { pose proof (last_n_last 3 df [a; b] c Hd) as Hc. congruence. }
    cbv zeta. cbn [engulfing hammer].
    assert (Hbody : Qabs (bar_close last_bar - bar_open last_bar) == 0).
    { apply Qabs_case; intros; lra. }
    pose proof (Qabs_nonneg (bar_close b - bar_open b)) as Hprev.
    set (body := Qabs (bar_close last_bar - bar_open last_bar)) in *.
    set (prev_body := Qabs (bar_close b - bar_open b)) in *.
    split.
    + f_equal. apply andb_false_iff. left. apply Qltb_ge. lra.
    + intros Hhigh. f_equal. apply andb_false_iff. right. apply Qltb_ge.
      assert (Qmax (bar_open last_bar) (bar_close last_bar) <= bar_high last_bar)
        by (apply Q.max_lub; lra).
      lra.
Qed.

Lemma last_n_elem {A} (n : nat) (l : list A) (x : A) : x ∈ last_n n l -> x ∈ l.
Proof.
  unfold last_n. intros Hin.
  rewrite <- (take_drop (length l - n) l). apply elem_of_app. right. exact Hin.
Qed.

Lemma fold_left_pick (f : Q -> Q -> Q) (rest : list Q) (x : Q) :
  (forall a b, f a b = a \/ f a b = b) -> fold_left f rest x ∈ x :: rest.
Proof.
  intros Hpick. revert x. induction rest as [|y rest IH]; intros x; simpl.
  - apply list_elem_of_here.
  - specialize (IH (f x y)). apply elem_of_cons in IH as [Heq|Hin].
    + rewrite Heq. destruct (Hpick x y) as [->| ->].
      * apply list_elem_of_here.
      * apply list_elem_of_further, list_elem_of_here.
    + do 2 apply list_elem_of_further. exact Hin.
Qed.

Lemma Qmin_pick a b : Qmin a b = a \/ Qmin a b = b.
Proof. unfold Qmin, GenericMinMax.gmin. destruct (a ?= b); auto. Qed.

Lemma Qmax_pick a b : Qmax a b = a \/ Qmax a b = b.
Proof. unfold Qmax, GenericMinMax.gmax. destruct (a ?= b); auto. Qed.

Lemma min_default_cases values d :
  (values = [] /\ min_default values d = d) \/ min_default values d ∈ values.
Proof.
  destruct values as [|x rest]; [left; auto | right].
  apply fold_left_pick, Qmin_pick.
Qed.

Lemma max_default_cases values d :
  (values = [] /\ max_default values d = d) \/ max_default values d ∈ values.
Proof.
  destruct values as [|x rest]; [left; auto | right].
  apply fold_left_pick, Qmax_pick.
Qed.

Lemma local_extrema_elem beats xs x : x ∈ local_extrema beats xs -> x ∈ xs.
Proof.
  induction xs as [|a rest IH]; simpl; [auto|].
  destruct rest as [|b [|c [|d [|e rest']]]]; try (intros Hin; inversion Hin; fail).
  intros Hin. apply elem_of_app in Hin as [Hin|Hin].
  - destruct (_ && _); [|inversion Hin].
    apply list_elem_of_singleton in Hin as ->.
    do 2 apply list_elem_of_further. apply list_elem_of_here.
  - apply list_elem_of_further. apply IH. exact Hin.
Qed.

Lemma local_extrema_short beats xs : (length xs < 5)%nat -> local_extrema beats xs = [].
Proof.
  induction xs as [|a rest IH]; simpl; [auto|].
  destruct rest as [|b [|c [|d [|e rest']]]]; simpl; auto. lia.
Qed.

(** X3: for a window whose last close and whose lows are positive, the
    support lies strictly below the last close and the resistance strictly
    above it, so both reported distances are positive; with fewer than five
    bars there is no extremum and the distances are the defaults of 5 percent
    above and 100/19 percent below. *)
Theorem levels_bracket_price (df : list Bar) (last_bar : Bar) :
  last df = Some last_bar ->
  0 < bar_close last_bar ->
  (forall b, b ∈ df -> 0 < bar_low b) ->
  exists lv rd sd,
    calculate_support_resistance df = Some lv /\
    0 < lv_support lv /\
    lv_support lv < bar_close last_bar /\ bar_close last_bar < lv_resistance lv /\
    lv_distances lv = Build_SupportResistance (Some rd) (Some sd) /\
    0 < rd /\ 0 < sd /\
    ((5 <= length df)%nat \/ (rd == 5 /\ sd == 100 / 19)).
Proof.
  intros Hlast Hprice Hlows. unfold calculate_support_resistance. rewrite Hlast.
  set (price := bar_close last_bar) in *.
  set (resistances := local_extrema Qgtb (bar_high <$> last_n 50 df)).
  set (supports := local_extrema Qltb (bar_low <$> last_n 50 df)).
  set (resistance := min_default (filter (fun r => Qgtb r price) resistances) (price * 1.05)).
  set (support := max_default (filter (fun s => Qltb s price) supports) (price * 0.95)).
  assert (Hres : price < resistance).
  { subst resistance.
    destruct (min_default_cases (filter (fun r => Qgtb r price) resistances) (price * 1.05))
      as [[_ ->]|Hin]; [lra|].
    apply list_elem_of_filter in Hin as [Hgt _].
    apply Is_true_true in Hgt. apply Qgtb_gt in Hgt. exact Hgt. }
  assert (Hsup : 0 < support /\ support < price).
  { subst support.
    destruct (max_default_cases (filter (fun s => Qltb s price) supports) (price * 0.95))
      as [[_ ->]|Hin]; [split; lra|].
    apply list_elem_of_filter in Hin as [Hlt Hin].
    apply Is_true_true in Hlt. apply Qltb_lt in Hlt. split; [|exact Hlt].
    apply local_extrema_elem, list_elem_of_fmap in Hin as (b & -> & Hb).
    apply Hlows. eapply last_n_elem. exact Hb. }
  destruct Hsup as [Hsup0 Hsup].
  assert (Hp0 : Qeq_bool price 0 = false).
  { destruct (Qeq_bool price 0) eqn:E; [|reflexivity]. apply Qeq_bool_eq in E. lra. }
  assert (Hs0 : Qeq_bool support 0 = false).
  { destruct (Qeq_bool support 0) eqn:E; [|reflexivity]. apply Qeq_bool_eq in E. lra. }
  rewrite Hp0, Hs0. simpl orb. cbv iota.
  eexists _, _, _. split; [reflexivity|]. cbn [lv_support lv_resistance lv_distances].
  assert (Hrd : 1 < resistance / price) by (apply Qlt_shift_div_l; lra).
  assert (Hsd : 1 < price / support) by (apply Qlt_shift_div_l; lra).
  repeat split; try assumption; try reflexivity; try lra.
  destruct (le_lt_dec 5 (length df)) as [Hlen|Hlen]; [left; exact Hlen | right].
  assert (Hshort : (length (last_n 50 df) < 5)%nat) by (rewrite last_n_length; lia).
  subst resistance support resistances supports.
  rewrite !local_extrema_short by (rewrite length_fmap; exact Hshort).
  simpl. split; field; lra.
Qed.

Lemma last_elem {A} (l : list A) (x : A) : last l = Some x -> x ∈ l.
Proof.
  intros Hl. apply last_Some in Hl as [l' ->]. apply elem_of_app. right.
  apply list_elem_of_here.
Qed.

(** X4: the volume strength is 0 for fewer than 20 bars, and for volumes that
    are not negative it never falls below -100; the [volume_anomaly] check of
    the error learner, which asks for a magnitude above 100, can therefore
    fire only when the last volume is more than twice its 20-bar mean. *)
Theorem volume_strength_floor (df : list Bar) (ta : Analysis) :
  (forall b, b ∈ df -> 0 <= bar_volume b) ->
  volume ta = Some (analyze_volume df) ->
  exists vs,
    volume_strength (analyze_volume df) = Some vs /\
    -100 <= vs /\
    ((20 <= length df)%nat \/ vs = 0) /\
    (ErrorLearning.volume_pattern ta = []
     \/ exists last_bar ma,
          last df = Some last_bar /\ volume_ma df = Some ma /\
          0 < ma /\ 2 * ma < bar_volume last_bar).
Proof.
  intros Hvol Hta. unfold ErrorLearning.volume_pattern. rewrite Hta. simpl default.
  unfold analyze_volume.
  destruct (last df) as [last_bar|] eqn:Hlast.
  - cbn [volume_strength from_option id].
    assert (Hcur : 0 <= bar_volume last_bar) by (apply Hvol, last_elem, Hlast).
    destruct (volume_ma df) as [ma|] eqn:Hma.
    + assert (Hlen : (20 <= length df)%nat).
      { unfold volume_ma in Hma. destruct (20 <=? length df)%nat eqn:E; [|discriminate].
        apply Nat.leb_le in E. exact E. }
      destruct (Qgtb ma 0) eqn:Hpos.
      * apply Qgtb_gt in Hpos.
        assert (Hq : 0 <= bar_volume last_bar / ma) by (apply Qle_shift_div_l; lra).
        eexists. split; [reflexivity|]. split; [lra|]. split; [left; exact Hlen|].
        destruct (Qgtb (Qabs _) 100) eqn:Hbig; [right | left; reflexivity].
        apply Qgtb_gt in Hbig.
        exists last_bar, ma. repeat split; auto.
        assert (Hvs : 2 < bar_volume last_bar / ma).
        { destruct (Qlt_le_dec 2 (bar_volume last_bar / ma)) as [Hl|Hl]; [exact Hl|].
          exfalso. apply (Qlt_not_le _ _ Hbig). apply Qabs_Qle_condition. split; lra. }
        assert (Heq : bar_volume last_bar / ma * ma == bar_volume last_bar) by (field; lra).
        rewrite <- Heq. apply Qmult_lt_compat_r; assumption.
      * eexists. split; [reflexivity|]. split; [lra|]. split; [left; exact Hlen|].
        left. reflexivity.
    + eexists. split; [reflexivity|]. split; [lra|]. split; [right; reflexivity|].
      left. reflexivity.
  - eexists. split; [reflexivity|]. split; [lra|]. split; [right; reflexivity|].
    left. reflexivity.
Qed.

(** X5: the flags computed from the moving averages agree with their order: a
    golden cross comes only with [ema_20] above [ema_50] and a death cross
    only with it below, never both at once; the EMA rule of the scorer on
    these flags adds points exactly when [ema_20] is above [ema_50] (25 on a
    golden cross, 10 otherwise) and removes 25 or 10 otherwise. *)
Theorem ema_flags_agree (ema_20 ema_50 ema_20_prev ema_50_prev : Q)
    (an : Analysis) (a : SignalAcc) :
  emas an = Some (calculate_emas_from ema_20 ema_50 ema_20_prev ema_50_prev) ->
  let flags := calculate_emas_from ema_20 ema_50 ema_20_prev ema_50_prev in
  let delta := (acc_strength (ema_rule an a) - acc_strength a)%Z in
  (golden_cross flags = Some true <-> ema_50 < ema_20 /\ ema_20_prev <= ema_50_prev) /\
  (death_cross flags = Some true <-> ema_20 < ema_50 /\ ema_50_prev <= ema_20_prev) /\
  ~ (golden_cross flags = Some true /\ death_cross flags = Some true) /\
  (ema_50 < ema_20 -> delta = 25%Z \/ delta = 10%Z) /\
  (ema_20 <= ema_50 -> delta = (-25)%Z \/ delta = (-10)%Z).
Proof.
  intros Han flags delta. subst flags delta.
  unfold ema_rule. rewrite Han. unfold calculate_emas_from. simpl.
  unfold Qleb, Qgtb.
  destruct (Qltb ema_50 ema_20) eqn:Hup;
    destruct (Qltb ema_20 ema_50) eqn:Hdown;
    destruct (Qltb ema_50_prev ema_20_prev) eqn:Hp1;
    destruct (Qltb ema_20_prev ema_50_prev) eqn:Hp2;
    simpl;
    repeat match goal with
           | H : Qltb _ _ = true |- _ => apply Qltb_lt in H
           | H : Qltb _ _ = false |- _ => apply Qltb_ge in H
           end;
    repeat split; intros; try discriminate; try lra; try lia;
    try (match goal with H : _ /\ _ |- _ => destruct H end; try discriminate; lra);
    intros [? ?]; discriminate.
Qed.

(** X6: the Bollinger position is 0.5 when the bands coincide; for an upper
    band above the lower one it lies in [0, 1] exactly when the price lies
    between the bands, so a price outside the bands gives a position outside
    [0, 1]. *)
Theorem bollinger_position_range (current_price upper middle lower : Q) :
  lower <= upper ->
  exists position,
    bb_position (calculate_bollinger_bands_from current_price upper middle lower)
    = Some position /\
    (upper == lower /\ position = 0.5 \/
     lower < upper /\
     (0 <= position <= 1 <-> lower <= current_price <= upper) /\
     (position < 0.2 <-> current_price < lower + 0.2 * (upper - lower)) /\
     (0.8 < position <-> lower + 0.8 * (upper - lower) < current_price)).
Proof.
  intros Hbands. unfold calculate_bollinger_bands_from. cbn [bb_position].
  eexists. split; [reflexivity|].
  destruct (Qeq_bool upper lower) eqn:E; simpl.
  - left. apply Qeq_bool_eq in E. auto.
  - right. apply Qeq_bool_neq in E.
    assert (Hlt : lower < upper).
    { destruct (Qlt_le_dec lower upper) as [Hl|Hl]; [exact Hl|]. exfalso. apply E. lra. }
    split; [exact Hlt|].
    set (w := upper - lower). assert (Hw : 0 < w) by (subst w; lra).
    set (pos := (current_price - lower) / w).
    assert (Heq : pos * w == current_price - lower) by (subst pos; field; lra).
    assert (Hscale : forall c, (c < pos <-> c * w < current_price - lower)
                            /\ (pos < c <-> current_price - lower < c * w)
                            /\ (c <= pos <-> c * w <= current_price - lower)
                            /\ (pos <= c <-> current_price - lower <= c * w)).
    { intros c. rewrite <- Heq. repeat split; intros Hc.
      - apply Qmult_lt_compat_r; assumption.
      - apply Qmult_lt_r in Hc; assumption.
      - apply Qmult_lt_compat_r; assumption.
      - apply Qmult_lt_r in Hc; assumption.
      - apply Qmult_le_compat_r; lra.
      - apply Qmult_le_r in Hc; assumption.
      - apply Qmult_le_compat_r; lra.
      - apply Qmult_le_r in Hc; assumption. }
    destruct (Hscale 0) as (_ & _ & H0 & _).
    destruct (Hscale 1) as (_ & _ & _ & H1).
    destruct (Hscale 0.2) as (_ & H2 & _ & _).
    destruct (Hscale 0.8) as (H8 & _ & _ & _).
    subst w. repeat split; intros; try (apply H0 || apply H1 || apply H2 || apply H8); lra.
Qed.

End IndicatorFacts.

(** ** Error learner: window, categories and monotonicity *)

Section LearnerFacts.
Import TechnicalAnalyzer Docs ErrorLearning.

Lemma deque_append_length {A} (maxlen : nat) (l : list A) (x : A) :
  length (deque_append maxlen l x) = Nat.min maxlen (length l + 1).
Proof.
  unfold deque_append. rewrite last_n_length, length_app. reflexivity.
Qed.

Lemma apply_corrections_keeps s ea :
  recent_errors (apply_corrections s ea) = recent_errors s /\
  total_errors_analyzed (error_stats (apply_corrections s ea))
  = total_errors_analyzed (error_stats s).
Proof.
  unfold apply_corrections. destruct (fold_left _ _ _) as [weights applied]. simpl.
  split; [reflexivity|]. destruct (applied >? 0)%Z; reflexivity.
Qed.

Lemma optimize_keeps s :
  recent_errors (optimize_for_90_percent s).1 = recent_errors s /\
  total_errors_analyzed (error_stats (optimize_for_90_percent s).1)
  = total_errors_analyzed (error_stats s).
Proof.
  unfold optimize_for_90_percent. destruct (fold_left _ _ _) as [weights actions].
  simpl. auto.
Qed.

(** X7: after any sequence of calls the window of recent errors holds the
    last analysed failures, at most 200 of them: its length is the smaller of
    200 and the number of failures analysed so far. *)
Theorem recent_errors_window (calls : list Call) :
  Z.of_nat (length (recent_errors (run calls)))
  = Z.min 200 (total_errors_analyzed (error_stats (run calls))).
Proof.
  unfold run.
  assert (Hgen : forall s,
    Z.of_nat (length (recent_errors s)) = Z.min 200 (total_errors_analyzed (error_stats s)) ->
    Z.of_nat (length (recent_errors (fold_left step calls s)))
    = Z.min 200 (total_errors_analyzed (error_stats (fold_left step calls s)))).
  { induction calls as [|c calls IH]; intros s Hs; simpl; [exact Hs|].
    apply IH. destruct c as [sim|]; simpl.
    - unfold analyze_failed_prediction.
      destruct (default false (success sim)); simpl; [exact Hs|].
      destruct (technical_analysis sim) as [ta|]; simpl; [|exact Hs].
      destruct (apply_corrections_keeps
        {| correction_weights := correction_weights s;
           recent_errors := deque_append 200 (recent_errors s)
             (Build_ErrorAnalysis (sim_id sim) (matched_patterns ta (trend sim)));
           error_stats :=
             {| total_errors_analyzed := (total_errors_analyzed (error_stats s) + 1)%Z;
                patterns_identified := patterns_identified (error_stats s);
                corrections_applied := corrections_applied (error_stats s);
                improvement_cycles := improvement_cycles (error_stats s) |} |}
        (Build_ErrorAnalysis (sim_id sim) (matched_patterns ta (trend sim))))
        as [-> ->].
      simpl. rewrite deque_append_length. lia.
    - destruct (optimize_keeps s) as [-> ->]. exact Hs. }
  apply Hgen. reflexivity.
Qed.

Local Abbreviation learnable :=
  ["rsi_overbought"; "rsi_oversold"; "macd_false_signal"; "ema_crossover_fail";
   "bollinger_breakout_fail"; "volume_anomaly"; "support_resistance_break"]%string.

Lemma matched_patterns_learnable ta direction k :
  k ∈ matched_patterns ta direction -> k ∈ learnable.
Proof.
  unfold matched_patterns, rsi_pattern, macd_pattern, ema_pattern, bollinger_pattern,
    volume_pattern, sr_pattern.
  repeat (match goal with |- context [ if ?b then _ else _ ] => destruct b end);
    simpl; intros Hk;
    repeat (apply elem_of_cons in Hk as [->|Hk];
            [repeat (apply list_elem_of_here || apply list_elem_of_further)|]);
    inversion Hk.
Qed.

Lemma count_errors_keys errors x :
  x ∈ (count_errors errors).*1 ->
  exists ea, ea ∈ errors /\ x ∈ identified_errors ea.
Proof.
  unfold count_errors.
  assert (Hgen : forall counts,
    x ∈ (fold_left (fun counts ea =>
           fold_left (fun counts k => bump k counts) (identified_errors ea) counts)
         errors counts).*1 ->
    x ∈ counts.*1 \/ exists ea, ea ∈ errors /\ x ∈ identified_errors ea).
  { induction errors as [|ea errors IH]; intros counts Hx; simpl in *; [left; exact Hx|].
    apply IH in Hx as [Hx|(ea' & Hin & Hk)].
    - assert (Hinner : forall ks counts,
        x ∈ (fold_left (fun counts k => bump k counts) ks counts).*1 ->
        x ∈ counts.*1 \/ x ∈ ks).
      { clear. induction ks as [|k ks IHk]; intros counts Hx; simpl in *; [left; exact Hx|].
        apply IHk in Hx as [Hx|Hx].
        - apply bump_keys in Hx as [->|Hx]; [right; apply list_elem_of_here | left; exact Hx].
        - right. apply list_elem_of_further. exact Hx. }
      apply Hinner in Hx as [Hx|Hx]; [left; exact Hx | right].
      exists ea. split; [apply list_elem_of_here | exact Hx].
    - right. exists ea'. split; [apply list_elem_of_further; exact Hin | exact Hk]. }
  intros Hx. apply Hgen in Hx as [Hx|Hx]; [inversion Hx | exact Hx].
Qed.

Lemma most_common_errors_source s k c :
  (k, c) ∈ most_common_errors s ->
  exists ea, ea ∈ recent_errors s /\ k ∈ identified_errors ea.
Proof.
  unfold most_common_errors. intros Hin.
  assert (Hk : k ∈ (count_errors (last_n 50 (recent_errors s))).*1).
  { rewrite <- (sorted_desc_perm (count_errors (last_n 50 (recent_errors s)))).
    apply list_elem_of_fmap. exists (k, c). split; [reflexivity|].
    eapply elem_of_sublist; [exact Hin | apply sublist_take]. }
  apply count_errors_keys in Hk as (ea & Hea & Hk).
  exists ea. split; [eapply last_n_elem; exact Hea | exact Hk].
Qed.

Lemma apply_correction_dom st error_type k :
  is_Some ((apply_correction st error_type).1 !! k) -> k = error_type \/ is_Some (st.1 !! k).
Proof.
  unfold apply_correction. destruct (correction_factors !! error_type); [|auto].
  simpl. destruct (decide (error_type = k)) as [->|Hne]; [auto|].
  rewrite lookup_insert_ne by exact Hne. auto.
Qed.

Lemma fold_apply_correction_dom errors st k :
  is_Some ((fold_left apply_correction errors st).1 !! k) -> k ∈ errors \/ is_Some (st.1 !! k).
Proof.
  revert st. induction errors as [|e errors IH]; intros st Hk; simpl in *; [auto|].
  apply IH in Hk as [Hk|Hk].
  - left. apply list_elem_of_further. exact Hk.
  - apply apply_correction_dom in Hk as [->|Hk]; [left; apply list_elem_of_here | auto].
Qed.

Lemma fold_optimize_step_dom items st k :
  is_Some ((fold_left optimize_step items st).1 !! k) -> k ∈ items.*1 \/ is_Some (st.1 !! k).
Proof.
  revert st. induction items as [|[e c] items IH]; intros st Hk; simpl in *; [auto|].
  apply IH in Hk as [Hk|Hk].
  - left. apply list_elem_of_further. exact Hk.
  - unfold optimize_step in Hk. destruct (c >? 5)%Z; [|auto].
    simpl in Hk. destruct (decide (e = k)) as [->|Hne]; [left; apply list_elem_of_here|].
    rewrite lookup_insert_ne in Hk by exact Hne. auto.
Qed.

Lemma apply_corrections_dom s ea k :
  is_Some (correction_weights (apply_corrections s ea) !! k) ->
  k ∈ identified_errors ea \/ is_Some (correction_weights s !! k).
Proof.
  unfold apply_corrections.
  pose proof (fold_apply_correction_dom (identified_errors ea) (correction_weights s, 0%Z) k) as Hd.
  destruct (fold_left _ _ _) as [weights applied]. exact Hd.
Qed.

Lemma optimize_dom s k :
  is_Some (correction_weights (optimize_for_90_percent s).1 !! k) ->
  k ∈ (most_common_errors s).*1 \/ is_Some (correction_weights s !! k).
Proof.
  unfold optimize_for_90_percent.
  pose proof (fold_optimize_step_dom (most_common_errors s) (correction_weights s, []) k) as Hd.
  destruct (fold_left _ _ _) as [weights actions]. exact Hd.
Qed.

Lemma run_learnable calls :
  let s := run calls in
  (forall ea k, ea ∈ recent_errors s -> k ∈ identified_errors ea -> k ∈ learnable) /\
  (forall k, is_Some (correction_weights s !! k) -> k ∈ learnable).
Proof.
  unfold run.
  assert (Hgen : forall s,
    ((forall ea k, ea ∈ recent_errors s -> k ∈ identified_errors ea -> k ∈ learnable) /\
     (forall k, is_Some (correction_weights s !! k) -> k ∈ learnable)) ->
    (forall ea k, ea ∈ recent_errors (fold_left step calls s) ->
                  k ∈ identified_errors ea -> k ∈ learnable) /\
    (forall k, is_Some (correction_weights (fold_left step calls s) !! k) -> k ∈ learnable)).
  { induction calls as [|c calls IH]; intros s Hs; simpl; [exact Hs|].
    apply IH. destruct Hs as [Hrec Hdom]. destruct c as [sim|]; simpl.
    - unfold analyze_failed_prediction.
      destruct (default false (success sim)); simpl; [auto|].
      destruct (technical_analysis sim) as [ta|]; simpl; [|auto].
      set (ea0 := Build_ErrorAnalysis (sim_id sim) (matched_patterns ta (trend sim))).
      set (s1 := Build_ErrorLearningSystem _ _ _).
      split.
      + intros ea k Hea Hk.
        destruct (apply_corrections_keeps s1 ea0) as [Hr _]. rewrite Hr in Hea.
        subst s1. simpl in Hea. apply last_n_elem in Hea.
        apply elem_of_app in Hea as [Hea|Hea]; [eauto|].
        apply list_elem_of_singleton in Hea as ->.
        eapply matched_patterns_learnable. exact Hk.
      + intros k Hk. apply apply_corrections_dom in Hk as [Hin|Hin].
        * eapply matched_patterns_learnable. exact Hin.
        * apply Hdom. exact Hin.
    - split.
      + intros ea k Hea Hk. destruct (optimize_keeps s) as [Hr _]. rewrite Hr in Hea. eauto.
      + intros k Hk. apply optimize_dom in Hk as [Hin|Hin]; [|auto].
        apply list_elem_of_fmap in Hin as ([k' c] & -> & Hin).
        apply most_common_errors_source in Hin as (ea & Hea & Hk').
        eapply Hrec; eauto. }
  apply Hgen. split.
  - intros ea k Hea. inversion Hea.
  - intros k [w Hw]. simpl in Hw. rewrite lookup_empty in Hw. discriminate.
Qed.

(** X8: whatever is observed, only the seven categories of the pattern checks
    ever receive a correction weight; [pattern_recognition_fail], which has a
    correction factor of 0.12, is never learned. *)
Theorem only_checked_categories_learned (calls : list Call) :
  dom (correction_weights (run calls)) ⊆ list_to_set learnable /\
  correction_weights (run calls) !! "pattern_recognition_fail"%string = None /\
  correction_factors !! "pattern_recognition_fail"%string = Some 0.12.
Proof.
  destruct (run_learnable calls) as [_ Hdom].
  split; [|split; [|reflexivity]].
  - intros k Hk. apply elem_of_dom in Hk. apply elem_of_list_to_set. auto.
  - destruct (correction_weights (run calls) !! "pattern_recognition_fail"%string)
      as [w|] eqn:Hw; [|reflexivity].
    exfalso. assert (Hin : "pattern_recognition_fail"%string ∈ learnable) by (apply Hdom; eauto).
    vm_compute in Hin. repeat (apply elem_of_cons in Hin as [Hin|Hin]; [discriminate|]).
    inversion Hin.
Qed.

Lemma fold_optimize_step_unselected items st k :
  (forall c, (k, c) ∈ items -> (c <= 5)%Z) ->
  (fold_left optimize_step items st).1 !! k = st.1 !! k.
Proof.
  revert st. induction items as [|[e c] items IH]; intros st Hsel; simpl; [reflexivity|].
  rewrite IH by (intros c' Hin; apply Hsel, list_elem_of_further, Hin).
  unfold optimize_step. destruct (c >? 5)%Z eqn:Hc; [|reflexivity].
  simpl. apply lookup_insert_ne. intros ->.
  specialize (Hsel c (list_elem_of_here _ _)). lia.
Qed.

(** X9: an optimize cycle looks at no more than five categories and changes
    only the weights of those among them seen more than five times in the
    last 50 failures; every other weight and the window of recent errors are
    left as they were. *)
Theorem optimize_touches_only_frequent (s : ErrorLearningSystem) (k : string) :
  (forall c, (k, c) ∈ most_common_errors s -> (c <= 5)%Z) ->
  correction_weights (optimize_for_90_percent s).1 !! k = correction_weights s !! k /\
  recent_errors (optimize_for_90_percent s).1 = recent_errors s /\
  (length (most_common_errors s) <= 5)%nat.
Proof.
  intros Hsel. split; [|split].
  - unfold optimize_for_90_percent.
    pose proof (fold_optimize_step_unselected (most_common_errors s)
                  (correction_weights s, []) k Hsel) as H.
    destruct (fold_left _ _ _) as [weights actions]. exact H.
  - apply optimize_keeps.
  - unfold most_common_errors. rewrite length_take. lia.
Qed.

Lemma loop_recent_errors n s :
  recent_errors (continuous_learning_loop n s) = recent_errors s.
Proof.
  induction n as [|n IH]; simpl; [reflexivity|].
  destruct (optimize_keeps (continuous_learning_loop n s)) as [-> _]. exact IH.
Qed.

Lemma loop_most_common n s :
  most_common_errors (continuous_learning_loop n s) = most_common_errors s.
Proof. unfold most_common_errors. rewrite loop_recent_errors. reflexivity. Qed.

Lemma loop_weights_ok n s :
  weights_ok (correction_weights s) ->
  weights_ok (correction_weights (continuous_learning_loop n s)).
Proof.
  intros Hok. induction n as [|n IH]; simpl; [exact Hok|]. apply optimize_ok, IH.
Qed.

Lemma loop_selected_weight n s k c :
  weights_ok (correction_weights s) ->
  (k, c) ∈ most_common_errors s -> (5 < c)%Z ->
  let w := default 0 (correction_weights (continuous_learning_loop n s) !! k) in
  Qmin (0.1 * inject_Z (Z.of_nat n)) 0.5 <= w /\ (n = 0%nat \/ w <= 0.5).
Proof.
  intros Hok Hin Hc. induction n as [|n IH]; simpl.
  - split; [|left; reflexivity].
    pose proof (weight_nonneg _ k Hok).
    eapply Qle_trans; [apply Q.le_min_l|].
    change (inject_Z (Z.of_nat 0)) with 0. lra.
  - destruct IH as [IH _].
    rewrite (optimize_selected_weight (continuous_learning_loop n s) k c)
      by (rewrite ?loop_most_common; assumption).
    cbn [from_option id].
    set (w := default 0 (correction_weights (continuous_learning_loop n s) !! k)) in *.
    split; [|right; apply Q.le_min_r].
    assert (Hn : inject_Z (Z.of_nat (S n)) == inject_Z (Z.of_nat n) + 1).
    { rewrite Nat2Z.inj_succ. unfold Z.succ. rewrite inject_Z_plus. reflexivity. }
    apply Q.min_glb; [|apply Q.le_min_r].
    destruct (Q.min_spec (0.1 * inject_Z (Z.of_nat n)) 0.5) as [[Hlt Hm]|[Hge Hm]];
      rewrite Hm in IH.
    + eapply Qle_trans; [apply Q.le_min_l|]. rewrite Hn. lra.
    + eapply Qle_trans; [apply Q.le_min_r|]. lra.
Qed.

(** X10: without new failures, five optimize cycles in a row bring the weight
    of every selected category to exactly 0.5, where further cycles keep it:
    the loop settles and no longer changes what it stores. *)
Theorem optimize_cycles_settle (calls : list Call) (k : string) (c : Z) (n : nat) :
  (k, c) ∈ most_common_errors (run calls) -> (5 < c)%Z -> (5 <= n)%nat ->
  default 0 (correction_weights (continuous_learning_loop n (run calls)) !! k) == 0.5.
Proof.
  intros Hin Hc Hn.
  destruct (loop_selected_weight n (run calls) k c (run_ok calls) Hin Hc) as [Hlo Hhi].
  destruct Hhi as [->|Hhi]; [lia|].
  apply Qle_antisym; [exact Hhi|].
  eapply Qle_trans; [|exact Hlo].
  apply Q.min_glb; [|lra].
  assert (5 <= inject_Z (Z.of_nat n)).
  { change 5 with (inject_Z 5). rewrite <- Zle_Qle. lia. }
  lra.
Qed.

Lemma apply_correction_grows st error_type k :
  weights_ok st.1 ->
  default 0 (st.1 !! k) <= default 0 ((apply_correction st error_type).1 !! k).
Proof.
  intros Hok. unfold apply_correction.
  destruct (correction_factors !! error_type) as [f|] eqn:Hf; [|lra].
  simpl. destruct (decide (error_type = k)) as [->|Hne].
  - rewrite lookup_insert_eq. cbn [from_option id].
    pose proof (correction_factors_nonneg _ _ Hf).
    pose proof (weight_nonneg _ k Hok).
    apply Q.min_glb; lra.
  - rewrite lookup_insert_ne by exact Hne. lra.
Qed.

Lemma fold_apply_correction_grows errors st k :
  weights_ok st.1 ->
  default 0 (st.1 !! k) <= default 0 ((fold_left apply_correction errors st).1 !! k).
Proof.
  revert st. induction errors as [|e errors IH]; intros st Hok; simpl; [lra|].
  eapply Qle_trans; [apply (apply_correction_grows st e k Hok)|].
  apply IH. apply apply_correction_ok, Hok.
Qed.

Lemma analyze_failed_prediction_grows s sim k :
  weights_ok (correction_weights s) ->
  default 0 (correction_weights s !! k)
  <= default 0 (correction_weights (analyze_failed_prediction s sim).1 !! k).
Proof.
  intros Hok. unfold analyze_failed_prediction.
  destruct (default false (success sim)); simpl; [lra|].
  destruct (technical_analysis sim) as [ta|]; simpl; [|lra].
  unfold apply_corrections. simpl.
  match goal with |- context [fold_left apply_correction ?es ?st0] =>
    pose proof (fold_apply_correction_grows es st0 k Hok) as H;
    destruct (fold_left apply_correction es st0) as [weights applied]
  end.
  exact H.
Qed.

Lemma total_correction_mono (w1 w2 : gmap string Q) ks t1 t2 :
  (forall k, default 0 (w1 !! k) <= default 0 (w2 !! k)) -> t2 <= t1 ->
  fold_left (fun total k => total - default 0 (w2 !! k)) ks t2
  <= fold_left (fun total k => total - default 0 (w1 !! k)) ks t1.
Proof.
  intros Hle. revert t1 t2. induction ks as [|k ks IH]; intros t1 t2 Ht; simpl; [exact Ht|].
  apply IH. specialize (Hle k). lra.
Qed.

(** X11: an observed failure never relaxes a correction: for every snapshot
    and direction the correction factor after the analysis of one more failed
    simulation is at most what it was before. *)
Theorem failures_never_relax (calls : list Call) (sim : Simulation) (ta : Analysis)
    (direction : string) :
  get_correction_factor (run (calls ++ [ObserveFailure sim])) ta direction
  <= get_correction_factor (run calls) ta direction.
Proof.
  unfold run. rewrite fold_left_app. simpl. fold (run calls).
  unfold get_correction_factor.
  apply Q.max_le_compat_r.
  apply total_correction_mono; [|lra].
  intros k. apply analyze_failed_prediction_grows, run_ok.
Qed.

End LearnerFacts.

(** ** Predictor: training data, reached states, feedback *)

Section PredictorFacts.
Import TechnicalAnalyzer Docs EnhancedML.
Context `{Numpy} `{Sklearn}.

(** X12: [collect_training_data] gives nothing below ten closed simulations
    with an analysis; from ten on it gives one row of exactly 20 features and
    one label, 0 or 1, per simulation, for the first 500 of them. *)
Theorem training_data_shape (sims : list Simulation) (now : Clock) :
  let eligible := filter (fun sim => closed sim = true /\ is_Some (technical_analysis sim)) sims in
  ((length eligible < 10)%nat -> collect_training_data sims now = None) /\
  ((10 <= length eligible)%nat ->
   exists X y,
     collect_training_data sims now = Some (X, y) /\
     length X = Nat.min 500 (length eligible) /\ length y = length X /\
     Forall (fun row => length row = 20%nat) X /\
     Forall (fun label => label = 0%Z \/ label = 1%Z) y).
Proof.
  intros eligible. unfold collect_training_data. fold eligible.
  split; intros Hlen.
  - replace (length (take 500 eligible) <? 10)%nat with true; [reflexivity|].
    symmetry. apply Nat.ltb_lt. rewrite length_take. lia.
  - replace (length (take 500 eligible) <? 10)%nat with false.
    2:{ symmetry. apply Nat.ltb_ge. rewrite length_take. lia. }
    eexists _, _. split; [reflexivity|].
    rewrite !length_fmap, length_take. repeat split.
    + apply Forall_fmap, Forall_forall. intros sim _. apply extract_features_length.
    + apply Forall_fmap, Forall_forall. intros sim _. simpl.
      destruct (default false (success sim)); auto.
Qed.

Lemma init_consistent : consistent init.
Proof.
  constructor; simpl; try lia; try lra; try discriminate; auto.
Qed.

Lemma refit_nil name model ms : ms = [] -> refit name model ms = [].
Proof. intros ->. reflexivity. Qed.

Lemma assoc_refit_is_Some k name model ms :
  is_Some (assoc k ms) -> is_Some (assoc k (refit name model ms)).
Proof.
  induction ms as [|[k' v] ms IH]; simpl; [auto|].
  destruct (decide (k = k')); [intros _; eexists; reflexivity | exact IH].
Qed.

Lemma train_models_consistent s X y :
  consistent s -> consistent (train_models s X y).1.
Proof.
  intros [Hh Hq Hc Ha Hr Hu Ht]. unfold train_models.
  destruct (fit_models X y) as [scaler rf0 gb0|scaler rf gb ens]; constructor;
    cbn [fst models scaler_primary is_trained feature_names prediction_history
         learning_queue prediction_stats total_predictions correct_predictions
         labeled_predictions recent_accuracy model_updates]; auto; try discriminate.
  - intros Htr. destruct (Hu Htr) as (Hm & Hrest). split; [|exact Hrest].
    apply refit_nil, refit_nil, Hm.
  - intros Htr. destruct (Ht Htr) as (He & Hs & Hn). repeat split; auto.
    + apply assoc_refit_is_Some, assoc_refit_is_Some, He.
    + destruct scaler; [eexists; reflexivity | exact Hs].
Qed.

Lemma clear_learning_queue_consistent s :
  consistent s -> is_trained s = true -> consistent (clear_learning_queue s).
Proof.
  intros [Hh Hq Hc Ha Hr Hu Ht] Htr. constructor; simpl; auto; try lia.
  intros Hf. congruence.
Qed.

Lemma train_models_true s X y :
  (train_models s X y).2 = true -> is_trained (train_models s X y).1 = true.
Proof. unfold train_models. destruct (fit_models X y); simpl; auto. discriminate. Qed.

Lemma incremental_retrain_consistent s sims now :
  consistent s -> consistent (incremental_retrain s sims now).
Proof.
  intros Hs. unfold incremental_retrain.
  destruct (collect_training_data sims now) as [[X y]|]; [|exact Hs].
  destruct (50 <? length X)%nat; [|exact Hs].
  pose proof (train_models_consistent s X y Hs) as Hc.
  pose proof (train_models_true s X y) as Htrue.
  destruct (train_models s X y) as [s' ok]. simpl in *.
  destruct ok; [|exact Hc]. apply clear_learning_queue_consistent; auto.
Qed.

Lemma auto_retrain_consistent s sims now :
  consistent s -> consistent (auto_retrain s sims now).1.
Proof.
  intros Hs. unfold auto_retrain.
  destruct (collect_training_data sims now) as [[X y]|]; [|exact Hs].
  destruct (20 <? length X)%nat; [|exact Hs].
  pose proof (train_models_consistent s X y Hs) as Hc.
  destruct (train_models s X y) as [s' ok]. exact Hc.
Qed.

Lemma advanced_prediction_consistent s ta now coin :
  consistent s -> consistent (advanced_prediction s ta now coin).1.
Proof.
  intros Hs. unfold advanced_prediction.
  destruct (negb (is_trained s) || bool_decide (models s = [])) eqn:Hguard; [exact Hs|].
  destruct (ensemble_prediction s ta now) as [p|]; [|exact Hs].
  apply orb_false_iff in Hguard as [Htr _]. apply negb_false_iff in Htr.
  destruct Hs as [Hh Hq Hc Ha Hr Hu Ht]. constructor; simpl; auto.
  - rewrite deque_append_length. lia.
  - intros Hf. congruence.
Qed.

Lemma ratio_bounds (c l : Z) :
  (0 <= c <= l)%Z -> (0 < l)%Z -> 0 <= inject_Z c / inject_Z l <= 1.
Proof.
  intros Hc Hl.
  assert (Hlab : 0 < inject_Z l) by (change 0 with (inject_Z 0); rewrite <- Zlt_Qlt; exact Hl).
  split.
  - apply Qle_shift_div_l; [exact Hlab|]. rewrite Qmult_0_l.
    change 0 with (inject_Z 0). rewrite <- Zle_Qle. lia.
  - apply Qle_shift_div_r; [exact Hlab|]. rewrite Qmult_1_l.
    rewrite <- Zle_Qle. lia.
Qed.

Lemma record_label_consistent s entry actual_result now :
  consistent s -> is_trained s = true -> consistent (record_label s entry actual_result now).
Proof.
  intros [Hh Hq Hc Ha Hr Hu Ht] Htr. unfold record_label.
  assert (Hpos : (labeled_predictions (prediction_stats s) + 1 >? 0)%Z = true) by lia.
  match goal with
  | |- context [if ?b then (correct_predictions _ + 1)%Z else _] => destruct b
  end;
    (constructor; simpl; auto;
     [ rewrite deque_append_length; lia
     | lia
     | rewrite Hpos; apply ratio_bounds; lia
     | intros _; rewrite Hpos; reflexivity
     | intros Hf; congruence ]).
Qed.

Lemma learn_from_result_consistent s simulation_id actual_result sims now :
  consistent s -> consistent (learn_from_result s simulation_id actual_result sims now).
Proof.
  intros Hs. unfold learn_from_result.
  destruct (head (reverse (prediction_history s))) as [entry|] eqn:Hhead; [|exact Hs].
  assert (Htr : is_trained s = true).
  { destruct (is_trained s) eqn:E; [reflexivity|].
    destruct (untrained_blank s Hs E) as (_ & Hhist & _).
    rewrite Hhist in Hhead. discriminate. }
  pose proof (record_label_consistent s entry actual_result now Hs Htr) as H1.
  destruct (50 <=? _)%nat; [apply incremental_retrain_consistent|]; exact H1.
Qed.

Lemma step_consistent s op : consistent s -> consistent (step s op).
Proof.
  destruct op; simpl.
  - apply advanced_prediction_consistent.
  - apply learn_from_result_consistent.
  - apply auto_retrain_consistent.
Qed.

Lemma run_consistent sims start ops : consistent (run sims start ops).
Proof.
  unfold run.
  assert (Hinit : consistent (initialize_enhanced_ml_system sims start)).
  { unfold initialize_enhanced_ml_system.
    destruct (collect_training_data sims start) as [[X y]|]; [|apply init_consistent].
    destruct (10 <=? length X)%nat; [|apply init_consistent].
    apply train_models_consistent, init_consistent. }
  revert Hinit. generalize (initialize_enhanced_ml_system sims start).
  induction ops as [|op ops IH]; intros s Hs; simpl; [exact Hs|].
  apply IH, step_consistent, Hs.
Qed.

(** X13: in every state reached from the initialisation by predictions,
    feedback and retraining, the prediction history holds at most 1000
    entries and the learning queue at most 500, the number of correct
    predictions lies between 0 and the number of labelled ones, and the
    reported accuracy is their ratio, between 0 and 1 (0 before the first
    label). *)
Theorem reached_stats_consistent (sims : list Simulation) (start : Clock) (ops : list Op) :
  let s := run sims start ops in
  let stats := prediction_stats s in
  (length (prediction_history s) <= 1000)%nat /\
  (length (learning_queue s) <= 500)%nat /\
  (0 <= correct_predictions stats <= labeled_predictions stats)%Z /\
  0 <= recent_accuracy stats <= 1 /\
  (labeled_predictions stats = 0%Z \/
   recent_accuracy stats
   == inject_Z (correct_predictions stats) / inject_Z (labeled_predictions stats)).
Proof.
  intros s stats. destruct (run_consistent sims start ops) as [Hh Hq Hc Ha Hr Hu Ht].
  fold s in Hh, Hq, Hc, Ha, Hr. fold stats in Hc, Ha, Hr.
  repeat split; try assumption; try lia; try apply Ha.
  destruct (Z.eq_dec (labeled_predictions stats) 0%Z) as [Hz|Hz]; [left; exact Hz|].
  right. apply Hr. lia.
Qed.

(** X14: as long as no training has succeeded, nothing is remembered and
    nothing is learned: the fallback predictions are neither counted nor kept
    in the history, and a reported outcome leaves the predictor exactly as it
    was. *)
Theorem untrained_discards_feedback (sims : list Simulation) (start : Clock)
    (ops : list Op) (simulation_id : string) (actual_result : bool)
    (later_sims : list Simulation) (now : Clock) :
  is_trained (run sims start ops) = false ->
  let s := run sims start ops in
  prediction_history s = [] /\
  total_predictions (prediction_stats s) = 0%Z /\
  labeled_predictions (prediction_stats s) = 0%Z /\
  learn_from_result s simulation_id actual_result later_sims now = s.
Proof.
  intros Hun s.
  destruct (untrained_blank _ (run_consistent sims start ops) Hun) as (_ & Hh & _ & Hl & Ht).
  fold s in Hh, Hl, Ht. repeat split; try assumption.
  unfold learn_from_result. rewrite Hh. reflexivity.
Qed.

Lemma step_keeps_trained s op : is_trained s = true -> is_trained (step s op) = true.
Proof.
  intros Htr. destruct op as [ta now coin|id r sims now|sims now]; simpl.
  - rewrite advanced_prediction_is_trained. exact Htr.
  - unfold learn_from_result. destruct (head _); [|exact Htr].
    assert (Hrec : forall e, is_trained (record_label s e r now) = true) by (intros; exact Htr).
    destruct (50 <=? _)%nat; [|apply Hrec].
    unfold incremental_retrain.
    destruct (collect_training_data sims now) as [[X y]|]; [|apply Hrec].
    destruct (50 <? length X)%nat; [|apply Hrec].
    unfold train_models. destruct (fit_models X y); simpl; auto.
  - unfold auto_retrain.
    destruct (collect_training_data sims now) as [[X y]|]; [|exact Htr].
    destruct (20 <? length X)%nat; [|exact Htr].
    unfold train_models. destruct (fit_models X y); simpl; auto.
Qed.

(** X15: training is never undone: once a training has succeeded the
    predictor stays trained through every later prediction, feedback and
    retraining, failed ones included, and it keeps an ensemble model, a scaler
    and its 20 feature names. *)
Theorem trained_is_permanent (sims : list Simulation) (start : Clock)
    (ops later : list Op) :
  is_trained (run sims start ops) = true ->
  let s := run sims start (ops ++ later) in
  is_trained s = true /\
  is_Some (assoc "ensemble" (models s)) /\
  is_Some (scaler_primary s) /\
  length (feature_names s) = 20%nat.
Proof.
  intros Htr s.
  assert (Hs : is_trained s = true).
  { subst s. unfold run in *. rewrite fold_left_app.
    revert Htr. generalize (fold_left step ops (initialize_enhanced_ml_system sims start)).
    induction later as [|op later IH]; intros s0 Hs0; simpl; [exact Hs0|].
    apply IH, step_keeps_trained, Hs0. }
  split; [exact Hs|].
  apply (trained_complete _ (run_consistent sims start (ops ++ later)) Hs).
Qed.

(** X16: the features never depend on the clock: the 22 values computed by
    [extract_features] end with the hour and the weekday, and the cut to 20
    always removes exactly these two, so the vector is the 20 indicator
    features of the analysis, whatever the time. *)
Theorem features_ignore_clock (ta : option Analysis) (now later : Clock) :
  extract_features ta now = extract_features ta later /\
  (forall an, length (raw_features an now) = 22%nat /\
              extract_features (Some an) now = take 20 (raw_features an now) /\
              drop 20 (raw_features an now)
              = [inject_Z (hour now) / 24; inject_Z (weekday now) / 7]).
Proof.
  split.
  - destruct ta; reflexivity.
  - intros an. repeat split; reflexivity.
Qed.

(** X17: the heuristic prediction is consistent with its probabilities: the
    direction is UP exactly when the up probability is the larger one, and
    the probability of the predicted direction is 0.5 plus half the
    confidence, between 0.75 and 0.9; only the random fallback of the error
    branch gives 0.5 to both. *)
Theorem basic_prediction_direction (ta : option Analysis) (coin : bool) :
  let p := basic_prediction ta coin in
  (ta = None /\ prob_up p == 0.5 /\ prob_down p == 0.5) \/
  ((prediction p = "UP"%string <-> prob_down p < prob_up p) /\
   Qmax (prob_up p) (prob_down p) == 0.5 + pred_confidence p * 0.5 /\
   0.75 <= Qmax (prob_up p) (prob_down p) <= 0.9).
Proof.
  destruct ta as [an|]; [right | left; repeat split; reflexivity].
  simpl.
  set (strength := default 0%Z (strength (default no_signals (signals an)))).
  set (c := Qmax (Qmin (inject_Z (Z.abs strength) / 100) 0.8) 0.5).
  assert (Hc : 0.5 <= c <= 0.8) by (apply Qmax_bounds; [apply Q.le_min_r | lra]).
  destruct (strength >? 0)%Z.
  - split; [split; [intros _; lra | reflexivity]|].
    assert (Hm : Qmax (0.5 + c * 0.5) (1 - (0.5 + c * 0.5)) == 0.5 + c * 0.5)
      by (apply Q.max_l; lra).
    rewrite Hm. split; [reflexivity | lra].
  - split; [split; [discriminate | intros Hlt; exfalso; lra]|].
    assert (Hm : Qmax (1 - (0.5 + c * 0.5)) (0.5 + c * 0.5) == 0.5 + c * 0.5)
      by (apply Q.max_r; lra).
    rewrite Hm. split; [reflexivity | lra].
Qed.

(** X18: the reported progress towards 90 percent lies between 0 and 100 for
    every accuracy; it is 0 exactly when the accuracy is not positive and 100
    exactly when the accuracy has reached 0.9. *)
Theorem progress_bounds (s : EnhancedMLSystem) :
  let accuracy := recent_accuracy (prediction_stats s) in
  0 <= progress_to_90 s <= 100 /\
  (progress_to_90 s == 0 <-> accuracy <= 0) /\
  (progress_to_90 s == 100 <-> 0.9 <= accuracy).
Proof.
  intros accuracy. unfold progress_to_90. fold accuracy.
  destruct (Qgtb accuracy 0) eqn:Hpos.
  - apply Qgtb_gt in Hpos.
    assert (Hq : accuracy / 0.9 * 100 == accuracy * (1000 # 9)) by (field).
    destruct (Q.min_spec (accuracy / 0.9 * 100) 100) as [[Hlt Hm]|[Hge Hm]];
      rewrite Hm; rewrite Hq in *; repeat split; intros; try lra.
  - apply Qltb_ge in Hpos. repeat split; intros; try lra.
Qed.

(** X19: a prediction made by the ensemble is counted, becomes the latest
    entry of the history, and is therefore the one that the next reported
    outcome is scored against, whatever simulation that outcome belongs to:
    the outcome counts as correct when the prediction was UP and the
    simulation succeeded or the prediction was DOWN and it failed. *)
Theorem ensemble_prediction_is_next_scored (s : EnhancedMLSystem) (ta : option Analysis)
    (now : Clock) (coin : bool) (p : Prediction)
    (simulation_id : string) (actual_result : bool) (sims : list Simulation)
    (later : Clock) :
  is_trained s = true -> models s <> [] ->
  ensemble_prediction s ta now = Some p ->
  let s' := (advanced_prediction s ta now coin).1 in
  let scored := learn_from_result s' simulation_id actual_result sims later in
  (advanced_prediction s ta now coin).2 = p /\
  total_predictions (prediction_stats s') = (total_predictions (prediction_stats s) + 1)%Z /\
  last (prediction_history s') = Some (Build_HistoryEntry p ta) /\
  labeled_predictions (prediction_stats scored)
  = (labeled_predictions (prediction_stats s) + 1)%Z /\
  correct_predictions (prediction_stats scored)
  = (correct_predictions (prediction_stats s)
     + if (bool_decide (prediction p = "UP"%string) && actual_result)
          || (bool_decide (prediction p = "DOWN"%string) && negb actual_result)
       then 1 else 0)%Z.
Proof.
  intros Htr Hmodels Hens s' scored. subst scored s'.
  unfold advanced_prediction. rewrite Htr, Hens.
  replace (bool_decide (models s = [])) with false
    by (symmetry; apply bool_decide_eq_false; exact Hmodels).
  simpl negb. simpl orb. cbv iota. cbn [fst snd].
  split; [reflexivity|]. split; [reflexivity|].
  split; [apply deque_append_last; lia|].
  unfold learn_from_result. cbn [prediction_history].
  rewrite head_reverse, deque_append_last by lia.
  match goal with
  | |- context [record_label ?s0 ?e ?r ?t] => set (s1 := record_label s0 e r t)
  end.
  assert (Hl : labeled_predictions (prediction_stats s1)
               = (labeled_predictions (prediction_stats s) + 1)%Z) by reflexivity.
  assert (Hc : correct_predictions (prediction_stats s1)
               = (correct_predictions (prediction_stats s)
                  + if (bool_decide (prediction p = "UP"%string) && actual_result)
                       || (bool_decide (prediction p = "DOWN"%string) && negb actual_result)
                    then 1 else 0)%Z).
  { subst s1. simpl. destruct (_ || _); lia. }
  destruct (50 <=? _)%nat; [|split; assumption].
  destruct (incremental_retrain_keeps s1 sims later) as (Hl' & Hc' & _).
  rewrite Hl', Hc'. split; assumption.
Qed.

End PredictorFacts.

(** ** The weighted ensemble of ai_learning_system.py *)

Section WeightedEnsemble.
Import TechnicalAnalyzer Docs MLTrading.

Lemma total_of_acc (ws : list (string * Q)) (a : Q) :
  fold_left (fun total w => total + w.2) ws a == a + total_of ws.
Proof.
  unfold total_of. revert a. induction ws as [|w ws IH]; intros a; simpl.
  - ring.
  - rewrite IH, (IH (0 + w.2)). ring.
Qed.

Lemma total_of_cons w ws : total_of (w :: ws) == w.2 + total_of ws.
Proof. unfold total_of at 1. simpl. rewrite total_of_acc. ring. Qed.

Lemma total_of_scaled (ws : list (string * Q)) (c : Q) :
  ~ c == 0 ->
  total_of ((fun w => (w.1, w.2 / c)) <$> ws) == total_of ws / c.
Proof.
  intros Hc. induction ws as [|w ws IH].
  - unfold total_of. simpl. field. exact Hc.
  - rewrite fmap_cons, !total_of_cons, IH. simpl. field. exact Hc.
Qed.

Lemma total_of_constant (ws : list (string * Q)) (c : Q) :
  total_of ((fun w => (w.1, c)) <$> ws) == inject_Z (Z.of_nat (length ws)) * c.
Proof.
  induction ws as [|w ws IH].
  - unfold total_of. simpl. ring.
  - rewrite fmap_cons, total_of_cons, IH. simpl length.
    rewrite Nat2Z.inj_succ. unfold Z.succ. rewrite inject_Z_plus. simpl. ring.
Qed.

Lemma total_of_nonneg (ws : list (string * Q)) :
  Forall (fun w => 0 <= w.2) ws -> 0 <= total_of ws.
Proof.
  induction 1 as [|w ws Hw _ IH].
  - unfold total_of. simpl. lra.
  - rewrite total_of_cons. lra.
Qed.

Lemma square_nonneg (a : Q) : 0 <= a * a.
Proof.
  destruct (Qlt_le_dec a 0) as [Hneg|Hpos].
  - assert (Heq : a * a == (- a) * (- a)) by ring.
    rewrite Heq. apply Qmult_le_0_compat; lra.
  - apply Qmult_le_0_compat; assumption.
Qed.

Lemma accuracy_weights_nonneg model_accuracy probabilities :
  Forall (fun w => 0 <= w.2) (accuracy_weights model_accuracy probabilities).
Proof.
  unfold accuracy_weights. apply Forall_fmap, Forall_forall. intros entry _. simpl.
  apply square_nonneg.
Qed.

(** The normalised weights are not negative and sum to 1. *)
Lemma normalize_weights_sum ws ws' :
  Forall (fun w => 0 <= w.2) ws ->
  normalize_weights ws = Some ws' ->
  Forall (fun w => 0 <= w.2) ws' /\ total_of ws' == 1 /\ length ws' = length ws.
Proof.
  intros Hnn. unfold normalize_weights.
  destruct (Qgtb (total_of ws) 0) eqn:Hpos.
  - apply Qgtb_gt in Hpos. intros [= <-]. split; [|split].
    + apply Forall_fmap. eapply Forall_impl; [exact Hnn|].
      intros w Hw. cbv beta in Hw. cbn [fst snd].
      apply Qle_shift_div_l; [exact Hpos|]. lra.
    + rewrite total_of_scaled by lra. field. lra.
    + apply length_fmap.
  - destruct ws as [|w ws]; [discriminate|].
    remember (w :: ws) as l eqn:Hl. intros [= <-].
    set (n := inject_Z (Z.of_nat (length l))).
    assert (Hn : 0 < n).
    { subst n l. change 0 with (inject_Z 0). rewrite <- Zlt_Qlt. simpl length. lia. }
    split; [|split].
    + apply Forall_fmap, Forall_forall. intros x _. cbn [fst snd].
      apply Qle_shift_div_l; [exact Hn|]. lra.
    + rewrite total_of_constant. fold n. field. lra.
    + apply length_fmap.
Qed.

Lemma combine_folds (ws : list (string * Q)) (ps : list (string * (Q * Q))) (u d : Q) :
  length ws = length ps ->
  Forall (fun w => 0 <= w.2) ws ->
  let up := fold_left (fun up wp => up + wp.2.2.1 * wp.1.2) (zip ws ps) u in
  let down := fold_left (fun down wp => down + wp.2.2.2 * wp.1.2) (zip ws ps) d in
  (Forall (fun p => p.2.1 + p.2.2 == 1) ps -> up + down == u + d + total_of ws) /\
  (Forall (fun p => p.2.2 < p.2.1) ps -> d <= u -> 0 < total_of ws \/ d < u -> down < up) /\
  (Forall (fun p => p.2.1 <= p.2.2) ps -> u <= d -> up <= down).
Proof.
  revert ps u d. induction ws as [|w ws IH]; intros ps u d Hlen Hnn.
  - simpl. split; [|split].
    + intros _. unfold total_of. simpl. ring.
    + intros _ Hdu [Hz|Hlt]; [unfold total_of in Hz; simpl in Hz; lra | exact Hlt].
    + intros _ Hud. exact Hud.
  - destruct ps as [|p ps]; [discriminate|].
    apply Forall_cons in Hnn as [Hw Hnn]. injection Hlen as Hlen.
    simpl zip. simpl fold_left.
    destruct (IH ps (u + p.2.1 * w.2) (d + p.2.2 * w.2) Hlen Hnn) as (Hsum & Hup & Hdown).
    repeat split.
    + intros Hall. apply Forall_cons in Hall as [Hp Hall].
      rewrite (Hsum Hall), total_of_cons. nra.
    + intros Hall Hdu Hstrict. apply Forall_cons in Hall as [Hp Hall].
      apply (Hup Hall).
      * nra.
      * rewrite total_of_cons in Hstrict.
        destruct (Qlt_le_dec 0 (total_of ws)) as [Ht|Ht]; [left; exact Ht|].
        right. pose proof (total_of_nonneg ws Hnn).
        destruct Hstrict as [Hs|Hs]; nra.
    + intros Hall Hud. apply Forall_cons in Hall as [Hp Hall].
      apply (Hdown Hall). nra.
Qed.

(** X20: [combine_predictions] fails only for an empty set of models;
    otherwise its weights are not negative and sum to 1, the combined
    probabilities sum to 1 when those of every model do, the ensemble predicts
    class 1 when every model gives the larger probability to UP, and class 0
    when none does (a tie is DOWN). *)
Theorem combine_predictions_convex (model_accuracy : gmap string Q)
    (probabilities : list (string * (Q * Q))) :
  probabilities <> [] ->
  exists e,
    combine_predictions model_accuracy probabilities = Some e /\
    Forall (fun w => 0 <= w.2) (weights e) /\ total_of (weights e) == 1 /\
    (Forall (fun p => p.2.1 + p.2.2 == 1) probabilities ->
     up_probability e + down_probability e == 1) /\
    (Forall (fun p => p.2.2 < p.2.1) probabilities -> final_prediction e = 1%Z) /\
    (Forall (fun p => p.2.1 <= p.2.2) probabilities -> final_prediction e = 0%Z).
Proof.
  intros Hne. unfold combine_predictions.
  pose proof (accuracy_weights_nonneg model_accuracy probabilities) as Hnn.
  destruct (normalize_weights (accuracy_weights model_accuracy probabilities))
    as [ws|] eqn:Hnorm.
  - destruct (normalize_weights_sum _ _ Hnn Hnorm) as (Hws & Hsum & Hlen).
    assert (Hlen' : length ws = length probabilities).
    { rewrite Hlen. unfold accuracy_weights. apply length_fmap. }
    destruct (combine_folds ws probabilities 0 0 Hlen' Hws) as (Hs & Hu & Hd).
    simpl. eexists. split; [reflexivity|]. cbn [weights up_probability down_probability
                                                 final_prediction].
    repeat split; try assumption.
    + intros Hall. rewrite (Hs Hall), Hsum. ring.
    + intros Hall.
      assert (Hlt : fold_left (fun down wp => down + wp.2.2.2 * wp.1.2) (zip ws probabilities) 0
                    < fold_left (fun up wp => up + wp.2.2.1 * wp.1.2) (zip ws probabilities) 0).
      { apply Hu; [exact Hall | lra | left; lra]. }
      apply Qgtb_gt in Hlt. rewrite Hlt. reflexivity.
    + intros Hall.
      assert (Hle : fold_left (fun up wp => up + wp.2.2.1 * wp.1.2) (zip ws probabilities) 0
                    <= fold_left (fun down wp => down + wp.2.2.2 * wp.1.2) (zip ws probabilities) 0).
      { apply Hd; [exact Hall | lra]. }
      apply Qltb_ge in Hle. unfold Qgtb. rewrite Hle. reflexivity.
  - exfalso. unfold normalize_weights in Hnorm.
    destruct (Qgtb _ 0); [discriminate|].
    unfold accuracy_weights in Hnorm.
    destruct probabilities; [contradiction | discriminate].
Qed.

(** X21: the technical fallback gives probabilities that sum to 1 and
    predicts UP exactly when the up probability exceeds one half; the up
    probability lies in [0, 1] exactly for a strength in [-100, 100] and the
    down probability is negative exactly for a strength above 100.  On the
    signals of [generate_signals], whose strength reaches 112, the up
    probability lies between 0 and 1.06 and the down probability is at most
    1; on the snapshot where every bullish rule fires the up probability
    exceeds 1 and the down probability is negative. *)
Theorem fallback_prediction_probabilities (ta : Analysis) :
  let p := fallback_prediction ta in
  let s := default 0%Z (strength (default no_signals (signals ta))) in
  prob_up p + prob_down p == 1 /\
  (prediction p = "UP"%string <-> 0.5 < prob_up p) /\
  (0 <= prob_up p <= 1 <-> (-100 <= s <= 100)%Z) /\
  (prob_down p < 0 <-> (100 < s)%Z) /\
  (let q := fallback_prediction (with_signals ta (generate_signals ta)) in
   0 <= prob_up q <= 1.06 /\ prob_down q <= 1) /\
  (let q := fallback_prediction
              (with_signals Samples.all_bullish (generate_signals Samples.all_bullish)) in
   1 < prob_up q /\ prob_down q < 0).
Proof.
  intros p s. subst p. unfold fallback_prediction. cbn [prob_up prob_down prediction].
  fold s.
  assert (Hs : forall z : Z, (inject_Z z + 100) / 200 == (inject_Z z + 100) * (1 # 200))
    by (intros; field).
  clearbody s.
  split; [ring|]. split; [|split; [|split; [|split]]].
  - destruct (s >? 0)%Z eqn:E.
    + split; [intros _ | reflexivity]. rewrite Hs.
      assert (0 < inject_Z s) by (change 0 with (inject_Z 0); rewrite <- Zlt_Qlt; lia).
      lra.
    + split; [discriminate|]. intros Hlt. exfalso. rewrite Hs in Hlt.
      assert (inject_Z s <= 0) by (change 0 with (inject_Z 0); rewrite <- Zle_Qle; lia).
      lra.
  - rewrite !Hs. split.
    + intros [Hlo Hhi]. rewrite !Zle_Qle.
      change (inject_Z (-100)) with (-100 # 1). change (inject_Z 100) with (100 # 1).
      split; lra.
    + intros [Hlo Hhi]. rewrite Zle_Qle in Hlo, Hhi.
      change (inject_Z (-100)) with (-100 # 1) in Hlo.
      change (inject_Z 100) with (100 # 1) in Hhi.
      split; lra.
  - rewrite !Hs. rewrite Zlt_Qlt. change (inject_Z 100) with (100 # 1). split; intros; lra.
  - cbv zeta. unfold fallback_prediction. cbn [prob_up prob_down].
    unfold with_signals, generate_signals. cbn [signals strength from_option id].
    rewrite !Hs. destruct (run_rules_range ta) as [Hlo Hhi].
    rewrite Zle_Qle in Hlo, Hhi.
    change (inject_Z (-100)) with (-100 # 1) in Hlo.
    change (inject_Z 112) with (112 # 1) in Hhi.
    repeat split; lra.
  - split; vm_compute; reflexivity.
Qed.

End WeightedEnsemble.

(** ** Server: selection, labels and the ledger *)

Section LedgerFacts.
Import TechnicalAnalyzer Docs Server.
Context `{EnhancedML.Numpy} `{EnhancedML.Sklearn}.

Lemma latest_newest l x :
  latest l = Some x -> forall y, y ∈ l -> (timestamp y <= timestamp x)%Z.
Proof.
  destruct l as [|d rest]; simpl; [discriminate|].
  intros [= <-].
  assert (Hgen : forall best,
    (timestamp best <= timestamp (fold_left
       (fun best x => if (timestamp x >? timestamp best)%Z then x else best) rest best))%Z /\
    forall y, y ∈ rest ->
      (timestamp y <= timestamp (fold_left
         (fun best x => if (timestamp x >? timestamp best)%Z then x else best) rest best))%Z).
  { induction rest as [|z rest IH]; intros best; simpl.
    - split; [lia|]. intros y Hy. inversion Hy.
    - destruct (IH (if (timestamp z >? timestamp best)%Z then z else best)) as [Hb Hall].
      split.
      + destruct (timestamp z >? timestamp best)%Z eqn:E; lia.
      + intros y Hy. apply elem_of_cons in Hy as [->|Hy]; [|auto].
        destruct (timestamp z >? timestamp best)%Z eqn:E; lia. }
  intros y Hy. destruct (Hgen d) as [Hd Hall].
  apply elem_of_cons in Hy as [->|Hy]; auto.
Qed.

(** X22: the simulation selected for closing has been open for more than 120
    seconds and is the most recently opened of the open simulations of its
    table that have: selection is newest first, and a simulation opened
    exactly 120 seconds ago is not yet eligible. *)
Theorem selection_is_newest_eligible (d : Db) (now : Z) (sim : Simulation)
    (use_old_table : bool) :
  select_for_close d now = Some (sim, use_old_table) ->
  let table := if use_old_table then simulations d else enhanced_simulations d in
  sim ∈ table /\ closed sim = false /\ (120 < now - timestamp sim)%Z /\
  forall other, other ∈ table -> closed other = false ->
                (120 < now - timestamp other)%Z ->
                (timestamp other <= timestamp sim)%Z.
Proof.
  intros Hsel table.
  destruct (select_for_close_open d now sim use_old_table Hsel) as [Hopen Hin].
  unfold select_for_close in Hsel.
  destruct (filter _ (enhanced_simulations d)) as [|o rest] eqn:Hfilter.
  - destruct (latest _) as [x|] eqn:Hl; simpl in Hsel; [|discriminate].
    injection Hsel as -> <-. subst table.
    pose proof (latest_elem _ _ Hl) as Hx. apply list_elem_of_filter in Hx as [Hage _].
    repeat split; auto; [lia|].
    intros other Hother Hc Hage'. eapply latest_newest; [exact Hl|].
    apply list_elem_of_filter. split; [lia|]. apply list_elem_of_filter. auto.
  - destruct (latest _) as [x|] eqn:Hl; simpl in Hsel; [|discriminate].
    injection Hsel as -> <-. subst table.
    pose proof (latest_elem _ _ Hl) as Hx. apply list_elem_of_filter in Hx as [Hage _].
    repeat split; auto; [lia|].
    intros other Hother Hc Hage'. eapply latest_newest; [exact Hl|].
    apply list_elem_of_filter. split; [lia|]. rewrite <- Hfilter.
    apply list_elem_of_filter. auto.
Qed.

(** X23: the old table is only consulted when the enhanced table has no open
    simulation at all: while the enhanced table holds an open simulation that
    is not yet eligible, nothing is selected, whatever waits in the old
    table. *)
Theorem old_table_waits (d : Db) (now : Z) :
  (exists sim, sim ∈ enhanced_simulations d /\ closed sim = false) ->
  (forall sim, sim ∈ enhanced_simulations d -> closed sim = false ->
               (now - timestamp sim <= 120)%Z) ->
  select_for_close d now = None.
Proof.
  intros (sim & Hin & Hopen) Hyoung. unfold select_for_close.
  destruct (filter _ (enhanced_simulations d)) as [|o rest] eqn:Hfilter.
  - exfalso. assert (Hs : sim ∈ filter (fun sim => closed sim = false) (enhanced_simulations d))
      by (apply list_elem_of_filter; auto).
    rewrite Hfilter in Hs. inversion Hs.
  - assert (Hnone : filter (fun sim => (now - timestamp sim > 120)%Z) (o :: rest) = []).
    { destruct (filter (fun sim => (now - timestamp sim > 120)%Z) (o :: rest))
        as [|z zs] eqn:E; [reflexivity|].
      exfalso. assert (Hz : z ∈ z :: zs) by apply list_elem_of_here.
      rewrite <- E in Hz. apply list_elem_of_filter in Hz as [Hage Hz].
      rewrite <- Hfilter in Hz. apply list_elem_of_filter in Hz as [Hc Hz].
      specialize (Hyoung z Hz Hc). lia. }
    rewrite Hnone. reflexivity.
Qed.

(** X24: unless the high-confidence bonus fires, the label and the stored
    result agree: a close is a success exactly when its result exceeds 0.1
    percent, and a failed DOWN prediction is stored with a result that is not
    positive even when the price fell a little. *)
Theorem result_matches_label (sim : Simulation) (current_price random_draw : Q) :
  let outcome := close_outcome sim current_price random_draw in
  bonus_applies (default "UNKNOWN"%string (entry_method sim))
                (default 0.5 (sim_confidence sim)) random_draw = true
  \/ ((outcome.1 = true <-> 0.1 < outcome.2) /\
      (trend sim = "UP"%string \/ outcome.1 = true \/ outcome.2 <= 0)).
Proof.
  unfold close_outcome. cbn [fst snd].
  destruct (bonus_applies _ _ _); [left; reflexivity | right].
  unfold price_success, price_result_pct, price_success.
  set (pc := price_change_pct (entry_price sim) current_price).
  destruct (decide (trend sim = "UP"%string)) as [Hup|Hdown].
  - split; [apply Qgtb_gt | left; exact Hup].
  - destruct (Qltb pc (-0.1)) eqn:Hlt.
    + apply Qltb_lt in Hlt. split; [|right; left; reflexivity].
      split; [intros _ | reflexivity].
      apply Qlt_le_trans with (- pc); [lra|].
      rewrite <- Qabs_opp. apply Qle_Qabs.
    + apply Qltb_ge in Hlt. pose proof (Qabs_nonneg pc).
      split; [|right; right; lra].
      split; [discriminate | intros Hres; exfalso; lra].
Qed.

Lemma update_one_missing id u coll :
  (forall sim, sim ∈ coll -> sim_id sim <> id) -> update_one id u coll = (coll, 0%nat).
Proof.
  induction coll as [|d rest IH]; intros Hne; simpl; [reflexivity|].
  destruct (decide (sim_id d = id)) as [Hd|Hd].
  - exfalso. apply (Hne d); [apply list_elem_of_here | exact Hd].
  - rewrite IH by (intros sim Hin; apply Hne, list_elem_of_further, Hin). reflexivity.
Qed.

Lemma update_one_found id u coll :
  (exists sim, sim ∈ coll /\ sim_id sim = id) -> (update_one id u coll).2 = 1%nat.
Proof.
  induction coll as [|d rest IH]; intros (sim & Hin & Hid); simpl.
  - inversion Hin.
  - destruct (decide (sim_id d = id)) as [Hd|Hd]; [reflexivity|].
    apply elem_of_cons in Hin as [->|Hin]; [contradiction|].
    specialize (IH (ex_intro _ sim (conj Hin Hid))).
    destruct (update_one id u rest) as [rest' n]. exact IH.
Qed.

Lemma update_one_length id u coll : length (update_one id u coll).1 = length coll.
Proof.
  induction coll as [|d rest IH]; simpl; [reflexivity|].
  destruct (decide (sim_id d = id)) as [Hd|Hd]; [reflexivity|].
  destruct (update_one id u rest) as [rest' cnt]. simpl in *. lia.
Qed.

(** X25: a manual update of an id that no document carries changes nothing
    and is answered with status 500 (the 404 raised inside the handler is
    caught by its own [except]); an id present in the enhanced table is
    answered with success and leaves the old table untouched; no update ever
    adds or removes a document. *)
Theorem update_simulation_response (st : State) (simulation_id : string)
    (update_data : UpdateData) (now : EnhancedML.Clock) :
  let r := update_simulation st simulation_id update_data now in
  ((forall sim, sim ∈ enhanced_simulations (db st) ++ simulations (db st) ->
                sim_id sim <> simulation_id) ->
   r = (st, HttpError 500)) /\
  ((exists sim, sim ∈ enhanced_simulations (db st) /\ sim_id sim = simulation_id) ->
   r.2 = Updated /\ simulations (db r.1) = simulations (db st)) /\
  length (enhanced_simulations (db r.1)) = length (enhanced_simulations (db st)) /\
  length (simulations (db r.1)) = length (simulations (db st)).
Proof.
  intros r. subst r. unfold update_simulation.
  split; [|split].
  - intros Hnone.
    rewrite (update_one_missing simulation_id update_data (enhanced_simulations (db st)))
      by (intros sim Hin; apply Hnone, elem_of_app; auto).
    simpl.
    rewrite (update_one_missing simulation_id update_data (simulations (db st)))
      by (intros sim Hin; apply Hnone, elem_of_app; auto).
    simpl. destruct st as [[e o] ml els]. reflexivity.
  - intros Hfound.
    pose proof (update_one_found simulation_id update_data _ Hfound) as Hm.
    destruct (update_one simulation_id update_data (enhanced_simulations (db st)))
      as [e' m]. simpl in Hm. subst m. simpl.
    destruct (ud_learning_feedback update_data), (enhanced_ml_system st); simpl; auto.
  - pose proof (update_one_length simulation_id update_data (enhanced_simulations (db st))) as He.
    pose proof (update_one_length simulation_id update_data (simulations (db st))) as Ho.
    destruct (update_one simulation_id update_data (enhanced_simulations (db st)))
      as [e' m]. simpl in He.
    destruct (m =? 0)%nat eqn:Hm0.
    + destruct (update_one simulation_id update_data (simulations (db st))) as [o' m'].
      simpl in Ho. destruct (m' =? 0)%nat; simpl; auto.
    + rewrite Hm0. simpl. auto.
Qed.

Lemma update_one_insert u coll i sim :
  NoDup (sim_id <$> coll) -> coll !! i = Some sim ->
  (update_one (sim_id sim) u coll).1 = <[i := set_fields u sim]> coll.
Proof.
  revert i. induction coll as [|d rest IH]; intros i Hnd Hi; [discriminate|].
  rewrite fmap_cons in Hnd. apply NoDup_cons in Hnd as [Hnotin Hnd]. simpl.
  destruct (decide (sim_id d = sim_id sim)) as [Hd|Hd].
  - destruct i as [|i]; simpl in *.
    + injection Hi as ->. reflexivity.
    + exfalso. apply Hnotin. rewrite Hd. apply list_elem_of_fmap. exists sim.
      split; [reflexivity|]. apply list_elem_of_lookup. eauto.
  - destruct i as [|i]; simpl in *.
    + injection Hi as ->. contradiction.
    + specialize (IH i Hnd Hi). destruct (update_one (sim_id sim) u rest) as [rest' cnt].
      simpl in *. rewrite IH. reflexivity.
Qed.

(** X26: a close changes exactly one document: with unique ids, the selected
    simulation of the enhanced table is replaced in place by its closed
    version, which carries the oracle price as exit price, the label of
    [close_outcome], that label again as learning feedback and a result, and
    keeps its id, entry price and trend; every other document of both tables
    stays as it was. *)
Theorem close_changes_one_document (st : State) (now : Z) (clock : EnhancedML.Clock)
    (price random_draw : Q) (sim : Simulation) :
  NoDup (sim_id <$> enhanced_simulations (db st)) ->
  select_for_close (db st) now = Some (sim, false) ->
  ~ entry_price sim == 0 ->
  let r := close_real_simulation st now clock (Some price) random_draw in
  let outcome := close_outcome sim price random_draw in
  r.2 = Some (sim_id sim) /\
  simulations (db r.1) = simulations (db st) /\
  exists i closed_version,
    enhanced_simulations (db st) !! i = Some sim /\
    enhanced_simulations (db r.1) = <[i := closed_version]> (enhanced_simulations (db st)) /\
    closed closed_version = true /\
    exit_price closed_version = Some price /\
    success closed_version = Some outcome.1 /\
    learning_feedback closed_version = Some outcome.1 /\
    is_Some (result_pct closed_version) /\
    sim_id closed_version = sim_id sim /\
    entry_price closed_version = entry_price sim /\
    trend closed_version = trend sim.
Proof.
  intros Hnd Hsel Hentry r outcome. subst r outcome.
  destruct (select_for_close_open _ _ _ _ Hsel) as [Hopen Hin].
  apply list_elem_of_lookup in Hin as [i Hi].
  unfold close_real_simulation. rewrite Hsel.
  replace (Qeq_bool (entry_price sim) 0) with false.
  2:{ symmetry. destruct (Qeq_bool (entry_price sim) 0) eqn:E; [|reflexivity].
      apply Qeq_bool_eq in E. contradiction. }
  destruct (close_outcome sim price random_draw) as [is_success result] eqn:Hout.
  cbn [fst snd db enhanced_simulations simulations].
  split; [reflexivity|]. split; [reflexivity|].
  eexists i, _. split; [exact Hi|].
  split; [apply update_one_insert; assumption|].
  repeat split; try reflexivity. eexists. reflexivity.
Qed.

Lemma fold_max_bounds (rest : list Q) (x : Q) :
  x <= fold_left Qmax rest x /\ forall y, y ∈ rest -> y <= fold_left Qmax rest x.
Proof.
  revert x. induction rest as [|z rest IH]; intros x; simpl.
  - split; [lra|]. intros y Hy. inversion Hy.
  - destruct (IH (Qmax x z)) as [Hx Hall].
    pose proof (Q.le_max_l x z). pose proof (Q.le_max_r x z).
    split; [lra|]. intros y Hy. apply elem_of_cons in Hy as [->|Hy]; [lra | auto].
Qed.

Lemma fold_min_bounds (rest : list Q) (x : Q) :
  fold_left Qmin rest x <= x /\ forall y, y ∈ rest -> fold_left Qmin rest x <= y.
Proof.
  revert x. induction rest as [|z rest IH]; intros x; simpl.
  - split; [lra|]. intros y Hy. inversion Hy.
  - destruct (IH (Qmin x z)) as [Hx Hall].
    pose proof (Q.le_min_l x z). pose proof (Q.le_min_r x z).
    split; [lra|]. intros y Hy. apply elem_of_cons in Hy as [->|Hy]; [lra | auto].
Qed.

Lemma fold_plus_nonneg (l : list Q) (a : Q) :
  0 <= a -> (forall x, x ∈ l -> 0 <= x) -> 0 <= fold_left Qplus l a.
Proof.
  revert a. induction l as [|x l IH]; intros a Ha Hall; simpl; [exact Ha|].
  apply IH.
  - pose proof (Hall x (list_elem_of_here _ _)). lra.
  - intros y Hy. apply Hall, list_elem_of_further, Hy.
Qed.

Lemma fold_plus_nonpos (l : list Q) (a : Q) :
  a <= 0 -> (forall x, x ∈ l -> x <= 0) -> fold_left Qplus l a <= 0.
Proof.
  revert a. induction l as [|x l IH]; intros a Ha Hall; simpl; [exact Ha|].
  apply IH.
  - pose proof (Hall x (list_elem_of_here _ _)). lra.
  - intros y Hy. apply Hall, list_elem_of_further, Hy.
Qed.

Lemma filter_split_length (l : list Simulation) :
  (length (filter (fun s => default false (success s) = true) l)
   + length (filter (fun s => default false (success s) = false) l) = length l)%nat.
Proof.
  induction l as [|x l IH]; [reflexivity|].
  rewrite !filter_cons.
  destruct (decide (default false (success x) = true)) as [Ht|Ht];
    destruct (decide (default false (success x) = false)) as [Hf|Hf]; simpl.
  - congruence.
  - lia.
  - lia.
  - destruct (default false (success x)); congruence.
Qed.

(** X27: the trading statistics are coherent: wins and losses add up to the
    closed simulations, which are no more than all simulations; the win rate
    lies between 0 and 100; the result of every closed simulation lies
    between the worst and the best trade; and the average result is not
    negative when the worst trade is not, and not positive when the best
    trade is not. *)
Theorem trading_stats_coherent (st : State) :
  let t := get_advanced_trading_stats st in
  (wins t + losses t = closed_simulations t)%nat /\
  (closed_simulations t <= total_simulations t)%nat /\
  0 <= win_rate t <= 100 /\
  worst_trade t <= best_trade t /\
  (forall sim r,
     sim ∈ enhanced_simulations (db st) ++ simulations (db st) ->
     closed sim = true -> result_pct sim = Some r ->
     worst_trade t <= r <= best_trade t) /\
  (0 <= worst_trade t -> 0 <= avg_profit t) /\
  (best_trade t <= 0 -> avg_profit t <= 0).
Proof.
  intros t. subst t. unfold get_advanced_trading_stats.
  cbn [wins losses closed_simulations total_simulations win_rate worst_trade avg_profit
       best_trade].
  set (all := enhanced_simulations (db st) ++ simulations (db st)).
  set (closed_sims := filter (fun s => closed s = true) all).
  set (won := filter (fun s => default false (success s) = true) closed_sims).
  set (profits := omap result_pct closed_sims).
  split; [apply filter_split_length|].
  split; [apply length_filter|].
  assert (Hprofits : forall sim r, sim ∈ all -> closed sim = true -> result_pct sim = Some r ->
                                   r ∈ profits).
  { intros sim r Hin Hclosed Hr. subst profits. apply list_elem_of_omap.
    exists sim. split; [|exact Hr]. subst closed_sims. apply list_elem_of_filter.
    split; assumption. }
  clearbody closed_sims. split.
  - assert (Hlen : (length won <= length closed_sims)%nat) by apply length_filter.
    clearbody won. destruct closed_sims as [|c cs]; [lra|].
    cbv iota. set (closed_sims := c :: cs) in *.
    assert (Hpos : (0 < length closed_sims)%nat) by (simpl; lia).
    destruct (ratio_bounds (Z.of_nat (length won)) (Z.of_nat (length closed_sims)))
      as [Hlo Hhi]; [lia | lia |].
    split; lra.
  - clearbody profits. destruct profits as [|x rest].
    { cbn [min_or_zero max_or_zero]. split; [lra|]. split.
      - intros sim r Hin Hclosed Hr. specialize (Hprofits sim r Hin Hclosed Hr).
        inversion Hprofits.
      - split; intros _; lra. }
    cbn [min_or_zero max_or_zero].
    destruct (fold_max_bounds rest x) as [Hmx Hmall].
    destruct (fold_min_bounds rest x) as [Hmn Hnall].
    set (hi := fold_left Qmax rest x) in *. set (lo := fold_left Qmin rest x) in *.
    assert (Hall : forall y, y ∈ x :: rest -> lo <= y <= hi).
    { intros y Hy. apply elem_of_cons in Hy as [->|Hy]; split; auto. }
    set (n := inject_Z (Z.of_nat (length (x :: rest)))).
    assert (Hn : 0 < n).
    { subst n. change 0 with (inject_Z 0). rewrite <- Zlt_Qlt. simpl length. lia. }
    split; [lra|]. split; [|split].
    + intros sim r Hin Hclosed Hr. apply Hall. exact (Hprofits sim r Hin Hclosed Hr).
    + intros Hlo. apply Qle_shift_div_l; [exact Hn|].
      assert (0 <= sum_list (x :: rest)).
      { unfold sum_list. apply fold_plus_nonneg; [lra|].
        intros y Hy. destruct (Hall y Hy). lra. }
      lra.
    + intros Hhi. apply Qle_shift_div_r; [exact Hn|].
      assert (sum_list (x :: rest) <= 0).
      { unfold sum_list. apply fold_plus_nonpos; [lra|].
        intros y Hy. destruct (Hall y Hy). lra. }
      lra.
Qed.

End LedgerFacts.

(** ** The simulation generator *)

Section GeneratorFacts.
Import TechnicalAnalyzer Docs Server.
Context `{IndicatorLib} `{EnhancedML.Numpy} `{EnhancedML.Sklearn}.

(** X28: a generation either stores nothing and leaves both tables as they
    were, or appends exactly one document to the enhanced table: the returned
    simulation, open and without outcome, with the fresh id, the time of the
    call, the oracle price as entry price and an entry method that mentions
    REAL. *)
Theorem generate_appends_one_open (st : State) (market_df : option (list Bar)) (now : Z)
    (clock : EnhancedML.Clock) (current_price : option Q) (coin : bool) (new_id : string) :
  let r := generate_real_simulation st market_df now clock current_price coin new_id in
  match r.2 with
  | None => db r.1 = db st
  | Some sim =>
    db r.1 = {| enhanced_simulations := enhanced_simulations (db st) ++ [sim];
                simulations := simulations (db st) |} /\
    sim_id sim = new_id /\ timestamp sim = now /\
    current_price = Some (entry_price sim) /\
    closed sim = false /\ exit_price sim = None /\
    success sim = None /\ result_pct sim = None /\
    exists m, entry_method sim = Some m /\ str_contains "REAL" m = true
  end.
Proof.
  intros r. subst r. unfold generate_real_simulation.
  destruct (comprehensive_analysis market_df) as [ta|]; [|reflexivity].
  destruct (enhanced_ml_system st) as [ml|]; cbn [fmap option_fmap option_map fst snd].
  - destruct (EnhancedML.advanced_prediction ml (Some ta) clock coin) as [ml' p].
    cbn [fst snd]. destruct current_price as [price|]; cbn [fst snd db]; [|reflexivity].
    repeat split. eexists. split; reflexivity.
  - destruct current_price as [price|]; cbn [fst snd db]; [|reflexivity].
    repeat split. eexists. split; reflexivity.
Qed.

Lemma generate_real_simulation_stores (st : State) (market_df : option (list Bar)) (now : Z)
    (clock : EnhancedML.Clock) (current_price : option Q) (coin : bool) (new_id : string)
    (sim : Simulation) :
  (generate_real_simulation st market_df now clock current_price coin new_id).2 = Some sim ->
  enhanced_simulations
    (db (generate_real_simulation st market_df now clock current_price coin new_id).1)
  = enhanced_simulations (db st) ++ [sim]
  /\ sim_id sim = new_id /\ timestamp sim = now /\ closed sim = false.
Proof.
  unfold generate_real_simulation.
  destruct (comprehensive_analysis market_df) as [ta|]; [|discriminate].
  destruct (enhanced_ml_system st) as [ml|]; cbn [fmap option_fmap option_map fst snd].
  - destruct (EnhancedML.advanced_prediction ml (Some ta) clock coin) as [ml' p].
    cbn [fst snd]. destruct current_price as [price|]; cbn [fst snd db]; [|discriminate].
    intros [= <-]. repeat split.
  - destruct current_price as [price|]; cbn [fst snd db]; [|discriminate].
    intros [= <-]. repeat split.
Qed.

(** X29: generation and closing compose: when every earlier document of the
    enhanced table is closed, a simulation generated at [now] with a non-zero
    entry price is the one the next close settles, provided that close runs
    more than 120 seconds later and the price oracle answers. *)
Theorem generated_then_closed (st : State) (market_df : option (list Bar)) (now : Z)
    (clock : EnhancedML.Clock) (current_price : option Q) (coin : bool) (new_id : string)
    (sim : Simulation) (later : Z) (clock' : EnhancedML.Clock) (exit random_draw : Q) :
  Forall (fun s => closed s = true) (enhanced_simulations (db st)) ->
  (generate_real_simulation st market_df now clock current_price coin new_id).2 = Some sim ->
  ~ entry_price sim == 0 ->
  (later - now > 120)%Z ->
  (close_real_simulation
     (generate_real_simulation st market_df now clock current_price coin new_id).1
     later clock' (Some exit) random_draw).2 = Some new_id.
Proof.
  intros Hclosed Hgen Hentry Hlater.
  destruct (generate_real_simulation_stores _ _ _ _ _ _ _ _ Hgen) as (Hdb & Hid & Hts & Hopen).
  set (st' := (generate_real_simulation st market_df now clock current_price coin new_id).1)
    in *.
  assert (Hsel : select_for_close (db st') later = Some (sim, false)).
  { unfold select_for_close. rewrite Hdb. cbn [enhanced_simulations simulations].
    rewrite filter_app.
    replace (filter (fun s => closed s = false) (enhanced_simulations (db st))) with
      (@nil Simulation).
    2:{ symmetry. clear -Hclosed. induction Hclosed as [|x l Hx _ IH]; [reflexivity|].
        rewrite filter_cons. destruct (decide (closed x = false)); [congruence | exact IH]. }
    rewrite filter_cons, filter_nil. destruct (decide (closed sim = false)); [|contradiction].
    cbn [app]. rewrite filter_cons, filter_nil.
    destruct (decide (later - timestamp sim > 120)%Z) as [_|Hn]; [reflexivity|].
    exfalso. apply Hn. rewrite Hts. exact Hlater. }
  unfold close_real_simulation. rewrite Hsel.
  replace (Qeq_bool (entry_price sim) 0) with false.
  2:{ symmetry. destruct (Qeq_bool (entry_price sim) 0) eqn:E; [|reflexivity].
      apply Qeq_bool_eq in E. contradiction. }
  destruct (close_outcome sim exit random_draw) as [is_success result].
  cbn [snd]. rewrite Hid. reflexivity.
Qed.

End GeneratorFacts.

(** ** Worked instances

    Each lemma below applies one of the properties above to sample data and
    checks its conditions there. *)

(** One flat bar shows no pattern, and the last of three flat bars is neither
    an engulfing nor a hammer. *)
Lemma flat_candle_no_pattern_witness :
  ((length [Samples.flat_bar] < 3)%nat /\
   Indicators.detect_candlestick_patterns [Samples.flat_bar] = Indicators.no_pattern) /\
  last Samples.three_flat = Some Samples.flat_bar /\
  TechnicalAnalyzer.engulfing (Indicators.detect_candlestick_patterns Samples.three_flat)
  = Some false /\
  TechnicalAnalyzer.hammer (Indicators.detect_candlestick_patterns Samples.three_flat)
  = Some false.
Proof.
  assert (Hshort : (length [Samples.flat_bar] < 3)%nat) by (simpl; lia).
  assert (Hlast : last Samples.three_flat = Some Samples.flat_bar) by reflexivity.
  assert (Hflat : TechnicalAnalyzer.bar_open Samples.flat_bar
                  == TechnicalAnalyzer.bar_close Samples.flat_bar) by reflexivity.
  assert (Hhigh : TechnicalAnalyzer.bar_close Samples.flat_bar
                  <= TechnicalAnalyzer.bar_high Samples.flat_bar)
    by (vm_compute; discriminate).
  destruct (flat_candle_no_pattern [Samples.flat_bar]) as [Hnone _].
  destruct (flat_candle_no_pattern Samples.three_flat) as [_ Hlast_bar].
  destruct (Hlast_bar Samples.flat_bar Hlast Hflat) as [Hengulfing Hhammer].
  split; [split; [exact Hshort | exact (Hnone Hshort)] |].
  split; [exact Hlast |]. split; [exact Hengulfing | exact (Hhammer Hhigh)].
Defined.

(** Three flat bars at 100: support below, resistance above. *)
Lemma levels_bracket_price_witness :
  last Samples.three_flat = Some Samples.flat_bar /\
  0 < TechnicalAnalyzer.bar_close Samples.flat_bar /\
  exists lv,
    Indicators.calculate_support_resistance Samples.three_flat = Some lv /\
    Indicators.lv_support lv < 100 /\ 100 < Indicators.lv_resistance lv.
Proof.
  assert (Hlast : last Samples.three_flat = Some Samples.flat_bar) by reflexivity.
  assert (Hclose : 0 < TechnicalAnalyzer.bar_close Samples.flat_bar) by reflexivity.
  assert (Hlows : forall b, b ∈ Samples.three_flat -> 0 < TechnicalAnalyzer.bar_low b).
  { intros b Hb. apply elem_of_replicate in Hb as [-> _]. reflexivity. }
  destruct (levels_bracket_price Samples.three_flat Samples.flat_bar Hlast Hclose Hlows)
    as (lv & rd & sd & Hlv & _ & Hbelow & Habove & _).
  split; [exact Hlast |]. split; [exact Hclose |].
  exists lv. split; [exact Hlv |]. split; [exact Hbelow | exact Habove].
Defined.

(** The volume spike: a last volume of 3 against a mean of 1.1. *)
Lemma volume_strength_floor_witness :
  TechnicalAnalyzer.volume Samples.spike_analysis
  = Some (Indicators.analyze_volume Samples.volume_spike) /\
  exists vs,
    TechnicalAnalyzer.volume_strength (Indicators.analyze_volume Samples.volume_spike)
    = Some vs /\ -100 <= vs.
Proof.
  assert (Hvolumes : forall b, b ∈ Samples.volume_spike -> 0 <= TechnicalAnalyzer.bar_volume b).
  { intros b Hb. apply elem_of_app in Hb as [Hb|Hb].
    - apply elem_of_replicate in Hb as [-> _]. vm_compute. discriminate.
    - apply list_elem_of_singleton in Hb as ->. vm_compute. discriminate. }
  assert (Hta : TechnicalAnalyzer.volume Samples.spike_analysis
                = Some (Indicators.analyze_volume Samples.volume_spike)) by reflexivity.
  destruct (volume_strength_floor Samples.volume_spike Samples.spike_analysis Hvolumes Hta)
    as (vs & Hvs & Hfloor & _).
  split; [exact Hta |]. exists vs. split; [exact Hvs | exact Hfloor].
Defined.

(** A golden cross adds 25 or 10 points. *)
Lemma ema_flags_agree_witness :
  TechnicalAnalyzer.emas Samples.crossed = Some (Indicators.calculate_emas_from 2 1 1 1) /\
  (TechnicalAnalyzer.golden_cross (Indicators.calculate_emas_from 2 1 1 1) = Some true
   <-> 1 < 2 /\ 1 <= 1).
Proof.
  assert (Hemas : TechnicalAnalyzer.emas Samples.crossed
                  = Some (Indicators.calculate_emas_from 2 1 1 1)) by reflexivity.
  destruct (ema_flags_agree 2 1 1 1 Samples.crossed
              (TechnicalAnalyzer.Build_SignalAcc [] [] 0) Hemas) as [Hgolden _].
  split; [exact Hemas | exact Hgolden].
Defined.

(** A price of 100 between bands at 90 and 110. *)
Lemma bollinger_position_range_witness :
  90 <= 110 /\
  exists position,
    TechnicalAnalyzer.bb_position
      (Indicators.calculate_bollinger_bands_from 100 110 100 90) = Some position.
Proof.
  assert (Hbands : 90 <= 110) by (vm_compute; discriminate).
  destruct (bollinger_position_range 100 110 100 90 Hbands) as (position & Hposition & _).
  split; [exact Hbands |]. exists position. exact Hposition.
Defined.

(** After one failure on the overbought snapshot no category has been seen
    more than five times: an optimize cycle leaves its weight alone. *)
Lemma optimize_touches_only_frequent_witness :
  ErrorLearning.most_common_errors
    (ErrorLearning.run [ErrorLearning.ObserveFailure Samples.failed_overbought])
  = [("rsi_overbought"%string, 1%Z); ("macd_false_signal"%string, 1%Z)] /\
  ErrorLearning.correction_weights
    (ErrorLearning.optimize_for_90_percent
       (ErrorLearning.run [ErrorLearning.ObserveFailure Samples.failed_overbought])).1
    !! "rsi_overbought"%string
  = ErrorLearning.correction_weights
      (ErrorLearning.run [ErrorLearning.ObserveFailure Samples.failed_overbought])
      !! "rsi_overbought"%string.
Proof.
  assert (Hcommon :
    ErrorLearning.most_common_errors
      (ErrorLearning.run [ErrorLearning.ObserveFailure Samples.failed_overbought])
    = [("rsi_overbought"%string, 1%Z); ("macd_false_signal"%string, 1%Z)])
    by (vm_compute; reflexivity).
  assert (Hrare : forall c,
    ("rsi_overbought"%string, c)
      ∈ ErrorLearning.most_common_errors
          (ErrorLearning.run [ErrorLearning.ObserveFailure Samples.failed_overbought]) ->
    (c <= 5)%Z).
  { intros c Hc. rewrite Hcommon in Hc.
    apply elem_of_cons in Hc as [Hc|Hc]; [injection Hc as ->; lia |].
    apply list_elem_of_singleton in Hc. discriminate Hc. }
  destruct (optimize_touches_only_frequent
              (ErrorLearning.run [ErrorLearning.ObserveFailure Samples.failed_overbought])
              "rsi_overbought" Hrare) as [Hkept _].
  split; [exact Hcommon | exact Hkept].
Defined.

(** Six failures on the golden cross select [ema_crossover_fail]; five cycles
    bring its weight to 0.5. *)
Lemma optimize_cycles_settle_witness :
  ("ema_crossover_fail"%string, 6%Z)
    ∈ ErrorLearning.most_common_errors (ErrorLearning.run Samples.six_failures) /\
  default 0 (ErrorLearning.correction_weights
               (ErrorLearning.continuous_learning_loop 5
                  (ErrorLearning.run Samples.six_failures))
             !! "ema_crossover_fail"%string) == 0.5.
Proof.
  assert (Hselected :
    ("ema_crossover_fail"%string, 6%Z)
      ∈ ErrorLearning.most_common_errors (ErrorLearning.run Samples.six_failures)).
  { replace (ErrorLearning.most_common_errors (ErrorLearning.run Samples.six_failures))
      with [("ema_crossover_fail"%string, 6%Z)] by (vm_compute; reflexivity).
    apply list_elem_of_here. }
  assert (Hcount : (5 < 6)%Z) by lia.
  assert (Hcycles : (5 <= 5)%nat) by lia.
  split; [exact Hselected |].
  exact (optimize_cycles_settle Samples.six_failures "ema_crossover_fail" 6 5
           Hselected Hcount Hcycles).
Defined.

(** No simulation gives no training data; ten closed ones give ten rows. *)
Lemma training_data_shape_witness :
  @EnhancedML.collect_training_data Samples.rational_tanh [] Samples.noon = None /\
  exists X y,
    @EnhancedML.collect_training_data Samples.rational_tanh Samples.ten_closed Samples.noon = Some (X, y) /\
    length X = 10%nat /\ length y = 10%nat.
Proof.
  destruct (@training_data_shape Samples.rational_tanh [] Samples.noon) as [Hfew _].
  destruct (@training_data_shape Samples.rational_tanh Samples.ten_closed Samples.noon) as [_ Henough].
  cbv zeta in Hfew, Henough.
  assert (Hnone :
    (length (filter (fun sim => Docs.closed sim = true /\ is_Some (Docs.technical_analysis sim))
                    (@nil Docs.Simulation)) < 10)%nat) by (simpl; lia).
  assert (Hten :
    length (filter (fun sim => Docs.closed sim = true /\ is_Some (Docs.technical_analysis sim))
                   Samples.ten_closed) = 10%nat) by (vm_compute; reflexivity).
  assert (Hfrom : (10 <= length (filter (fun sim => Docs.closed sim = true
                                           /\ is_Some (Docs.technical_analysis sim))
                                        Samples.ten_closed))%nat) by (rewrite Hten; lia).
  destruct (Henough Hfrom) as (X & y & Hdata & HX & Hy & _).
  split; [exact (Hfew Hnone) |].
  exists X, y. split; [exact Hdata |].
  rewrite Hten in HX. simpl in HX. split; [exact HX | rewrite Hy; exact HX].
Defined.

(** With a training that fails the predictor stays untrained through a
    prediction, and a reported outcome changes nothing. *)
Lemma untrained_discards_feedback_witness :
  EnhancedML.is_trained
    (@EnhancedML.run Samples.rational_tanh Samples.failing_sklearn [] Samples.noon
       [EnhancedML.Predict (Some Samples.overbought) Samples.noon true]) = false /\
  @EnhancedML.learn_from_result Samples.rational_tanh Samples.failing_sklearn
    (@EnhancedML.run Samples.rational_tanh Samples.failing_sklearn [] Samples.noon
       [EnhancedML.Predict (Some Samples.overbought) Samples.noon true])
    "a" true [] Samples.noon
  = @EnhancedML.run Samples.rational_tanh Samples.failing_sklearn [] Samples.noon
      [EnhancedML.Predict (Some Samples.overbought) Samples.noon true].
Proof.
  assert (Huntrained :
    EnhancedML.is_trained
      (@EnhancedML.run Samples.rational_tanh Samples.failing_sklearn [] Samples.noon
         [EnhancedML.Predict (Some Samples.overbought) Samples.noon true]) = false)
    by (vm_compute; reflexivity).
  destruct (@untrained_discards_feedback Samples.rational_tanh Samples.failing_sklearn
              [] Samples.noon
              [EnhancedML.Predict (Some Samples.overbought) Samples.noon true]
              "a" true [] Samples.noon Huntrained) as (_ & _ & _ & Hsame).
  split; [exact Huntrained | exact Hsame].
Defined.

(** A predictor trained on ten closed simulations stays trained through a
    prediction, an outcome and a retraining on nothing. *)
Lemma trained_is_permanent_witness :
  EnhancedML.is_trained
    (@EnhancedML.run Samples.rational_tanh Samples.bullish_sklearn Samples.ten_closed
       Samples.noon []) = true /\
  EnhancedML.is_trained
    (@EnhancedML.run Samples.rational_tanh Samples.bullish_sklearn Samples.ten_closed
       Samples.noon
       ([] ++ [EnhancedML.Predict (Some Samples.overbought) Samples.noon true;
               EnhancedML.Learn "a" false [] Samples.noon;
               EnhancedML.AutoRetrain [] Samples.noon])) = true.
Proof.
  assert (Htrained :
    EnhancedML.is_trained
      (@EnhancedML.run Samples.rational_tanh Samples.bullish_sklearn Samples.ten_closed
         Samples.noon []) = true) by (vm_compute; reflexivity).
  destruct (@trained_is_permanent Samples.rational_tanh Samples.bullish_sklearn
              Samples.ten_closed Samples.noon []
              [EnhancedML.Predict (Some Samples.overbought) Samples.noon true;
               EnhancedML.Learn "a" false [] Samples.noon;
               EnhancedML.AutoRetrain [] Samples.noon] Htrained) as [Hstill _].
  split; [exact Htrained | exact Hstill].
Defined.

(** The trained predictor answers UP on the overbought snapshot; a failed
    outcome reported next is scored against that prediction and counts as
    wrong. *)
Lemma ensemble_prediction_is_next_scored_witness :
  exists p,
    @EnhancedML.ensemble_prediction Samples.rational_tanh
      (@EnhancedML.run Samples.rational_tanh Samples.bullish_sklearn Samples.ten_closed
         Samples.noon [])
      (Some Samples.overbought) Samples.noon = Some p /\
    Docs.prediction p = "UP"%string /\
    EnhancedML.correct_predictions
      (EnhancedML.prediction_stats
         (@EnhancedML.learn_from_result Samples.rational_tanh Samples.bullish_sklearn
            (@EnhancedML.advanced_prediction Samples.rational_tanh
               (@EnhancedML.run Samples.rational_tanh Samples.bullish_sklearn
                  Samples.ten_closed Samples.noon [])
               (Some Samples.overbought) Samples.noon true).1
            "a" false [] Samples.noon))
    = 0%Z.
Proof.
  eexists.
  assert (Htrained :
    EnhancedML.is_trained
      (@EnhancedML.run Samples.rational_tanh Samples.bullish_sklearn Samples.ten_closed
         Samples.noon []) = true) by (vm_compute; reflexivity).
  assert (Hmodels :
    EnhancedML.models
      (@EnhancedML.run Samples.rational_tanh Samples.bullish_sklearn Samples.ten_closed
         Samples.noon []) <> []) by (vm_compute; discriminate).
  split; [vm_compute; reflexivity |].
  match goal with
  | |- Docs.prediction ?p = _ /\ _ =>
    pose proof (@ensemble_prediction_is_next_scored Samples.rational_tanh
                  Samples.bullish_sklearn _ (Some Samples.overbought) Samples.noon true p
                  "a" false [] Samples.noon Htrained Hmodels
                  ltac:(vm_compute; reflexivity)) as Hscored
  end.
  cbv zeta in Hscored. destruct Hscored as (_ & _ & _ & _ & Hcorrect).
  split; [reflexivity |].
  rewrite Hcorrect. vm_compute. reflexivity.
Defined.

(** Two models that favour UP: the ensemble predicts class 1 with weights
    that sum to 1. *)
Lemma combine_predictions_convex_witness :
  Samples.two_model_probabilities <> [] /\
  exists e,
    MLTrading.combine_predictions Samples.two_model_accuracy Samples.two_model_probabilities
    = Some e /\
    MLTrading.total_of (MLTrading.weights e) == 1 /\
    MLTrading.final_prediction e = 1%Z.
Proof.
  assert (Hmodels : Samples.two_model_probabilities <> []) by discriminate.
  destruct (combine_predictions_convex Samples.two_model_accuracy
              Samples.two_model_probabilities Hmodels)
    as (e & He & _ & Hsum & _ & Hup & _).
  split; [exact Hmodels |]. exists e. split; [exact He |]. split; [exact Hsum |].
  apply Hup. repeat constructor.
Defined.

(** At time 200 the ledger selects its open simulation, opened at time 0. *)
Lemma selection_is_newest_eligible_witness :
  Server.select_for_close (Server.db Samples.ledger) 200
  = Some (Samples.open_sim "b" 0 "UP" Samples.overbought, false) /\
  Samples.open_sim "b" 0 "UP" Samples.overbought
    ∈ Server.enhanced_simulations (Server.db Samples.ledger) /\
  (120 < 200 - Docs.timestamp (Samples.open_sim "b" 0 "UP" Samples.overbought))%Z.
Proof.
  assert (Hselected :
    Server.select_for_close (Server.db Samples.ledger) 200
    = Some (Samples.open_sim "b" 0 "UP" Samples.overbought, false))
    by (vm_compute; reflexivity).
  destruct (selection_is_newest_eligible (Server.db Samples.ledger) 200
              (Samples.open_sim "b" 0 "UP" Samples.overbought) false Hselected)
    as (Hin & _ & Hold & _).
  split; [exact Hselected |]. split; [exact Hin | exact Hold].
Defined.

(** An open simulation of the enhanced table that is 100 seconds old blocks
    the older one of the old table. *)
Lemma old_table_waits_witness :
  (exists sim, sim ∈ Server.enhanced_simulations Samples.waiting_db /\ Docs.closed sim = false) /\
  Server.select_for_close Samples.waiting_db 200 = None.
Proof.
  assert (Hopen : exists sim, sim ∈ Server.enhanced_simulations Samples.waiting_db
                              /\ Docs.closed sim = false).
  { exists (Samples.open_sim "b" 100 "UP" Samples.overbought).
    split; [apply list_elem_of_here | reflexivity]. }
  assert (Hyoung : forall sim, sim ∈ Server.enhanced_simulations Samples.waiting_db ->
                               Docs.closed sim = false ->
                               (200 - Docs.timestamp sim <= 120)%Z).
  { intros sim Hin _. apply list_elem_of_singleton in Hin as ->. simpl. lia. }
  split; [exact Hopen |].
  exact (old_table_waits Samples.waiting_db 200 Hopen Hyoung).
Defined.

(** On the ledger an update of the unknown id [zz] is answered with 500 and
    one of the id [a] with success. *)
Lemma update_simulation_response_witness :
  @Server.update_simulation Samples.rational_tanh Samples.failing_sklearn Samples.ledger
    "zz" Samples.rewrite_outcome Samples.noon
  = (Samples.ledger, Server.HttpError 500) /\
  (@Server.update_simulation Samples.rational_tanh Samples.failing_sklearn Samples.ledger
     "a" Samples.rewrite_outcome Samples.noon).2 = Server.Updated.
Proof.
  assert (Hunknown :
    forall sim,
      sim ∈ Server.enhanced_simulations (Server.db Samples.ledger)
            ++ Server.simulations (Server.db Samples.ledger) ->
      Docs.sim_id sim <> "zz"%string).
  { intros sim Hin. simpl in Hin.
    apply elem_of_cons in Hin as [->|Hin]; [discriminate |].
    apply list_elem_of_singleton in Hin as ->. discriminate. }
  assert (Hknown :
    exists sim, sim ∈ Server.enhanced_simulations (Server.db Samples.ledger)
                /\ Docs.sim_id sim = "a"%string).
  { exists (Samples.closed_sim "a"). split; [apply list_elem_of_here | reflexivity]. }
  destruct (@update_simulation_response Samples.rational_tanh Samples.failing_sklearn
              Samples.ledger "zz" Samples.rewrite_outcome Samples.noon) as [Hmissing _].
  destruct (@update_simulation_response Samples.rational_tanh Samples.failing_sklearn
              Samples.ledger "a" Samples.rewrite_outcome Samples.noon) as (_ & Hfound & _).
  split; [exact (Hmissing Hunknown) | exact (proj1 (Hfound Hknown))].
Defined.

(** Closing the ledger at time 200 with a price of 101 settles its open
    simulation and nothing else. *)
Lemma close_changes_one_document_witness :
  NoDup (Docs.sim_id <$> Server.enhanced_simulations (Server.db Samples.ledger)) /\
  Server.select_for_close (Server.db Samples.ledger) 200
  = Some (Samples.open_sim "b" 0 "UP" Samples.overbought, false) /\
  (@Server.close_real_simulation Samples.rational_tanh Samples.failing_sklearn
     Samples.ledger 200 Samples.noon (Some 101) 0.5).2 = Some "b"%string.
Proof.
  assert (Hunique :
    NoDup (Docs.sim_id <$> Server.enhanced_simulations (Server.db Samples.ledger))).
  { apply (bool_decide_unpack _). vm_compute. exact I. }
  assert (Hselected :
    Server.select_for_close (Server.db Samples.ledger) 200
    = Some (Samples.open_sim "b" 0 "UP" Samples.overbought, false))
    by (vm_compute; reflexivity).
  assert (Hentry : ~ Docs.entry_price (Samples.open_sim "b" 0 "UP" Samples.overbought) == 0).
  { intros E. vm_compute in E. discriminate E. }
  destruct (@close_changes_one_document Samples.rational_tanh Samples.failing_sklearn
              Samples.ledger 200 Samples.noon 101 0.5
              (Samples.open_sim "b" 0 "UP" Samples.overbought) Hunique Hselected Hentry)
    as [Hid _].
  split; [exact Hunique |]. split; [exact Hselected | exact Hid].
Defined.

(** A simulation generated at time 1000 into an empty ledger is the one
    closed at time 1200. *)
Lemma generated_then_closed_witness :
  Forall (fun s => Docs.closed s = true)
         (Server.enhanced_simulations (Server.db Samples.after_one_failure)) /\
  (@Server.close_real_simulation Samples.rational_tanh Samples.failing_sklearn
     (@Server.generate_real_simulation Samples.overbought_indicators Samples.rational_tanh
        Samples.after_one_failure (Some (replicate 50 Samples.flat_bar)) 1000 Samples.noon
        (Some 100) true "c").1
     1200 Samples.noon (Some 101) 0.5).2 = Some "c"%string.
Proof.
  assert (Hclosed :
    Forall (fun s => Docs.closed s = true)
           (Server.enhanced_simulations (Server.db Samples.after_one_failure)))
    by apply Forall_nil_2.
  split; [exact Hclosed |].
  eapply (@generated_then_closed Samples.overbought_indicators Samples.rational_tanh
            Samples.failing_sklearn Samples.after_one_failure
            (Some (replicate 50 Samples.flat_bar)) 1000 Samples.noon (Some 100) true "c"
            _ 1200 Samples.noon 101 0.5 Hclosed).
  - vm_compute. reflexivity.
  - intros E. vm_compute in E. discriminate E.
  - lia.
Defined.

(** On the ledger the only closed result is 1: the worst trade is not
    negative, and neither is the average. *)
Lemma trading_stats_coherent_witness :
  0 <= Server.worst_trade (Server.get_advanced_trading_stats Samples.ledger) /\
  0 <= Server.avg_profit (Server.get_advanced_trading_stats Samples.ledger) /\
  Server.worst_trade (Server.get_advanced_trading_stats Samples.ledger) <= 1
  <= Server.best_trade (Server.get_advanced_trading_stats Samples.ledger).
Proof.
  assert (Hworst : 0 <= Server.worst_trade (Server.get_advanced_trading_stats Samples.ledger))
    by (vm_compute; discriminate).
  destruct (trading_stats_coherent Samples.ledger)
    as (_ & _ & _ & _ & Hbetween & Hnonneg & _).
  split; [exact Hworst |]. split; [exact (Hnonneg Hworst) |].
  apply (Hbetween (Samples.closed_sim "a") 1).
  - simpl. apply list_elem_of_here.
  - reflexivity.
  - reflexivity.
Defined.
